(** * Balloon Pop Ultimate: the simulation core

    A shallow embedding of the game core of the repository
    ([src/lib/game/Balloon.ts], [Particle.ts], [PowerUpManager.ts],
    [GameEngine.ts] and the tables of [types/game]) together with the
    properties its specification states about it.

    Conventions of the embedding.
    - A JavaScript [number] that the code only ever uses as a counter
      (score, lives, level, combo) is a [Z]; a [number] that carries a
      coordinate, a speed, a probability or a time is a [Q].  Arithmetic is
      exact: the rounding of IEEE doubles is not modelled.
    - [Math.sin], [Math.cos], [Math.sqrt] and [Math.PI] come from the
      platform; they are a parameter ([MathLib]) of every definition that
      calls them.
    - [Math.random()] and [performance.now()] are inputs of the call that
      reads them: a call receives the stream of the draws it will make and
      the clock reading of the moment ([Env]).  Draws are consumed in the
      order in which the source evaluates them.
    - The methods of a class mutate [this]; here they are functions from the
      object before the call to the object after it.  The callbacks handed
      to the engine ([GameEvents]) are pure notifications; the engine
      records every notification it delivers, in order, in [events]. *)

From Stdlib Require Import ZArith QArith Qround Qminmax Bool List String Lia Lqa.
Import ListNotations.

Local Open Scope Q_scope.

(** ** Numbers *)

(** [a < b] on numbers, as a boolean. *)
Definition Qltb (a b : Q) : bool := negb (Qle_bool b a).

(** [Math.round]: the nearest integer, halves rounded up. *)
Definition Math_round (a : Q) : Z := Qfloor (a + (1 # 2)).

(** [a % m] for a positive modulus and a non-negative [a]. *)
Definition Qmod (a m : Q) : Q := a - m * inject_Z (Qfloor (a / m)).

(** The platform's mathematical library. *)
Record MathLib : Type := {
  Math_sin : Q -> Q;
  Math_cos : Q -> Q;
  Math_sqrt : Q -> Q;
  Math_PI : Q
}.

(** ** Randomness

    A computation that reads [Math.random()] takes the stream of draws and
    the number of draws already consumed, and returns its result with the
    new count. *)

Definition Rand (A : Type) : Type := (nat -> Q) -> nat -> A * nat.

Definition ret {A} (a : A) : Rand A := fun _ k => (a, k).

Definition bind {A B} (m : Rand A) (f : A -> Rand B) : Rand B :=
  fun rnd k => let (a, k') := m rnd k in f a rnd k'.

(** One call of [Math.random()]. *)
Definition Math_random : Rand Q := fun rnd k => (rnd k, S k).

Notation "x <- m ;; f" := (bind m (fun x => f))
  (at level 61, m at next level, right associativity).

(** [for (let i = 0; i < count; i++) body], the body possibly drawing. *)
Fixpoint repeatRand {A} (count : nat) (body : A -> Rand A) (a : A) : Rand A :=
  match count with
  | O => ret a
  | S n => a' <- body a ;; repeatRand n body a'
  end.

(** [for (let i = 0; i < count; i++) body], the body reading [i]; [i0] is
    the index of the first turn. *)
Fixpoint forRand {A} (count : nat) (i0 : nat) (body : nat -> A -> Rand A) (a : A) : Rand A :=
  match count with
  | O => ret a
  | S n => a' <- body i0 a ;; forRand n (S i0) body a'
  end.

(** What a call reads from the platform: the clock and the draws. *)
Record Env : Type := {
  now : Q;             (* performance.now(), milliseconds *)
  random : nat -> Q    (* the successive values of Math.random() *)
}.

Definition run {A} (m : Rand A) (env : Env) : A := fst (m (random env) O).

(** ** Arrays *)

(** [a.splice(i, 1)]. *)
Definition splice1 {A} (i : nat) (a : list A) : list A :=
  firstn i a ++ skipn (S i) a.

(** The array after the object stored at index [i] was mutated into [v]. *)
Definition store {A} (i : nat) (v : A) (a : list A) : list A :=
  firstn i a ++ v :: skipn (S i) a.

(** ** Types and tables of the game ([types/game]) *)

Module Game.

(** [BalloonType['type']]. *)
Inductive TypeTag : Type :=
| normal | special | heart | bomb
| slow | multiplier | freeze | magnet | defuser.

Definition TypeTag_eq_dec (a b : TypeTag) : {a = b} + {a <> b}.
Proof. decide equality. Defined.

Definition tag_eqb (a b : TypeTag) : bool :=
  if TypeTag_eq_dec a b then true else false.

Inductive Difficulty : Type := easy | medium | hard.

Definition Color : Type := (Z * Z * Z)%type.

Record GameState : Type := {
  running : bool;
  score : Z;
  highScore : Z;
  lives : Z;
  level : Z;
  combo : Z;
  gameStarted : bool;
  gameOver : bool
}.

Record BalloonType : Type := {
  bt_type : TypeTag;
  points : Z;
  emoji : string;        (* the bytes of its UTF-8 encoding *)
  description : string
}.

Record PowerUp : Type := {
  pu_type : TypeTag;
  duration : Q;
  active : bool;
  timeLeft : Q
}.

Record GameConfig : Type := {
  spawnRate : Difficulty -> Q;
  baseSpeed : Difficulty -> Q;
  bombChance : Difficulty -> Q;
  powerupChance : Difficulty -> Q;
  powerupDuration : Q;
  maxLives : Z;
  comboTimeout : Q
}.

Record GameDimensions : Type := {
  width : Q;
  height : Q;
  dpr : Q
}.

Inductive InputKind : Type := click | touch.

Record InputEvent : Type := {
  ev_x : Q;
  ev_y : Q;
  ev_type : InputKind;
  timestamp : Q
}.

Definition BALLOON_TYPES (t : TypeTag) : BalloonType :=
  match t with
  | normal =>
      {| bt_type := normal; points := 1; emoji := "";
         description := "Regular balloon" |}
  | special =>
      {| bt_type := special; points := 5; emoji := "⭐";
         description := "Extra points!" |}
  | heart =>
      {| bt_type := heart; points := 0; emoji := "❤️";
         description := "Restores one life" |}
  | bomb =>
      {| bt_type := bomb; points := -1; emoji := "☠️";
         description := "Lose a life!" |}
  | slow =>
      {| bt_type := slow; points := 10; emoji := "⏳";
         description := "Slows down all balloons" |}
  | multiplier =>
      {| bt_type := multiplier; points := 10; emoji := "✨";
         description := "Doubles your score" |}
  | freeze =>
      {| bt_type := freeze; points := 10; emoji := "❄️";
         description := "Stops all balloons" |}
  | magnet =>
      {| bt_type := magnet; points := 10; emoji := "➡️";
         description := "Pulls balloons to center" |}
  | defuser =>
      {| bt_type := defuser; points := 10; emoji := "💣";
         description := "Makes bombs safe" |}
  end.

Definition DEFAULT_GAME_CONFIG : GameConfig := {|
  spawnRate := fun d => match d with easy => 600 | medium => 400 | hard => 250 end;
  baseSpeed := fun d => match d with easy => 8 # 10 | medium => 12 # 10 | hard => 18 # 10 end;
  bombChance := fun d => match d with easy => 5 # 100 | medium => 1 # 10 | hard => 15 # 100 end;
  powerupChance := fun d => match d with easy => 5 # 100 | medium => 8 # 100 | hard => 1 # 10 end;
  powerupDuration := 10;
  maxLives := 3;
  comboTimeout := 1000
|}.

End Game.

(** ** The balloon ([Balloon.ts]) *)

Module Balloon.
Import Game.

Record t : Type := {
  id : Q;          (* the draw the identifier string is printed from *)
  x : Q;
  y : Q;
  r : Q;
  speed : Q;
  type : TypeTag;
  birth : Q;
  lifespan : Q;
  vx : Q;
  vy : Q;
  color : Color;
  xOffset : Q
}.

Definition randomFloat (min max : Q) : Rand Q :=
  d <- Math_random ;; ret (min + d * (max - min)).

Definition Qmin3 (a b c : Q) : Q := Qmin (Qmin a b) c.

Definition hsvToRgb (h s v : Q) : Color :=
  let f := fun n : Q =>
    let k := Qmod (n + h / 60) 6 in
    v - v * s * Qmax (Qmin3 k (4 - k) 1) 0 in
  (Math_round (f 5 * 255), Math_round (f 3 * 255), Math_round (f 1 * 255)).

Definition generateColor : Rand Color :=
  hue <- randomFloat 200 300 ;;
  saturation <- randomFloat (1 # 2) 1 ;;
  value <- randomFloat (8 # 10) 1 ;;
  ret (hsvToRgb hue saturation value).

(** [new Balloon(x, y, r, speed, type)]. *)
Definition new (birth0 : Q) (x0 y0 r0 speed0 : Q) (type0 : TypeTag) : Rand t :=
  id0 <- Math_random ;;
  vx0 <- randomFloat (- (2 # 10)) (2 # 10) ;;
  color0 <- generateColor ;;
  xOffset0 <- randomFloat (-50) 50 ;;
  ret {| id := id0; x := x0; y := y0; r := r0; speed := speed0;
         type := type0; birth := birth0; lifespan := 50000;
         vx := vx0; vy := - speed0; color := color0; xOffset := xOffset0 |}.

(** The balloon after its position was assigned. *)
Definition moved (x' y' : Q) (b : t) : t :=
  {| id := id b; x := x'; y := y'; r := r b; speed := speed b;
     type := type b; birth := birth b; lifespan := lifespan b;
     vx := vx b; vy := vy b; color := color b; xOffset := xOffset b |}.

Section Motion.
Variable M : MathLib.

Definition update (deltaTime : Q) (freezeActive slowMotionActive magnetActive : bool)
    (canvasWidth canvasHeight : Q) (clock : Q) (b : t) : t :=
  if freezeActive then b
  else
    let speedMultiplier : Q := if slowMotionActive then 1 # 2 else 1 in
    let frameRate : Q := 60 in
    if magnetActive then
      let centerX := canvasWidth / 2 in
      let centerY := canvasHeight / 2 in
      let dx := centerX - x b in
      let dy := centerY - y b in
      let distance := Math_sqrt M (dx * dx + dy * dy) in
      if Qltb 10 distance then
        let magnetForce : Q := 1 # 2 in
        moved
          (x b + (dx / distance) * speed b * magnetForce * speedMultiplier * deltaTime * frameRate)
          (y b + (dy / distance) * speed b * magnetForce * speedMultiplier * deltaTime * frameRate)
          b
      else b
    else
      let y1 := y b + vy b * speedMultiplier * deltaTime * frameRate in
      let x1 := x b + vx b * speedMultiplier * deltaTime * frameRate in
      let time := (clock - birth b) / 500 in
      moved (x1 + Math_sin M time * (1 # 2)) y1 b.

Definition containsPoint (b : t) (px py : Q) : bool :=
  let distance := Math_sqrt M ((px - x b) ^ 2 + (py - y b) ^ 2) in
  Qle_bool distance (r b).

End Motion.

Definition isOffScreen (b : t) (canvasHeight : Q) : bool :=
  Qltb (y b) (- r b).

Definition isExpired (clock : Q) (b : t) : bool :=
  Qltb (lifespan b) (clock - birth b).

Definition getPoints (b : t) : Z := points (BALLOON_TYPES (type b)).

Definition getDescription (b : t) : string := description (BALLOON_TYPES (type b)).

Definition powerupTypes : list TypeTag :=
  [slow; multiplier; freeze; magnet; defuser; heart; special].

(** [powerupTypes[Math.floor(d * powerupTypes.length)]]; a draw lies in
    [0, 1), so the index is always within the array. *)
Definition pick (d : Q) : TypeTag :=
  nth (Z.to_nat (Qfloor (d * inject_Z (Z.of_nat (List.length powerupTypes)))))
      powerupTypes normal.

Definition selectBalloonType (bombChance powerupChance : Q) : Rand TypeTag :=
  rnd <- Math_random ;;
  if Qltb rnd bombChance then ret bomb
  else if Qltb rnd (bombChance + powerupChance) then
    d <- Math_random ;; ret (pick d)
  else ret normal.

Definition create (clock : Q) (canvasWidth canvasHeight baseSpeed bombChance powerupChance : Q)
    : Rand t :=
  d1 <- Math_random ;;
  let r0 := 25 + d1 * 20 in
  d2 <- Math_random ;;
  let x0 := r0 + d2 * (canvasWidth - 2 * r0) in
  let y0 := canvasHeight + r0 in
  d3 <- Math_random ;;
  let speed0 := baseSpeed + (d3 - (1 # 2)) * (4 # 10) in
  type0 <- selectBalloonType bombChance powerupChance ;;
  new clock x0 y0 r0 speed0 type0.

End Balloon.

(** ** Particles ([Particle.ts]) *)

Module Particle.
Import Game.

Record t : Type := {
  id : Q;
  x : Q;
  y : Q;
  size : Q;
  vx : Q;
  vy : Q;
  color : Color;
  alpha : Q;
  life : Q;
  maxLife : Q;
  gravity : Q;
  friction : Q
}.

(** [new Particle(x, y, color)]. *)
Definition new (x0 y0 : Q) (color0 : Color) : Rand t :=
  id0 <- Math_random ;;
  d1 <- Math_random ;;
  d2 <- Math_random ;;
  d3 <- Math_random ;;
  d4 <- Math_random ;;
  ret {| id := id0; x := x0; y := y0;
         size := 2 + d1 * 4;
         vx := (d2 - (1 # 2)) * 4;
         vy := (d3 - (1 # 2)) * 4;
         color := color0; alpha := 1; life := 1;
         maxLife := 60 + d4 * 60;
         gravity := 1 # 10; friction := 98 # 100 |}.

Definition update (deltaTime : Q) (p : t) : t :=
  let frameRate : Q := 60 in
  let dt := deltaTime * frameRate in
  let x1 := x p + vx p * dt in
  let y1 := y p + vy p * dt in
  let vy1 := vy p + gravity p * dt in
  let vx2 := vx p * friction p in
  let vy2 := vy1 * friction p in
  let life1 := life p - dt in
  {| id := id p; x := x1; y := y1; size := size p; vx := vx2; vy := vy2;
     color := color p; alpha := Qmax 0 (life1 / maxLife p); life := life1;
     maxLife := maxLife p; gravity := gravity p; friction := friction p |}.

Definition isDead (p : t) : bool :=
  Qle_bool (life p) 0 || Qle_bool (alpha p) 0.

(** The assignments [addComboExplosion] makes to a fresh particle. *)
Definition launched (vx' vy' size' maxLife' : Q) (p : t) : t :=
  {| id := id p; x := x p; y := y p; size := size'; vx := vx'; vy := vy';
     color := color p; alpha := alpha p; life := life p;
     maxLife := maxLife'; gravity := gravity p; friction := friction p |}.

End Particle.

Module ParticleSystem.
Import Game.

Record t : Type := { particles : list Particle.t }.

Definition empty : t := {| particles := [] |}.

Definition push (p : Particle.t) (s : t) : t :=
  {| particles := particles s ++ [p] |}.

Definition addParticles (x y : Q) (color : Color) (count : nat) (s : t) : Rand t :=
  repeatRand count (fun s' => p <- Particle.new x y color ;; ret (push p s')) s.

(** The loop walks the array from its end and splices out the dead; no
    particle reads another, so the array left is the updated particles
    that are still alive, in their order. *)
Definition update (deltaTime : Q) (s : t) : t :=
  {| particles :=
       filter (fun p => negb (Particle.isDead p))
              (map (Particle.update deltaTime) (particles s)) |}.

Definition clear (s : t) : t := empty.

Definition getParticleCount (s : t) : nat := List.length (particles s).

Definition comboColors : list Color :=
  [(255, 215, 0); (255, 165, 0); (255, 20, 147); (0, 255, 255)]%Z.

Section Explosion.
Variable M : MathLib.

Definition addComboExplosion (x y : Q) (comboCount : Z) (s : t) : Rand t :=
  let particleCount := Z.min 30 (10 + comboCount * 3) in
  repeatRand (Z.to_nat particleCount)
    (fun s' =>
       d <- Math_random ;;
       let color :=
         nth (Z.to_nat (Qfloor (d * inject_Z (Z.of_nat (List.length comboColors)))))
             comboColors (0, 0, 0)%Z in
       p <- Particle.new x y color ;;
       d1 <- Math_random ;;
       let angle := d1 * Math_PI M * 2 in
       d2 <- Math_random ;;
       let speed := 2 + d2 * 4 in
       d3 <- Math_random ;;
       d4 <- Math_random ;;
       ret (push (Particle.launched (Math_cos M angle * speed) (Math_sin M angle * speed)
                                    (3 + d3 * 4) (60 + d4 * 60) p) s'))
    s.

End Explosion.

Section Presets.
Variable M : MathLib.

Definition addFireworks (x y : Q) (color : Color) (s : t) : Rand t :=
  forRand 20 0
    (fun i s' =>
       p <- Particle.new x y color ;;
       let angle := (inject_Z (Z.of_nat i) / 20) * Math_PI M * 2 in
       d1 <- Math_random ;;
       let speed := 2 + d1 * 3 in
       d2 <- Math_random ;;
       ret (push {| Particle.id := Particle.id p;
                    Particle.x := Particle.x p; Particle.y := Particle.y p;
                    Particle.size := 3 + d2 * 3;
                    Particle.vx := Math_cos M angle * speed;
                    Particle.vy := Math_sin M angle * speed;
                    Particle.color := Particle.color p;
                    Particle.alpha := Particle.alpha p; Particle.life := Particle.life p;
                    Particle.maxLife := Particle.maxLife p;
                    Particle.gravity := Particle.gravity p;
                    Particle.friction := Particle.friction p |} s'))
    s.

End Presets.

Definition sparkleColors : list Color :=
  [(255, 255, 0); (255, 255, 255); (255, 215, 0); (255, 192, 203)]%Z.

Definition addSparkles (x y : Q) (s : t) : Rand t :=
  repeatRand 10
    (fun s' =>
       d <- Math_random ;;
       let color :=
         nth (Z.to_nat (Qfloor (d * inject_Z (Z.of_nat (List.length sparkleColors)))))
             sparkleColors (0, 0, 0)%Z in
       p <- Particle.new x y color ;;
       d1 <- Math_random ;;
       d2 <- Math_random ;;
       ret (push {| Particle.id := Particle.id p;
                    Particle.x := Particle.x p; Particle.y := Particle.y p;
                    Particle.size := 1 + d1 * 2;
                    Particle.vx := Particle.vx p; Particle.vy := Particle.vy p;
                    Particle.color := Particle.color p;
                    Particle.alpha := Particle.alpha p; Particle.life := Particle.life p;
                    Particle.maxLife := 40 + d2 * 40;
                    Particle.gravity := 5 # 100;
                    Particle.friction := Particle.friction p |} s'))
    s.

Definition addTrail (x y : Q) (color : Color) (s : t) : Rand t :=
  p <- Particle.new x y color ;;
  d1 <- Math_random ;;
  d2 <- Math_random ;;
  d3 <- Math_random ;;
  d4 <- Math_random ;;
  ret (push {| Particle.id := Particle.id p;
               Particle.x := Particle.x p; Particle.y := Particle.y p;
               Particle.size := 1 + d1 * 2;
               Particle.vx := (d2 - (1 # 2)) * (1 # 2);
               Particle.vy := (d3 - (1 # 2)) * (1 # 2);
               Particle.color := Particle.color p;
               Particle.alpha := Particle.alpha p; Particle.life := Particle.life p;
               Particle.maxLife := 30 + d4 * 20;
               Particle.gravity := 0;
               Particle.friction := 95 # 100 |} s).

End ParticleSystem.

(** ** The power-up registry ([PowerUpManager.ts]) *)

Module PowerUpManager.
Import Game.

(** A call of one of the three callbacks, with the power-up as it is at
    the moment of the call. *)
Inductive Notice : Type :=
| onActivate (p : PowerUp)
| onDeactivate (p : PowerUp)
| onUpdate (p : PowerUp).

(** [activePowerUps] is a [Map]: its entries, in insertion order. *)
Record t : Type := { activePowerUps : list (TypeTag * PowerUp) }.

Definition empty : t := {| activePowerUps := [] |}.

(** *** The [Map] operations *)

Fixpoint Map_get (k : TypeTag) (m : list (TypeTag * PowerUp)) : option PowerUp :=
  match m with
  | [] => None
  | (k', v) :: rest => if tag_eqb k k' then Some v else Map_get k rest
  end.

Definition Map_has (k : TypeTag) (m : list (TypeTag * PowerUp)) : bool :=
  match Map_get k m with Some _ => true | None => false end.

(** [set] keeps the place of a key that is present and appends a new one. *)
Fixpoint Map_set (k : TypeTag) (v : PowerUp) (m : list (TypeTag * PowerUp))
    : list (TypeTag * PowerUp) :=
  match m with
  | [] => [(k, v)]
  | (k', v') :: rest =>
      if tag_eqb k k' then (k, v) :: rest else (k', v') :: Map_set k v rest
  end.

Fixpoint Map_delete (k : TypeTag) (m : list (TypeTag * PowerUp))
    : list (TypeTag * PowerUp) :=
  match m with
  | [] => []
  | (k', v') :: rest =>
      if tag_eqb k k' then rest else (k', v') :: Map_delete k rest
  end.

Definition Map_values (m : list (TypeTag * PowerUp)) : list PowerUp := map snd m.

(** *** The methods; each returns the registry and the callbacks it made *)

Definition deactivatePowerUp (type : TypeTag) (m : t) : t * list Notice :=
  match Map_get type (activePowerUps m) with
  | Some powerUp =>
      let powerUp' := {| pu_type := pu_type powerUp; duration := duration powerUp;
                         active := false; timeLeft := 0 |} in
      ({| activePowerUps := Map_delete type (activePowerUps m) |},
       [onDeactivate powerUp'])
  | None => (m, [])
  end.

Definition activatePowerUp (type : TypeTag) (duration0 : Q) (m : t) : t * list Notice :=
  let (m1, n1) :=
    if Map_has type (activePowerUps m) then deactivatePowerUp type m else (m, []) in
  let powerUp := {| pu_type := type; duration := duration0;
                    active := true; timeLeft := duration0 |} in
  ({| activePowerUps := Map_set type powerUp (activePowerUps m1) |},
   n1 ++ [onActivate powerUp]).

(** The first loop of [update]: every entry is aged in place; the expired
    ones are marked and their keys collected. *)
Fixpoint age (deltaTime : Q) (m : list (TypeTag * PowerUp))
    : list (TypeTag * PowerUp) * list TypeTag * list Notice :=
  match m with
  | [] => ([], [], [])
  | (type, powerUp) :: rest =>
      let timeLeft1 := timeLeft powerUp - deltaTime in
      let '(rest', toRemove, notes) := age deltaTime rest in
      if Qle_bool timeLeft1 0 then
        let p := {| pu_type := pu_type powerUp; duration := duration powerUp;
                    active := false; timeLeft := timeLeft1 |} in
        ((type, p) :: rest', type :: toRemove, onDeactivate p :: notes)
      else
        let p := {| pu_type := pu_type powerUp; duration := duration powerUp;
                    active := active powerUp; timeLeft := timeLeft1 |} in
        ((type, p) :: rest', toRemove, onUpdate p :: notes)
  end.

Definition update (deltaTime : Q) (m : t) : t * list Notice :=
  let '(aged, toRemove, notes) := age deltaTime (activePowerUps m) in
  ({| activePowerUps := fold_left (fun acc type => Map_delete type acc) toRemove aged |},
   notes).

Definition isActive (type : TypeTag) (m : t) : bool :=
  match Map_get type (activePowerUps m) with
  | Some powerUp => active powerUp
  | None => false
  end.

Definition getTimeLeft (type : TypeTag) (m : t) : Q :=
  match Map_get type (activePowerUps m) with
  | Some powerUp => timeLeft powerUp
  | None => 0
  end.

Definition getActivePowerUps (m : t) : list PowerUp :=
  filter active (Map_values (activePowerUps m)).

Definition clearAll (m : t) : t * list Notice :=
  let activePowerUps0 := Map_values (activePowerUps m) in
  (empty,
   map (fun powerUp =>
          onDeactivate {| pu_type := pu_type powerUp; duration := duration powerUp;
                          active := false; timeLeft := timeLeft powerUp |})
       activePowerUps0).

Definition hasAnyActive (m : t) : bool :=
  negb (Nat.eqb (List.length (activePowerUps m)) 0).

Definition getSlowMotionMultiplier (m : t) : Q := if isActive slow m then 1 # 2 else 1.

Definition getScoreMultiplier (m : t) : Z := if isActive multiplier m then 2%Z else 1%Z.

Definition isFreezeActive (m : t) : bool := isActive freeze m.

Definition isMagnetActive (m : t) : bool := isActive magnet m.

Definition isDefuserActive (m : t) : bool := isActive defuser m.

(** *** What the registry shows *)

(** The string a type is in the source. *)
Definition typeName (type : TypeTag) : string :=
  match type with
  | normal => "normal" | special => "special" | heart => "heart" | bomb => "bomb"
  | slow => "slow" | multiplier => "multiplier" | freeze => "freeze"
  | magnet => "magnet" | defuser => "defuser"
  end.

Definition getThemeClass (m : t) : string :=
  if isActive slow m then "slow-theme"
  else if isActive multiplier m then "multiplier-theme"
  else if isActive freeze m then "freeze-theme"
  else if isActive magnet m then "magnet-theme"
  else if isActive defuser m then "defuser-theme"
  else "".

(** [c.toUpperCase()] on a character of a type name. *)
Definition toUpperCase (c : Ascii.ascii) : Ascii.ascii :=
  let n := Ascii.nat_of_ascii c in
  if (97 <=? n)%nat && (n <=? 122)%nat then Ascii.ascii_of_nat (n - 32) else c.

(** [s.charAt(0).toUpperCase() + s.slice(1)]. *)
Definition capitalized (s : string) : string :=
  match s with
  | EmptyString => EmptyString
  | String c rest => String (toUpperCase c) rest
  end.

Record Display : Type := {
  shown_type : string;
  shown_timeLeft : Q;
  shown_emoji : string
}.

Definition priority : list TypeTag := [freeze; slow; multiplier; magnet; defuser].

Definition emojiMap (type : TypeTag) : option string :=
  match type with
  | slow => Some "⏳"%string
  | multiplier => Some "✨"%string
  | freeze => Some "❄️"%string
  | magnet => Some "➡️"%string
  | defuser => Some "💣"%string
  | _ => None
  end.

(** [null] is [None]. *)
Definition getPrimaryPowerUpDisplay (m : t) : option Display :=
  let active0 := getActivePowerUps m in
  match active0 with
  | [] => None
  | first :: _ =>
      let prioritized :=
        match find (fun p => existsb (tag_eqb (pu_type p)) priority) active0 with
        | Some p => p
        | None => first
        end in
      Some {| shown_type := capitalized (typeName (pu_type prioritized));
              shown_timeLeft := timeLeft prioritized;
              shown_emoji := match emojiMap (pu_type prioritized) with
                             | Some e => e
                             | None => "⭐"%string
                             end |}
  end.

Definition getPowerUpDescription (type : TypeTag) : string :=
  match type with
  | slow => "Slows down all balloons"
  | multiplier => "Doubles your score for a short time"
  | freeze => "Temporarily stops all balloons"
  | magnet => "Pulls balloons towards the center"
  | defuser => "Makes all bombs harmless"
  | _ => "Unknown power-up"
  end.

Definition getPowerUpPoints : Z := 10.

Definition getDefaultDuration : Q := 10.

(** Between two calls, the keys of the map are distinct and every entry
    is an active power-up filed under its own type. *)
Definition filed (kv : TypeTag * PowerUp) : Prop :=
  pu_type (snd kv) = fst kv /\ active (snd kv) = true.

Definition tidy (l : list (TypeTag * PowerUp)) : Prop :=
  NoDup (map fst l) /\ Forall filed l.

(** The registries that calls of the methods bring about from a new one. *)
Inductive Reachable : t -> Prop :=
| Reachable_new : Reachable empty
| Reachable_activatePowerUp type duration0 m :
    Reachable m -> Reachable (fst (activatePowerUp type duration0 m))
| Reachable_deactivatePowerUp type m :
    Reachable m -> Reachable (fst (deactivatePowerUp type m))
| Reachable_update deltaTime m :
    Reachable m -> Reachable (fst (update deltaTime m))
| Reachable_clearAll m :
    Reachable m -> Reachable (fst (clearAll m)).

End PowerUpManager.

(** ** The engine ([GameEngine.ts]) *)

Module GameEngine.
Import Game.

(** A call of one of the [GameEvents] callbacks. *)
Inductive GameEvent : Type :=
| onBalloonPop (balloon : Balloon.t) (points : Z)
| onPowerUpActivate (powerUp : PowerUp)
| onLifeLost
| onLifeGained
| onGameOver (finalScore : Z)
| onCombo (comboCount : Z)
| onScoreUpdate (score multiplier : Z).

Record t : Type := {
  state : GameState;
  config : GameConfig;
  balloons : list Balloon.t;
  particleSystem : ParticleSystem.t;
  powerUpManager : PowerUpManager.t;
  events : list GameEvent;       (* the callbacks made so far, oldest first *)
  dimensions : GameDimensions;
  lastUpdateTime : Q;
  lastSpawnTime : Q;
  comboTimer : Q;
  comboCount : Z
}.

(** *** Assignments to the fields of [this.state] and of [this] *)

Definition set_running (v : bool) (s : GameState) : GameState :=
  {| running := v; score := score s; highScore := highScore s; lives := lives s;
     level := level s; combo := combo s; gameStarted := gameStarted s;
     gameOver := gameOver s |}.

Definition set_score (v : Z) (s : GameState) : GameState :=
  {| running := running s; score := v; highScore := highScore s; lives := lives s;
     level := level s; combo := combo s; gameStarted := gameStarted s;
     gameOver := gameOver s |}.

Definition set_highScore (v : Z) (s : GameState) : GameState :=
  {| running := running s; score := score s; highScore := v; lives := lives s;
     level := level s; combo := combo s; gameStarted := gameStarted s;
     gameOver := gameOver s |}.

Definition set_lives (v : Z) (s : GameState) : GameState :=
  {| running := running s; score := score s; highScore := highScore s; lives := v;
     level := level s; combo := combo s; gameStarted := gameStarted s;
     gameOver := gameOver s |}.

Definition set_gameStarted (v : bool) (s : GameState) : GameState :=
  {| running := running s; score := score s; highScore := highScore s; lives := lives s;
     level := level s; combo := combo s; gameStarted := v;
     gameOver := gameOver s |}.

Definition set_gameOver (v : bool) (s : GameState) : GameState :=
  {| running := running s; score := score s; highScore := highScore s; lives := lives s;
     level := level s; combo := combo s; gameStarted := gameStarted s;
     gameOver := v |}.

Definition set_state (v : GameState) (e : t) : t :=
  {| state := v; config := config e; balloons := balloons e;
     particleSystem := particleSystem e; powerUpManager := powerUpManager e;
     events := events e; dimensions := dimensions e;
     lastUpdateTime := lastUpdateTime e; lastSpawnTime := lastSpawnTime e;
     comboTimer := comboTimer e; comboCount := comboCount e |}.

Definition set_balloons (v : list Balloon.t) (e : t) : t :=
  {| state := state e; config := config e; balloons := v;
     particleSystem := particleSystem e; powerUpManager := powerUpManager e;
     events := events e; dimensions := dimensions e;
     lastUpdateTime := lastUpdateTime e; lastSpawnTime := lastSpawnTime e;
     comboTimer := comboTimer e; comboCount := comboCount e |}.

Definition set_particleSystem (v : ParticleSystem.t) (e : t) : t :=
  {| state := state e; config := config e; balloons := balloons e;
     particleSystem := v; powerUpManager := powerUpManager e;
     events := events e; dimensions := dimensions e;
     lastUpdateTime := lastUpdateTime e; lastSpawnTime := lastSpawnTime e;
     comboTimer := comboTimer e; comboCount := comboCount e |}.

Definition set_powerUpManager (v : PowerUpManager.t) (e : t) : t :=
  {| state := state e; config := config e; balloons := balloons e;
     particleSystem := particleSystem e; powerUpManager := v;
     events := events e; dimensions := dimensions e;
     lastUpdateTime := lastUpdateTime e; lastSpawnTime := lastSpawnTime e;
     comboTimer := comboTimer e; comboCount := comboCount e |}.

Definition set_dimensions (v : GameDimensions) (e : t) : t :=
  {| state := state e; config := config e; balloons := balloons e;
     particleSystem := particleSystem e; powerUpManager := powerUpManager e;
     events := events e; dimensions := v;
     lastUpdateTime := lastUpdateTime e; lastSpawnTime := lastSpawnTime e;
     comboTimer := comboTimer e; comboCount := comboCount e |}.

Definition set_lastUpdateTime (v : Q) (e : t) : t :=
  {| state := state e; config := config e; balloons := balloons e;
     particleSystem := particleSystem e; powerUpManager := powerUpManager e;
     events := events e; dimensions := dimensions e;
     lastUpdateTime := v; lastSpawnTime := lastSpawnTime e;
     comboTimer := comboTimer e; comboCount := comboCount e |}.

Definition set_lastSpawnTime (v : Q) (e : t) : t :=
  {| state := state e; config := config e; balloons := balloons e;
     particleSystem := particleSystem e; powerUpManager := powerUpManager e;
     events := events e; dimensions := dimensions e;
     lastUpdateTime := lastUpdateTime e; lastSpawnTime := v;
     comboTimer := comboTimer e; comboCount := comboCount e |}.

Definition set_comboTimer (v : Q) (e : t) : t :=
  {| state := state e; config := config e; balloons := balloons e;
     particleSystem := particleSystem e; powerUpManager := powerUpManager e;
     events := events e; dimensions := dimensions e;
     lastUpdateTime := lastUpdateTime e; lastSpawnTime := lastSpawnTime e;
     comboTimer := v; comboCount := comboCount e |}.

Definition set_comboCount (v : Z) (e : t) : t :=
  {| state := state e; config := config e; balloons := balloons e;
     particleSystem := particleSystem e; powerUpManager := powerUpManager e;
     events := events e; dimensions := dimensions e;
     lastUpdateTime := lastUpdateTime e; lastSpawnTime := lastSpawnTime e;
     comboTimer := comboTimer e; comboCount := v |}.

(** One callback of [this.events] is called. *)
Definition emit (ev : GameEvent) (e : t) : t :=
  {| state := state e; config := config e; balloons := balloons e;
     particleSystem := particleSystem e; powerUpManager := powerUpManager e;
     events := events e ++ [ev]; dimensions := dimensions e;
     lastUpdateTime := lastUpdateTime e; lastSpawnTime := lastSpawnTime e;
     comboTimer := comboTimer e; comboCount := comboCount e |}.

(** *** The callbacks the engine gives its registry *)

Definition onPowerUpActivate_ (powerUp : PowerUp) (e : t) : t :=
  emit (onPowerUpActivate powerUp) e.

Definition onPowerUpDeactivate (_powerUp : PowerUp) (e : t) : t := e.

Definition onPowerUpUpdate (_powerUp : PowerUp) (e : t) : t := e.

Definition deliver (n : PowerUpManager.Notice) (e : t) : t :=
  match n with
  | PowerUpManager.onActivate p => onPowerUpActivate_ p e
  | PowerUpManager.onDeactivate p => onPowerUpDeactivate p e
  | PowerUpManager.onUpdate p => onPowerUpUpdate p e
  end.

(** A method of the registry is called on [this.powerUpManager]. *)
Definition onRegistry (f : PowerUpManager.t -> PowerUpManager.t * list PowerUpManager.Notice)
    (e : t) : t :=
  let (m, notes) := f (powerUpManager e) in
  fold_left (fun e' n => deliver n e') notes (set_powerUpManager m e).

(** A method of the particle system is called on [this.particleSystem]. *)
Definition onParticles (f : ParticleSystem.t -> Rand ParticleSystem.t) (e : t) : Rand t :=
  s <- f (particleSystem e) ;; ret (set_particleSystem s e).

(** *** Construction and life cycle *)

(** [new GameEngine(events, dimensions, config)]; [config0] is the
    default configuration overridden by the argument. *)
Definition new (dimensions0 : GameDimensions) (config0 : GameConfig) : t :=
  {| state := {| running := false; score := 0; highScore := 0;
                 lives := maxLives config0; level := 1; combo := 0;
                 gameStarted := false; gameOver := false |};
     config := config0;
     balloons := [];
     particleSystem := ParticleSystem.empty;
     powerUpManager := PowerUpManager.empty;
     events := [];
     dimensions := dimensions0;
     lastUpdateTime := 0; lastSpawnTime := 0;
     comboTimer := 0; comboCount := 0 |}.

Definition getCurrentDifficulty (e : t) : Difficulty := easy.

Definition updateDifficulty (_difficulty : Difficulty) (e : t) : t := e.

Definition resetGame (e : t) : t :=
  let e := set_state {| running := false; score := 0; highScore := highScore (state e);
                        lives := maxLives (config e); level := 1; combo := 0;
                        gameStarted := false; gameOver := false |} e in
  let e := set_balloons [] e in
  let e := set_particleSystem (ParticleSystem.clear (particleSystem e)) e in
  let e := onRegistry PowerUpManager.clearAll e in
  let e := set_comboTimer 0 e in
  set_comboCount 0 e.

Definition startGame (difficulty : Difficulty) (clock : Q) (e : t) : t :=
  let e := resetGame e in
  let e := set_state (set_running true (state e)) e in
  let e := set_state (set_gameStarted true (state e)) e in
  let e := set_lastUpdateTime clock e in
  let e := set_lastSpawnTime clock e in
  updateDifficulty difficulty e.

Definition pauseGame (e : t) : t :=
  set_state (set_running false (state e)) e.

Definition resumeGame (clock : Q) (e : t) : t :=
  let e := set_state (set_running true (state e)) e in
  set_lastUpdateTime clock e.

Definition gameOver (e : t) : t :=
  let e := set_state (set_running false (state e)) e in
  let e := set_state (set_gameOver true (state e)) e in
  let e := onRegistry PowerUpManager.clearAll e in
  emit (onGameOver (score (state e))) e.

Definition updateDimensions (dimensions0 : GameDimensions) (e : t) : t :=
  set_dimensions dimensions0 e.

Definition setHighScore (score0 : Z) (e : t) : t :=
  set_state (set_highScore score0 (state e)) e.

(** *** Scoring, lives and combo *)

Definition addScore (points0 : Z) (e : t) : t :=
  let multiplier0 := PowerUpManager.getScoreMultiplier (powerUpManager e) in
  let finalPoints := (points0 * multiplier0)%Z in
  let e := set_state (set_score (score (state e) + finalPoints)%Z (state e)) e in
  emit (onScoreUpdate (score (state e)) multiplier0) e.

Definition resetCombo (e : t) : t :=
  set_comboTimer 0 (set_comboCount 0 e).

Definition loseLife (e : t) : t :=
  let e := set_state (set_lives (lives (state e) - 1)%Z (state e)) e in
  let e := resetCombo e in
  emit onLifeLost e.

Definition gainLife (e : t) : t :=
  let e := set_state (set_lives (Z.min (lives (state e) + 1) (maxLives (config e)))
                                (state e)) e in
  emit onLifeGained e.

Definition activatePowerUp (type : TypeTag) (e : t) : t :=
  onRegistry (PowerUpManager.activatePowerUp type (powerupDuration (config e))) e.

Definition getState (e : t) : GameState := state e.

Definition getBalloons (e : t) : list Balloon.t := balloons e.

Definition getComboCount (e : t) : Z := comboCount e.

Definition getComboTimeLeft (e : t) : Q := Qmax 0 (comboTimer e).

Section Simulation.
Variable M : MathLib.

Definition incrementCombo (e : t) : Rand t :=
  let e := set_comboCount (comboCount e + 1)%Z e in
  let e := set_comboTimer (comboTimeout (config e) / 1000) e in
  if (1 <? comboCount e)%Z then
    let comboPoints := (comboCount e * 10)%Z in
    let e := addScore comboPoints e in
    e <- onParticles (ParticleSystem.addComboExplosion M
                        (width (dimensions e) / 2) (height (dimensions e) / 4)
                        (comboCount e)) e ;;
    ret (emit (onCombo (comboCount e)) e)
  else ret e.

Definition popBalloon (balloon : Balloon.t) (index : nat) (_event : InputEvent) (e : t)
    : Rand t :=
  let points0 := Balloon.getPoints balloon in
  e <- onParticles (ParticleSystem.addParticles (Balloon.x balloon) (Balloon.y balloon)
                                                (Balloon.color balloon) 15) e ;;
  e <- match Balloon.type balloon with
       | normal | special =>
           incrementCombo (addScore (Z.abs points0) e)
       | heart =>
           ret (gainLife e)
       | bomb =>
           if negb (PowerUpManager.isDefuserActive (powerUpManager e))
           then ret (loseLife e)
           else ret (addScore 1 e)
       | type =>
           let e := activatePowerUp type e in
           let e := addScore 10 e in
           incrementCombo e
       end ;;
  let e := set_balloons (splice1 index (balloons e)) e in
  ret (emit (onBalloonPop balloon points0) e).

(** The scan of [handleInput]: [n] is [i + 1]; the first balloon under
    the point, from the end of the array, with its index. *)
Fixpoint hitScan (n : nat) (bs : list Balloon.t) (px py : Q) : option (nat * Balloon.t) :=
  match n with
  | O => None
  | S i =>
      match nth_error bs i with
      | Some balloon =>
          if Balloon.containsPoint M balloon px py then Some (i, balloon)
          else hitScan i bs px py
      | None => hitScan i bs px py
      end
  end.

Definition handleInput (event : InputEvent) (e : t) : Rand t :=
  if negb (running (state e)) then ret e
  else
    match hitScan (List.length (balloons e)) (balloons e) (ev_x event) (ev_y event) with
    | Some (i, balloon) => popBalloon balloon i event e
    | None => ret (resetCombo e)
    end.

Definition spawnBalloons (currentTime clock : Q) (e : t) : Rand t :=
  let spawnInterval := spawnRate (config e) (getCurrentDifficulty e) in
  if Qltb spawnInterval (currentTime - lastSpawnTime e) then
    balloon <- Balloon.create clock
                 (width (dimensions e)) (height (dimensions e))
                 (baseSpeed (config e) (getCurrentDifficulty e))
                 (bombChance (config e) (getCurrentDifficulty e))
                 (powerupChance (config e) (getCurrentDifficulty e)) ;;
    let e := set_balloons (balloons e ++ [balloon]) e in
    ret (set_lastSpawnTime currentTime e)
  else ret e.

(** The body of the loop of [updateBalloons] at index [i]. *)
Definition updateBalloon (deltaTime clock : Q) (i : nat) (e : t) : t :=
  match nth_error (balloons e) i with
  | None => e
  | Some balloon0 =>
      let balloon :=
        Balloon.update M deltaTime
          (PowerUpManager.isFreezeActive (powerUpManager e))
          (PowerUpManager.isActive slow (powerUpManager e))
          (PowerUpManager.isMagnetActive (powerUpManager e))
          (width (dimensions e)) (height (dimensions e)) clock balloon0 in
      let e := set_balloons (store i balloon (balloons e)) e in
      if Balloon.isOffScreen balloon (height (dimensions e))
         || Balloon.isExpired clock balloon then
        let e := set_balloons (splice1 i (balloons e)) e in
        if negb (Balloon.isOffScreen balloon (height (dimensions e)))
           && negb (tag_eqb (Balloon.type balloon) bomb)
           && negb (tag_eqb (Balloon.type balloon) heart)
        then loseLife e
        else e
      else e
  end.

(** The three expressions of the body, by name: the motion of a balloon
    in the tick, the test that removes it, the test that takes a life. *)
Definition moved (deltaTime clock : Q) (e : t) : Balloon.t -> Balloon.t :=
  Balloon.update M deltaTime
    (PowerUpManager.isFreezeActive (powerUpManager e))
    (PowerUpManager.isActive slow (powerUpManager e))
    (PowerUpManager.isMagnetActive (powerUpManager e))
    (width (dimensions e)) (height (dimensions e)) clock.

Definition culled (clock : Q) (e : t) (b : Balloon.t) : bool :=
  Balloon.isOffScreen b (height (dimensions e)) || Balloon.isExpired clock b.

Definition missed (e : t) (b : Balloon.t) : bool :=
  negb (Balloon.isOffScreen b (height (dimensions e)))
  && negb (tag_eqb (Balloon.type b) bomb)
  && negb (tag_eqb (Balloon.type b) heart).

(** [for (let i = n - 1; i >= 0; i--)]. *)
Fixpoint updateBalloonsFrom (deltaTime clock : Q) (n : nat) (e : t) : t :=
  match n with
  | O => e
  | S i => updateBalloonsFrom deltaTime clock i (updateBalloon deltaTime clock i e)
  end.

Definition updateBalloons (deltaTime clock : Q) (e : t) : t :=
  updateBalloonsFrom deltaTime clock (List.length (balloons e)) e.

Definition update (currentTime clock : Q) (e : t) : Rand t :=
  if negb (running (state e)) then ret e
  else
    let deltaTime := (currentTime - lastUpdateTime e) / 1000 in
    let e := set_lastUpdateTime currentTime e in
    let e :=
      if Qltb 0 (comboTimer e) then
        let e := set_comboTimer (comboTimer e - deltaTime) e in
        if Qle_bool (comboTimer e) 0 then set_comboCount 0 e else e
      else e in
    e <- spawnBalloons currentTime clock e ;;
    let e := updateBalloons deltaTime clock e in
    let e := set_particleSystem (ParticleSystem.update deltaTime (particleSystem e)) e in
    let e := onRegistry (PowerUpManager.update deltaTime) e in
    if (lives (state e) <=? 0)%Z then ret (gameOver e) else ret e.

(** *** The engine as its driver sees it *)

Inductive Call : Type :=
| call_startGame (difficulty : Difficulty)
| call_pauseGame
| call_resumeGame
| call_resetGame
| call_update (currentTime : Q)
| call_handleInput (event : InputEvent)
| call_setHighScore (score0 : Z)
| call_updateDimensions (dimensions0 : GameDimensions).

Definition exec (c : Call) (env : Env) (e : t) : t :=
  match c with
  | call_startGame difficulty => startGame difficulty (now env) e
  | call_pauseGame => pauseGame e
  | call_resumeGame => resumeGame (now env) e
  | call_resetGame => resetGame e
  | call_update currentTime => run (update currentTime (now env) e) env
  | call_handleInput event => run (handleInput event e) env
  | call_setHighScore score0 => setHighScore score0 e
  | call_updateDimensions dimensions0 => updateDimensions dimensions0 e
  end.

Fixpoint execAll (calls : list (Call * Env)) (e : t) : t :=
  match calls with
  | [] => e
  | (c, env) :: rest => execAll rest (exec c env e)
  end.

(** The engines a driver can bring about from a fresh one. *)
Inductive Reachable (dimensions0 : GameDimensions) (config0 : GameConfig) : t -> Prop :=
| Reachable_new : Reachable dimensions0 config0 (new dimensions0 config0)
| Reachable_exec c env e :
    Reachable dimensions0 config0 e -> Reachable dimensions0 config0 (exec c env e).

End Simulation.

End GameEngine.

(** ** A platform to run the model on

    A rational instance of the mathematical library, close enough to the
    real functions to play concrete games with: the sine by
    Bhaskara's formula on a reduced argument, the square root to three
    decimals. *)

Module RationalMath.

Definition PI : Q := 355 # 113.

Definition halfWave (a : Q) : Q :=
  16 * a * (PI - a) / (5 * PI * PI - 4 * a * (PI - a)).

Definition sin (a : Q) : Q :=
  let t := Qmod a (2 * PI) in
  if Qle_bool t PI then halfWave t else - halfWave (t - PI).

Definition cos (a : Q) : Q := sin (a + PI / 2).

Definition sqrt (a : Q) : Q :=
  if Qle_bool a 0 then 0
  else inject_Z (Z.sqrt (Qfloor (a * 1000000))) / 1000.

Definition lib : MathLib :=
  {| Math_sin := sin; Math_cos := cos; Math_sqrt := sqrt; Math_PI := PI |}.

End RationalMath.

(** Concrete inputs of the scenarios below. *)

Module Scenario.
Import Game.

Definition canvas : GameDimensions := {| width := 800; height := 600; dpr := 1 |}.

(** The draws of a call, the rest of the stream being [1/2]. *)
Definition draws (l : list Q) : nat -> Q := fun k => nth k l (1 # 2).

Definition at_ (clock : Q) (l : list Q) : Env := {| now := clock; random := draws l |}.

(** A tap at a point. *)
Definition tap (px py : Q) : InputEvent :=
  {| ev_x := px; ev_y := py; ev_type := click; timestamp := 0 |}.

(** A tap on the balloon at index [i] of an engine. *)
Definition tapOn (i : nat) (e : GameEngine.t) : InputEvent :=
  match nth_error (GameEngine.balloons e) i with
  | Some b => tap (Balloon.x b) (Balloon.y b)
  | None => tap (-1) (-1)
  end.

(** The balloon at index [i] of an engine. *)
Definition nobody : Balloon.t :=
  {| Balloon.id := 0; Balloon.x := 0; Balloon.y := 0; Balloon.r := 0;
     Balloon.speed := 0; Balloon.type := normal; Balloon.birth := 0;
     Balloon.lifespan := 0; Balloon.vx := 0; Balloon.vy := 0;
     Balloon.color := (0, 0, 0)%Z; Balloon.xOffset := 0 |}.

Definition balloonAt (i : nat) (e : GameEngine.t) : Balloon.t :=
  nth i (GameEngine.balloons e) nobody.

Definition fresh : GameEngine.t := GameEngine.new canvas DEFAULT_GAME_CONFIG.

Definition play (calls : list (GameEngine.Call * Env)) (e : GameEngine.t) : GameEngine.t :=
  GameEngine.execAll RationalMath.lib calls e.

(** The draws of the frame that spawns a balloon: radius, abscissa, speed,
    then the one or two draws of the category. *)
Definition spawning (dx : Q) (category : list Q) : list Q :=
  [1 # 2; dx; 1 # 2] ++ category.

Definition asNormal : list Q := [1 # 2].
Definition asBomb : list Q := [1 # 100].
Definition asHeart : list Q := [6 # 100; 3 # 4].
Definition asDefuser : list Q := [6 # 100; 9 # 14].
Definition asMultiplier : list Q := [6 # 100; 3 # 14].

(** A game on the default configuration where a bomb, then a heart, have
    risen into the canvas. *)
Definition bombAndHeart : GameEngine.t :=
  play [(GameEngine.call_startGame easy, at_ 0 []);
        (GameEngine.call_update 601, at_ 601 (spawning (1 # 4) asBomb));
        (GameEngine.call_update 1202, at_ 1202 (spawning (3 # 4) asHeart))]
       fresh.

(** The same game after the bomb was tapped. *)
Definition bombTapped : GameEngine.t :=
  play [(GameEngine.call_handleInput (tapOn 0 bombAndHeart), at_ 1300 [])] bombAndHeart.

(** A game where a defuser, then a bomb, have risen, and the defuser was
    tapped. *)
Definition defused : GameEngine.t :=
  let e := play [(GameEngine.call_startGame easy, at_ 0 []);
                 (GameEngine.call_update 601, at_ 601 (spawning (1 # 4) asDefuser));
                 (GameEngine.call_update 1202, at_ 1202 (spawning (3 # 4) asBomb))]
                fresh in
  play [(GameEngine.call_handleInput (tapOn 0 e), at_ 1300 [])] e.

(** Balloons are popped one after the other, nothing happening in
    between: each with its index at that moment and the draws of its
    burst of particles. *)
Fixpoint popAll (M : MathLib) (pops : list (Balloon.t * nat * Env)) (e : GameEngine.t)
    : GameEngine.t :=
  match pops with
  | [] => e
  | (b, i, env) :: rest =>
      popAll M rest (run (GameEngine.popBalloon M b i (tap (Balloon.x b) (Balloon.y b)) e) env)
  end.

(** A game where five normal balloons have risen. *)
Definition fiveNormals : GameEngine.t :=
  play [(GameEngine.call_startGame easy, at_ 0 []);
        (GameEngine.call_update 601, at_ 601 (spawning (1 # 10) asNormal));
        (GameEngine.call_update 1202, at_ 1202 (spawning (3 # 10) asNormal));
        (GameEngine.call_update 1803, at_ 1803 (spawning (5 # 10) asNormal));
        (GameEngine.call_update 2404, at_ 2404 (spawning (7 # 10) asNormal));
        (GameEngine.call_update 3005, at_ 3005 (spawning (9 # 10) asNormal))]
       fresh.

(** The newest balloon is tapped, then a frame passes. *)
Definition tapThenFrame (clock : Q) (e : GameEngine.t) : GameEngine.t :=
  play [(GameEngine.call_handleInput (tapOn (List.length (GameEngine.balloons e) - 1) e),
         at_ clock []);
        (GameEngine.call_update clock, at_ clock [])]
       e.

Definition fiveTaps : GameEngine.t :=
  tapThenFrame 3500 (tapThenFrame 3400 (tapThenFrame 3300
    (tapThenFrame 3200 (tapThenFrame 3100 fiveNormals)))).

Definition asFreeze : list Q := [6 # 100; 5 # 14].

(** A game where a multiplier balloon has risen. *)
Definition multiplierRisen : GameEngine.t :=
  play [(GameEngine.call_startGame easy, at_ 0 []);
        (GameEngine.call_update 601, at_ 601 (spawning (1 # 2) asMultiplier))]
       fresh.

(** A game where a freeze, then a normal balloon have risen, and the
    freeze was tapped. *)
Definition frozen : GameEngine.t :=
  let e := play [(GameEngine.call_startGame easy, at_ 0 []);
                 (GameEngine.call_update 601, at_ 601 (spawning (1 # 4) asFreeze));
                 (GameEngine.call_update 1202, at_ 1202 (spawning (3 # 4) asNormal))]
                fresh in
  play [(GameEngine.call_handleInput (tapOn 0 e), at_ 1300 [])] e.

(** A game where four normal balloons have risen, paused for about a
    minute and resumed: the balloons are where they were and are past
    their lifespan. *)
Definition afterLongPause : GameEngine.t :=
  play [(GameEngine.call_startGame easy, at_ 0 []);
        (GameEngine.call_update 601, at_ 601 (spawning (1 # 5) asNormal));
        (GameEngine.call_update 1202, at_ 1202 (spawning (2 # 5) asNormal));
        (GameEngine.call_update 1803, at_ 1803 (spawning (3 # 5) asNormal));
        (GameEngine.call_update 2404, at_ 2404 (spawning (4 # 5) asNormal));
        (GameEngine.call_pauseGame, at_ 2500 []);
        (GameEngine.call_resumeGame, at_ 60000 [])]
       fresh.

(** The first frame after the pause. *)
Definition frameAfterPause : list (GameEngine.Call * Env) :=
  [(GameEngine.call_update 60016, at_ 60016 (spawning (1 # 2) asNormal))].

End Scenario.

(** * Properties *)

(** The pair a drawing computation returns is named. *)
Ltac name_draws :=
  repeat match goal with
         | |- context [let (_, _) := ?c in _] =>
             lazymatch c with
             | (let (_, _) := _ in _) => fail
             | context [if _ then _ else _] => fail
             | context [match _ with _ => _ end] => fail
             | _ => destruct c
             end
         end.

Import Game.

(** ** Comparisons *)

Lemma Qltb_lt (a b : Q) : Qltb a b = true <-> a < b.
Proof.
  unfold Qltb. rewrite negb_true_iff. split.
  - intro H. apply Qnot_le_lt. intro Hle.
    apply Qle_bool_iff in Hle. congruence.
  - intro H. destruct (Qle_bool b a) eqn:E; [|reflexivity].
    apply Qle_bool_iff in E. exfalso. exact (Qlt_not_le _ _ H E).
Qed.

Lemma Qltb_ge (a b : Q) : Qltb a b = false <-> b <= a.
Proof.
  unfold Qltb. rewrite negb_false_iff. apply Qle_bool_iff.
Qed.

Lemma tag_eqb_eq (a b : TypeTag) : tag_eqb a b = true <-> a = b.
Proof.
  unfold tag_eqb. destruct (TypeTag_eq_dec a b); split; congruence.
Qed.

Lemma tag_eqb_refl (a : TypeTag) : tag_eqb a a = true.
Proof. apply tag_eqb_eq. reflexivity. Qed.

Lemma tag_eqb_neq (a b : TypeTag) : tag_eqb a b = false <-> a <> b.
Proof.
  unfold tag_eqb. destruct (TypeTag_eq_dec a b); split; congruence.
Qed.

(** ** Pausing *)

(** C10. [pauseGame] sets the running flag to false and changes nothing
    else: the other fields of the game state, the balloons, the particles,
    the registry with every entry and its remaining time, the combo count
    and timer are those of before the call. *)
Theorem pauseGame_changes_only_running (e : GameEngine.t) :
  let e' := GameEngine.pauseGame e in
  running (GameEngine.state e') = false
  /\ score (GameEngine.state e') = score (GameEngine.state e)
  /\ highScore (GameEngine.state e') = highScore (GameEngine.state e)
  /\ lives (GameEngine.state e') = lives (GameEngine.state e)
  /\ level (GameEngine.state e') = level (GameEngine.state e)
  /\ combo (GameEngine.state e') = combo (GameEngine.state e)
  /\ gameStarted (GameEngine.state e') = gameStarted (GameEngine.state e)
  /\ Game.gameOver (GameEngine.state e') = Game.gameOver (GameEngine.state e)
  /\ GameEngine.comboCount e' = GameEngine.comboCount e
  /\ GameEngine.comboTimer e' = GameEngine.comboTimer e
  /\ GameEngine.balloons e' = GameEngine.balloons e
  /\ GameEngine.particleSystem e' = GameEngine.particleSystem e
  /\ GameEngine.powerUpManager e' = GameEngine.powerUpManager e
  /\ GameEngine.events e' = GameEngine.events e
  /\ GameEngine.config e' = GameEngine.config e
  /\ GameEngine.dimensions e' = GameEngine.dimensions e
  /\ GameEngine.lastUpdateTime e' = GameEngine.lastUpdateTime e
  /\ GameEngine.lastSpawnTime e' = GameEngine.lastSpawnTime e.
Proof.
  cbv zeta. unfold GameEngine.pauseGame. simpl. repeat split.
Qed.

(** ** Calls outside the running phase *)

(** C9. When the engine is not running (idle, paused or ended), [update]
    and [handleInput] return at once: the engine after the call is the
    engine before it, field for field (state, balloons, particles,
    registry, notifications), and no random number is drawn. *)
Theorem not_running_is_noop (M : MathLib) (e : GameEngine.t) :
  running (GameEngine.state e) = false ->
  (forall currentTime clock rnd k,
      GameEngine.update M currentTime clock e rnd k = (e, k))
  /\ (forall event rnd k, GameEngine.handleInput M event e rnd k = (e, k))
  /\ (forall currentTime env, GameEngine.exec M (GameEngine.call_update currentTime) env e = e)
  /\ (forall event env, GameEngine.exec M (GameEngine.call_handleInput event) env e = e).
Proof.
  intro Hrun.
  assert (U : forall currentTime clock rnd k,
             GameEngine.update M currentTime clock e rnd k = (e, k)).
  { intros. unfold GameEngine.update. rewrite Hrun. reflexivity. }
  assert (H : forall event rnd k, GameEngine.handleInput M event e rnd k = (e, k)).
  { intros. unfold GameEngine.handleInput. rewrite Hrun. reflexivity. }
  repeat split; intros; try apply U; try apply H.
  - unfold GameEngine.exec, run. rewrite U. reflexivity.
  - unfold GameEngine.exec, run. rewrite H. reflexivity.
Qed.

(** The paused engine of a started game ignores a frame and a tap. *)
Lemma not_running_is_noop_witness :
  let e := GameEngine.pauseGame (GameEngine.startGame easy 0 Scenario.fresh) in
  GameEngine.exec RationalMath.lib (GameEngine.call_update 5000) (Scenario.at_ 5000 []) e = e
  /\ GameEngine.exec RationalMath.lib (GameEngine.call_handleInput (Scenario.tap 10 10))
       (Scenario.at_ 5000 []) e = e.
Proof.
  intro e.
  destruct (not_running_is_noop RationalMath.lib e) as (_ & _ & U & H).
  - reflexivity.
  - split; [apply U | apply H].
Defined.
Section Pops.
Variable M : MathLib.

(** A tap that finds a balloon pops it. *)
Lemma handleInput_hit event e i b rnd k :
  running (GameEngine.state e) = true ->
  GameEngine.hitScan M (List.length (GameEngine.balloons e)) (GameEngine.balloons e)
    (ev_x event) (ev_y event) = Some (i, b) ->
  GameEngine.handleInput M event e rnd k = GameEngine.popBalloon M b i event e rnd k.
Proof.
  intros Hrun Hhit. unfold GameEngine.handleInput. rewrite Hrun, Hhit. reflexivity.
Qed.

Lemma popBalloon_heart b i event e rnd k :
  Balloon.type b = heart ->
  let e' := fst (GameEngine.popBalloon M b i event e rnd k) in
  GameEngine.state e' =
    GameEngine.set_lives
      (Z.min (lives (GameEngine.state e) + 1) (maxLives (GameEngine.config e)))
      (GameEngine.state e)
  /\ GameEngine.config e' = GameEngine.config e
  /\ GameEngine.comboCount e' = GameEngine.comboCount e
  /\ GameEngine.comboTimer e' = GameEngine.comboTimer e
  /\ GameEngine.powerUpManager e' = GameEngine.powerUpManager e
  /\ GameEngine.balloons e' = splice1 i (GameEngine.balloons e).
Proof.
  intros Ht. unfold GameEngine.popBalloon, bind, GameEngine.onParticles, bind, ret.
  rewrite Ht. name_draws.
  cbn. repeat split.
Qed.

Lemma popBalloon_bomb b i event e rnd k :
  Balloon.type b = bomb ->
  let e' := fst (GameEngine.popBalloon M b i event e rnd k) in
  GameEngine.config e' = GameEngine.config e
  /\ GameEngine.powerUpManager e' = GameEngine.powerUpManager e
  /\ GameEngine.balloons e' = splice1 i (GameEngine.balloons e)
  /\ (PowerUpManager.isDefuserActive (GameEngine.powerUpManager e) = true ->
      GameEngine.state e' =
        GameEngine.set_score
          (score (GameEngine.state e)
           + 1 * PowerUpManager.getScoreMultiplier (GameEngine.powerUpManager e))%Z
          (GameEngine.state e)
      /\ GameEngine.comboCount e' = GameEngine.comboCount e
      /\ GameEngine.comboTimer e' = GameEngine.comboTimer e)
  /\ (PowerUpManager.isDefuserActive (GameEngine.powerUpManager e) = false ->
      GameEngine.state e' =
        GameEngine.set_lives (lives (GameEngine.state e) - 1)%Z (GameEngine.state e)
      /\ GameEngine.comboCount e' = 0%Z
      /\ GameEngine.comboTimer e' = 0).
Proof.
  intros Ht. unfold GameEngine.popBalloon, bind, GameEngine.onParticles, bind, ret.
  rewrite Ht. name_draws.
  cbn.
  destruct (PowerUpManager.isDefuserActive (GameEngine.powerUpManager e)) eqn:D;
    cbn; repeat split; intros; try discriminate; try reflexivity.
Qed.

(** C7. In a running game, a tap that pops a heart leaves the score, the
    combo count and the combo timer as they were; the lives, which never
    exceed the configured maximum, grow by exactly one, except at the
    maximum, where they stay. *)
Theorem heart_pop_restores_one_life event e i b rnd k :
  running (GameEngine.state e) = true ->
  GameEngine.hitScan M (List.length (GameEngine.balloons e)) (GameEngine.balloons e)
    (ev_x event) (ev_y event) = Some (i, b) ->
  Balloon.type b = heart ->
  (lives (GameEngine.state e) <= maxLives (GameEngine.config e))%Z ->
  let e' := fst (GameEngine.handleInput M event e rnd k) in
  score (GameEngine.state e') = score (GameEngine.state e)
  /\ GameEngine.comboCount e' = GameEngine.comboCount e
  /\ GameEngine.comboTimer e' = GameEngine.comboTimer e
  /\ combo (GameEngine.state e') = combo (GameEngine.state e)
  /\ lives (GameEngine.state e') =
       (if (lives (GameEngine.state e) =? maxLives (GameEngine.config e))%Z
        then lives (GameEngine.state e)
        else lives (GameEngine.state e) + 1)%Z
  /\ (lives (GameEngine.state e') <= maxLives (GameEngine.config e'))%Z.
Proof.
  intros Hrun Hhit Ht Hmax e'. subst e'.
  rewrite (handleInput_hit _ _ _ _ _ _ Hrun Hhit).
  destruct (popBalloon_heart b i event e rnd k Ht) as (Hs & Hc & Hn & Htm & _).
  rewrite Hs, Hc, Hn, Htm. cbn.
  repeat split; try reflexivity.
  - destruct (Z.eqb_spec (lives (GameEngine.state e)) (maxLives (GameEngine.config e))); lia.
  - lia.
Qed.

(** C3. In a running game, a tap that pops a bomb while the defuser is
    active leaves the lives as they were and adds the flat reward of one
    point (times the score multiplier in force); while the defuser is
    not active it takes exactly one life and resets the combo. *)
Theorem bomb_pop_defuser event e i b rnd k :
  running (GameEngine.state e) = true ->
  GameEngine.hitScan M (List.length (GameEngine.balloons e)) (GameEngine.balloons e)
    (ev_x event) (ev_y event) = Some (i, b) ->
  Balloon.type b = bomb ->
  let e' := fst (GameEngine.handleInput M event e rnd k) in
  (PowerUpManager.isDefuserActive (GameEngine.powerUpManager e) = true ->
     lives (GameEngine.state e') = lives (GameEngine.state e)
     /\ score (GameEngine.state e') =
          (score (GameEngine.state e)
           + 1 * PowerUpManager.getScoreMultiplier (GameEngine.powerUpManager e))%Z
     /\ (score (GameEngine.state e) < score (GameEngine.state e')
                                    <= score (GameEngine.state e) + 2)%Z)
  /\ (PowerUpManager.isDefuserActive (GameEngine.powerUpManager e) = false ->
       lives (GameEngine.state e') = (lives (GameEngine.state e) - 1)%Z
       /\ score (GameEngine.state e') = score (GameEngine.state e)
       /\ GameEngine.comboCount e' = 0%Z
       /\ GameEngine.comboTimer e' = 0).
Proof.
  intros Hrun Hhit Ht e'. subst e'.
  rewrite (handleInput_hit _ _ _ _ _ _ Hrun Hhit).
  destruct (popBalloon_bomb b i event e rnd k Ht) as (_ & _ & _ & Hon & Hoff).
  split; intro D.
  - destruct (Hon D) as (Hs & _). rewrite Hs. cbn.
    repeat split; try reflexivity;
      unfold PowerUpManager.getScoreMultiplier;
      destruct (PowerUpManager.isActive multiplier (GameEngine.powerUpManager e)); lia.
  - destruct (Hoff D) as (Hs & Hn & Htm). rewrite Hs, Hn, Htm. cbn.
    repeat split; reflexivity.
Qed.

End Pops.

(** The heart of the scenario is tapped after the bomb took a life: the
    lives go from 2 to 3; it is tapped at full lives: they stay at 3. *)
Lemma heart_pop_restores_one_life_witness :
  (lives (GameEngine.state Scenario.bombTapped) = 2
   /\ lives (GameEngine.state
               (fst (GameEngine.handleInput RationalMath.lib
                       (Scenario.tapOn 0 Scenario.bombTapped) Scenario.bombTapped
                       (Scenario.draws []) O))) = 3)%Z
  /\ (lives (GameEngine.state Scenario.bombAndHeart) = 3
      /\ lives (GameEngine.state
                  (fst (GameEngine.handleInput RationalMath.lib
                          (Scenario.tapOn 1 Scenario.bombAndHeart) Scenario.bombAndHeart
                          (Scenario.draws []) O))) = 3)%Z.
Proof.
  split; (split; [reflexivity|]).
  - destruct (heart_pop_restores_one_life RationalMath.lib
                (Scenario.tapOn 0 Scenario.bombTapped) Scenario.bombTapped
                O (Scenario.balloonAt 0 Scenario.bombTapped)
                (Scenario.draws []) O) as (_ & _ & _ & _ & Hl & _).
    + vm_compute. reflexivity.
    + vm_compute. reflexivity.
    + vm_compute. reflexivity.
    + vm_compute. discriminate.
    + rewrite Hl. vm_compute. reflexivity.
  - destruct (heart_pop_restores_one_life RationalMath.lib
                (Scenario.tapOn 1 Scenario.bombAndHeart) Scenario.bombAndHeart
                1%nat (Scenario.balloonAt 1 Scenario.bombAndHeart)
                (Scenario.draws []) O) as (_ & _ & _ & _ & Hl & _).
    + vm_compute. reflexivity.
    + vm_compute. reflexivity.
    + vm_compute. reflexivity.
    + vm_compute. discriminate.
    + rewrite Hl. vm_compute. reflexivity.
Defined.

(** The bomb of the first scenario is tapped with no defuser: a life is
    lost; the bomb of the second is tapped under the defuser: the lives
    stay and the score grows by one. *)
Lemma bomb_pop_defuser_witness :
  (lives (GameEngine.state
            (fst (GameEngine.handleInput RationalMath.lib
                    (Scenario.tapOn 0 Scenario.bombAndHeart) Scenario.bombAndHeart
                    (Scenario.draws []) O)))
   = lives (GameEngine.state Scenario.bombAndHeart) - 1)%Z
  /\ lives (GameEngine.state
              (fst (GameEngine.handleInput RationalMath.lib
                      (Scenario.tapOn 0 Scenario.defused) Scenario.defused
                      (Scenario.draws []) O)))
     = lives (GameEngine.state Scenario.defused).
Proof.
  split.
  - destruct (bomb_pop_defuser RationalMath.lib
                (Scenario.tapOn 0 Scenario.bombAndHeart) Scenario.bombAndHeart
                O (Scenario.balloonAt 0 Scenario.bombAndHeart)
                (Scenario.draws []) O) as (_ & Hoff).
    + vm_compute. reflexivity.
    + vm_compute. reflexivity.
    + vm_compute. reflexivity.
    + apply Hoff. vm_compute. reflexivity.
  - destruct (bomb_pop_defuser RationalMath.lib
                (Scenario.tapOn 0 Scenario.defused) Scenario.defused
                O (Scenario.balloonAt 0 Scenario.defused)
                (Scenario.draws []) O) as (Hon & _).
    + vm_compute. reflexivity.
    + vm_compute. reflexivity.
    + vm_compute. reflexivity.
    + apply Hon. vm_compute. reflexivity.
Defined.

(** ** Scoring a streak *)

Section Streak.
Variable M : MathLib.

(** What [incrementCombo] does to the counters, whatever it draws. *)
Lemma incrementCombo_counters e rnd k :
  let e' := fst (GameEngine.incrementCombo M e rnd k) in
  let n := (GameEngine.comboCount e + 1)%Z in
  GameEngine.comboCount e' = n
  /\ GameEngine.comboTimer e' = comboTimeout (GameEngine.config e) / 1000
  /\ GameEngine.powerUpManager e' = GameEngine.powerUpManager e
  /\ GameEngine.config e' = GameEngine.config e
  /\ GameEngine.balloons e' = GameEngine.balloons e
  /\ GameEngine.state e' =
       (if (1 <? n)%Z
        then GameEngine.set_score
               (score (GameEngine.state e)
                + n * 10 * PowerUpManager.getScoreMultiplier (GameEngine.powerUpManager e))%Z
               (GameEngine.state e)
        else GameEngine.state e).
Proof.
  unfold GameEngine.incrementCombo. cbn.
  destruct (1 <? GameEngine.comboCount e + 1)%Z.
  - unfold bind, GameEngine.onParticles, bind, ret. name_draws. cbn. repeat split.
  - cbn. repeat split.
Qed.

(** A normal or special balloon is popped. *)
Lemma popBalloon_scoring b i event e rnd k :
  Balloon.type b = normal \/ Balloon.type b = special ->
  let e' := fst (GameEngine.popBalloon M b i event e rnd k) in
  let m := PowerUpManager.getScoreMultiplier (GameEngine.powerUpManager e) in
  let n := (GameEngine.comboCount e + 1)%Z in
  GameEngine.comboCount e' = n
  /\ GameEngine.powerUpManager e' = GameEngine.powerUpManager e
  /\ GameEngine.config e' = GameEngine.config e
  /\ lives (GameEngine.state e') = lives (GameEngine.state e)
  /\ score (GameEngine.state e') =
       (score (GameEngine.state e) + Z.abs (Balloon.getPoints b) * m
        + (if (1 <? n)%Z then n * 10 * m else 0))%Z.
Proof.
  intros Ht. unfold GameEngine.popBalloon, bind, GameEngine.onParticles, bind, ret.
  name_draws.
  match goal with
  | |- context [GameEngine.set_particleSystem ?s e] =>
      pose proof (incrementCombo_counters
                    (GameEngine.addScore (Z.abs (Balloon.getPoints b))
                       (GameEngine.set_particleSystem s e)) rnd n) as H
  end.
  cbv zeta in H.
  destruct Ht as [Ht | Ht]; rewrite Ht; cbv iota beta;
    destruct (GameEngine.incrementCombo M _ rnd n) as [e2 k2];
    cbn in H |- *; destruct H as (Hn & _ & Hp & Hc & _ & Hs);
    rewrite Hs;
    (repeat split; try assumption;
     destruct (1 <? GameEngine.comboCount e + 1)%Z; cbn; try reflexivity; lia).
Qed.

End Streak.

(** C4. From score 0 and combo 0, with no multiplier in force, five
    normal balloons popped in a row, nothing resetting the combo in
    between, leave the score at 145 and the combo count at 5; and each
    such pop adds the point value of the balloon and, when the combo
    count it bumps exceeds 1, ten times that count. *)
Theorem five_normal_pops_score_145 (M : MathLib) (e : GameEngine.t)
    (pops : list (Balloon.t * nat * Env)) :
  score (GameEngine.state e) = 0%Z ->
  GameEngine.comboCount e = 0%Z ->
  PowerUpManager.isActive multiplier (GameEngine.powerUpManager e) = false ->
  List.length pops = 5%nat ->
  Forall (fun p => Balloon.type (fst (fst p)) = normal) pops ->
  (score (GameEngine.state (Scenario.popAll M pops e)) = 145%Z
   /\ GameEngine.comboCount (Scenario.popAll M pops e) = 5%Z)
  /\ (forall e0 b i event rnd k,
        Balloon.type b = normal ->
        PowerUpManager.isActive multiplier (GameEngine.powerUpManager e0) = false ->
        let e' := fst (GameEngine.popBalloon M b i event e0 rnd k) in
        GameEngine.comboCount e' = (GameEngine.comboCount e0 + 1)%Z
        /\ score (GameEngine.state e') =
             (score (GameEngine.state e0) + 1
              + (if (1 <? GameEngine.comboCount e')%Z
                 then GameEngine.comboCount e' * 10 else 0))%Z).
Proof.
  intros Hs Hn Hm Hlen Hall.
  assert (One : forall e0 b i event rnd k,
             Balloon.type b = normal ->
             PowerUpManager.isActive multiplier (GameEngine.powerUpManager e0) = false ->
             let e' := fst (GameEngine.popBalloon M b i event e0 rnd k) in
             GameEngine.comboCount e' = (GameEngine.comboCount e0 + 1)%Z
             /\ PowerUpManager.isActive multiplier (GameEngine.powerUpManager e') = false
             /\ score (GameEngine.state e') =
                  (score (GameEngine.state e0) + 1
                   + (if (1 <? GameEngine.comboCount e')%Z
                      then GameEngine.comboCount e' * 10 else 0))%Z).
  { intros e0 b i event rnd k Ht Hm0.
    destruct (popBalloon_scoring M b i event e0 rnd k (or_introl Ht))
      as (Hc & Hp & _ & _ & Hsc).
    cbv zeta. rewrite Hc, Hp, Hsc. unfold Balloon.getPoints. rewrite Ht.
    unfold PowerUpManager.getScoreMultiplier. rewrite Hm0. cbn [BALLOON_TYPES points Z.abs].
    repeat split; try assumption.
    destruct (1 <? GameEngine.comboCount e0 + 1)%Z; lia. }
  split.
  - destruct pops as [|[[b1 i1] v1] [|[[b2 i2] v2] [|[[b3 i3] v3] [|[[b4 i4] v4]
      [|[[b5 i5] v5] [|]]]]]]; try discriminate Hlen.
    repeat match goal with
           | H : Forall _ (_ :: _) |- _ => inversion H; clear H; subst
           end.
    cbn [Scenario.popAll fst] in *. unfold run.
    assert (Next : forall e0 b i event rnd k c s,
               Balloon.type b = normal ->
               PowerUpManager.isActive multiplier (GameEngine.powerUpManager e0) = false
               /\ GameEngine.comboCount e0 = c /\ score (GameEngine.state e0) = s ->
               let e' := fst (GameEngine.popBalloon M b i event e0 rnd k) in
               PowerUpManager.isActive multiplier (GameEngine.powerUpManager e') = false
               /\ GameEngine.comboCount e' = (c + 1)%Z
               /\ score (GameEngine.state e') =
                    (s + 1 + (if (1 <? c + 1)%Z then (c + 1) * 10 else 0))%Z).
    { intros e0 b i event rnd k c s Ht (Hm0 & Hc0 & Hs0).
      destruct (One e0 b i event rnd k Ht Hm0) as (Hc1 & Hm1 & Hs1).
      cbv zeta. rewrite Hs1, Hc1, Hc0, Hs0. repeat split. exact Hm1. }
    pose proof (Next e b1 i1 (Scenario.tap (Balloon.x b1) (Balloon.y b1)) (random v1) O
                  _ _ H1 (conj Hm (conj Hn Hs))) as P1.
    pose proof (Next _ b2 i2 (Scenario.tap (Balloon.x b2) (Balloon.y b2)) (random v2) O
                  _ _ H3 P1) as P2.
    pose proof (Next _ b3 i3 (Scenario.tap (Balloon.x b3) (Balloon.y b3)) (random v3) O
                  _ _ H2 P2) as P3.
    pose proof (Next _ b4 i4 (Scenario.tap (Balloon.x b4) (Balloon.y b4)) (random v4) O
                  _ _ H4 P3) as P4.
    pose proof (Next _ b5 i5 (Scenario.tap (Balloon.x b5) (Balloon.y b5)) (random v5) O
                  _ _ H5 P4) as P5.
    destruct P5 as (_ & C5 & S5). split; [exact S5 | exact C5].
  - intros e0 b i event rnd k Ht Hm0.
    destruct (One e0 b i event rnd k Ht Hm0) as (Hc1 & _ & Hs1).
    split; assumption.
Qed.

(** Five normal balloons of a concrete game, popped from the newest on. *)
Lemma five_normal_pops_score_145_witness :
  let pops := map (fun i => (Scenario.balloonAt i Scenario.fiveNormals, i, Scenario.at_ 3100 []))
                  [4; 3; 2; 1; 0]%nat in
  score (GameEngine.state (Scenario.popAll RationalMath.lib pops Scenario.fiveNormals)) = 145%Z
  /\ GameEngine.comboCount (Scenario.popAll RationalMath.lib pops Scenario.fiveNormals) = 5%Z.
Proof.
  intro pops.
  refine (proj1 (five_normal_pops_score_145 RationalMath.lib Scenario.fiveNormals pops
                   _ _ _ _ _)).
  - vm_compute. reflexivity.
  - vm_compute. reflexivity.
  - vm_compute. reflexivity.
  - reflexivity.
  - subst pops. cbn [map].
    repeat (apply Forall_cons; [vm_compute; reflexivity|]). apply Forall_nil.
Defined.

(** The same five balloons tapped through [handleInput], a frame of a
    tenth of a second after each tap: the combo never times out. *)
Example five_taps_score_145 :
  score (GameEngine.state Scenario.fiveTaps) = 145%Z
  /\ GameEngine.comboCount Scenario.fiveTaps = 5%Z
  /\ GameEngine.balloons Scenario.fiveTaps = [].
Proof. vm_compute. repeat split. Qed.

(** ** What the callbacks and the registry leave alone *)

Lemma deliver_frame notes : forall e,
  let e' := fold_left (fun e0 n => GameEngine.deliver n e0) notes e in
  GameEngine.state e' = GameEngine.state e
  /\ GameEngine.config e' = GameEngine.config e
  /\ GameEngine.balloons e' = GameEngine.balloons e
  /\ GameEngine.dimensions e' = GameEngine.dimensions e
  /\ GameEngine.comboCount e' = GameEngine.comboCount e
  /\ GameEngine.comboTimer e' = GameEngine.comboTimer e
  /\ GameEngine.particleSystem e' = GameEngine.particleSystem e
  /\ GameEngine.powerUpManager e' = GameEngine.powerUpManager e.
Proof.
  induction notes as [|n notes IH]; intro e; cbn [fold_left].
  - repeat split.
  - destruct (IH (GameEngine.deliver n e)) as (H1 & H2 & H3 & H4 & H5 & H6 & H7 & H8).
    cbv zeta. rewrite H1, H2, H3, H4, H5, H6, H7, H8.
    destruct n; repeat split.
Qed.

Lemma onRegistry_frame f e :
  let e' := GameEngine.onRegistry f e in
  GameEngine.state e' = GameEngine.state e
  /\ GameEngine.config e' = GameEngine.config e
  /\ GameEngine.balloons e' = GameEngine.balloons e
  /\ GameEngine.dimensions e' = GameEngine.dimensions e
  /\ GameEngine.comboCount e' = GameEngine.comboCount e
  /\ GameEngine.comboTimer e' = GameEngine.comboTimer e
  /\ GameEngine.particleSystem e' = GameEngine.particleSystem e
  /\ GameEngine.powerUpManager e' = fst (f (GameEngine.powerUpManager e)).
Proof.
  cbv zeta. unfold GameEngine.onRegistry.
  destruct (f (GameEngine.powerUpManager e)) as [m notes]. cbn [fst].
  destruct (deliver_frame notes (GameEngine.set_powerUpManager m e))
    as (H1 & H2 & H3 & H4 & H5 & H6 & H7 & H8).
  rewrite H1, H2, H3, H4, H5, H6, H7, H8. repeat split.
Qed.

Lemma spawnBalloons_frame currentTime clock e rnd k :
  let e' := fst (GameEngine.spawnBalloons currentTime clock e rnd k) in
  GameEngine.state e' = GameEngine.state e
  /\ GameEngine.config e' = GameEngine.config e
  /\ GameEngine.dimensions e' = GameEngine.dimensions e
  /\ GameEngine.powerUpManager e' = GameEngine.powerUpManager e
  /\ GameEngine.comboCount e' = GameEngine.comboCount e
  /\ GameEngine.comboTimer e' = GameEngine.comboTimer e
  /\ (GameEngine.balloons e' = GameEngine.balloons e
      \/ exists b, GameEngine.balloons e' = GameEngine.balloons e ++ [b]).
Proof.
  cbv zeta. unfold GameEngine.spawnBalloons.
  destruct (Qltb _ _).
  - unfold bind, ret. destruct (Balloon.create _ _ _ _ _ _ rnd k) as [b k1].
    cbn. repeat split. right. exists b. reflexivity.
  - cbn. repeat split. left. reflexivity.
Qed.

Lemma gameOver_frame e :
  let e' := GameEngine.gameOver e in
  lives (GameEngine.state e') = lives (GameEngine.state e)
  /\ score (GameEngine.state e') = score (GameEngine.state e)
  /\ running (GameEngine.state e') = false
  /\ Game.gameOver (GameEngine.state e') = true
  /\ GameEngine.config e' = GameEngine.config e
  /\ GameEngine.balloons e' = GameEngine.balloons e.
Proof.
  cbv zeta. unfold GameEngine.gameOver.
  match goal with
  | |- context [GameEngine.onRegistry ?f ?e0] =>
      destruct (onRegistry_frame f e0) as (H1 & H2 & H3 & _);
      set (e1 := GameEngine.onRegistry f e0) in *; clearbody e1
  end.
  cbn. rewrite H1, H2, H3. cbn. repeat split.
Qed.

(** ** Culling *)

Lemma nth_error_middle (A : Type) (pre suf : list A) (a : A) :
  nth_error (pre ++ a :: suf) (List.length pre) = Some a.
Proof. induction pre; simpl; auto. Qed.

Lemma store_middle (A : Type) (pre suf : list A) (a v : A) :
  store (List.length pre) v (pre ++ a :: suf) = pre ++ v :: suf.
Proof.
  unfold store. induction pre; simpl.
  - reflexivity.
  - f_equal. exact IHpre.
Qed.

Lemma splice1_middle (A : Type) (pre suf : list A) (a : A) :
  splice1 (List.length pre) (pre ++ a :: suf) = pre ++ suf.
Proof.
  unfold splice1. induction pre; simpl.
  - reflexivity.
  - f_equal. exact IHpre.
Qed.

Section Culling.
Variable M : MathLib.
Variables deltaTime clock : Q.

(** The registry and the canvas are not touched by the loop, so the
    motion and the tests are those of the engine the loop starts from. *)
Local Abbreviation moved := (GameEngine.moved M deltaTime clock).
Local Abbreviation culled := (GameEngine.culled clock).
Local Abbreviation missed := GameEngine.missed.

(** One turn of the loop, at the balloon that follows [pre]. *)
Lemma updateBalloon_at e pre b0 suf :
  GameEngine.balloons e = pre ++ b0 :: suf ->
  let b := moved e b0 in
  let e' := GameEngine.updateBalloon M deltaTime clock (List.length pre) e in
  GameEngine.balloons e' = pre ++ (if culled e b then [] else [b]) ++ suf
  /\ lives (GameEngine.state e') =
       (lives (GameEngine.state e) - (if culled e b && missed e b then 1 else 0))%Z
  /\ GameEngine.powerUpManager e' = GameEngine.powerUpManager e
  /\ GameEngine.dimensions e' = GameEngine.dimensions e
  /\ GameEngine.config e' = GameEngine.config e.
Proof.
  intros Hb. cbv zeta. unfold GameEngine.updateBalloon.
  rewrite Hb, nth_error_middle. fold (moved e b0).
  cbn [GameEngine.set_balloons GameEngine.balloons GameEngine.dimensions].
  rewrite store_middle, splice1_middle.
  unfold GameEngine.culled, GameEngine.missed.
  destruct (Balloon.isOffScreen (moved e b0) (height (GameEngine.dimensions e))) eqn:Off;
    destruct (Balloon.isExpired clock (moved e b0)) eqn:Ex;
    destruct (tag_eqb (Balloon.type (moved e b0)) bomb) eqn:Tb;
    destruct (tag_eqb (Balloon.type (moved e b0)) heart) eqn:Th;
    cbn; repeat split; lia.
Qed.

(** The loop from the balloon that ends [pre] down to the first. *)
Lemma updateBalloonsFrom_prefix pre : forall suf e,
  GameEngine.balloons e = pre ++ suf ->
  let e' := GameEngine.updateBalloonsFrom M deltaTime clock (List.length pre) e in
  let gone := filter (culled e) (map (moved e) pre) in
  GameEngine.balloons e' =
    filter (fun b => negb (culled e b)) (map (moved e) pre) ++ suf
  /\ lives (GameEngine.state e') =
       (lives (GameEngine.state e) - Z.of_nat (List.length (filter (missed e) gone)))%Z
  /\ GameEngine.powerUpManager e' = GameEngine.powerUpManager e
  /\ GameEngine.dimensions e' = GameEngine.dimensions e
  /\ GameEngine.config e' = GameEngine.config e.
Proof.
  induction pre as [|b0 pre IH] using rev_ind; intros suf e Hb; cbv zeta.
  - cbn. repeat split; [assumption | lia].
  - rewrite length_app, Nat.add_1_r. cbn [GameEngine.updateBalloonsFrom].
    rewrite <- app_assoc in Hb. cbn [app] in Hb.
    destruct (updateBalloon_at e pre b0 suf Hb) as (Hb1 & Hl1 & Hp1 & Hd1 & Hg1).
    set (e1 := GameEngine.updateBalloon M deltaTime clock (List.length pre) e) in *.
    assert (Hm : moved e1 = moved e)
      by (unfold GameEngine.moved; rewrite Hp1, Hd1; reflexivity).
    assert (Hc : culled e1 = culled e)
      by (unfold GameEngine.culled; rewrite Hd1; reflexivity).
    assert (Hx : missed e1 = missed e)
      by (unfold GameEngine.missed; rewrite Hd1; reflexivity).
    destruct (IH _ e1 Hb1) as (Hb2 & Hl2 & Hp2 & Hd2 & Hg2).
    rewrite Hm, Hc, Hx in *.
    rewrite Hb2, Hl2, Hl1, Hp2, Hd2, Hp1, Hd1, Hg2, Hg1.
    rewrite !map_app, !filter_app, !length_app. cbn [map filter].
    destruct (culled e (moved e b0)); cbn [negb andb filter app List.length];
      [destruct (missed e (moved e b0)); cbn [filter List.length]|];
      rewrite <- ?app_assoc; cbn [app]; repeat split; lia.
Qed.

(** The whole loop. *)
Lemma updateBalloons_spec e :
  let e' := GameEngine.updateBalloons M deltaTime clock e in
  let gone := filter (culled e) (map (moved e) (GameEngine.balloons e)) in
  GameEngine.balloons e' =
    filter (fun b => negb (culled e b)) (map (moved e) (GameEngine.balloons e))
  /\ lives (GameEngine.state e') =
       (lives (GameEngine.state e) - Z.of_nat (List.length (filter (missed e) gone)))%Z
  /\ GameEngine.powerUpManager e' = GameEngine.powerUpManager e
  /\ GameEngine.dimensions e' = GameEngine.dimensions e
  /\ GameEngine.config e' = GameEngine.config e.
Proof.
  cbv zeta. unfold GameEngine.updateBalloons.
  destruct (updateBalloonsFrom_prefix (GameEngine.balloons e) [] e) as (Hb & Hrest).
  { symmetry. apply app_nil_r. }
  rewrite app_nil_r in Hb. split; assumption.
Qed.

End Culling.

(** The lives a list of culled balloons costs, at [cost] each. *)
Lemma count_as_sum (A : Type) (p : A -> bool) (l : list A) :
  Z.of_nat (List.length (filter p l))
  = fold_right Z.add 0%Z (map (fun a => if p a then 1%Z else 0%Z) l).
Proof.
  induction l as [|a l IH]; cbn [filter map fold_right List.length].
  - reflexivity.
  - destruct (p a); cbn [List.length]; lia.
Qed.

(** ** A frame *)

(** The balloon a frame spawns depends on the clocks, the canvas, the
    configuration and the draws only. *)
Lemma spawnBalloons_agree currentTime clock e0 e rnd k :
  GameEngine.config e0 = GameEngine.config e ->
  GameEngine.dimensions e0 = GameEngine.dimensions e ->
  GameEngine.lastSpawnTime e0 = GameEngine.lastSpawnTime e ->
  GameEngine.balloons e0 = GameEngine.balloons e ->
  GameEngine.balloons (fst (GameEngine.spawnBalloons currentTime clock e0 rnd k))
  = GameEngine.balloons (fst (GameEngine.spawnBalloons currentTime clock e rnd k)).
Proof.
  intros Hc Hd Hs Hb. unfold GameEngine.spawnBalloons, GameEngine.getCurrentDifficulty.
  rewrite Hc, Hd, Hs.
  destruct (Qltb _ _).
  - unfold bind, ret. destruct (Balloon.create _ _ _ _ _ _ rnd k) as [b k1].
    cbn. rewrite Hb. reflexivity.
  - cbn. exact Hb.
Qed.

(** A frame of a running game: the combo timer, then the spawn, which
    gives [e1]; then the loop over the balloons; then the particles, the
    registry and the test for the end, which touch neither the lives nor
    the balloons. *)
Lemma update_running M currentTime clock e rnd k :
  running (GameEngine.state e) = true ->
  exists e1,
    GameEngine.state e1 = GameEngine.state e
    /\ GameEngine.config e1 = GameEngine.config e
    /\ GameEngine.powerUpManager e1 = GameEngine.powerUpManager e
    /\ GameEngine.dimensions e1 = GameEngine.dimensions e
    /\ GameEngine.balloons e1
       = GameEngine.balloons (fst (GameEngine.spawnBalloons currentTime clock e rnd k))
    /\ let e2 := GameEngine.updateBalloons M
                   ((currentTime - GameEngine.lastUpdateTime e) / 1000) clock e1 in
       let e' := fst (GameEngine.update M currentTime clock e rnd k) in
       lives (GameEngine.state e') = lives (GameEngine.state e2)
       /\ GameEngine.balloons e' = GameEngine.balloons e2
       /\ GameEngine.config e' = GameEngine.config e2.
Proof.
  intro Hrun. unfold GameEngine.update. rewrite Hrun. cbn [negb].
  set (dt := (currentTime - GameEngine.lastUpdateTime e) / 1000).
  match goal with
  | |- context [bind (GameEngine.spawnBalloons currentTime clock ?x)] =>
      set (e0 := x);
      assert (H0 : GameEngine.state e0 = GameEngine.state e
                   /\ GameEngine.config e0 = GameEngine.config e
                   /\ GameEngine.powerUpManager e0 = GameEngine.powerUpManager e
                   /\ GameEngine.dimensions e0 = GameEngine.dimensions e
                   /\ GameEngine.lastSpawnTime e0 = GameEngine.lastSpawnTime e
                   /\ GameEngine.balloons e0 = GameEngine.balloons e)
  end.
  { subst e0. cbn. destruct (Qltb 0 (GameEngine.comboTimer e)); cbn;
      [destruct (Qle_bool _ 0)|]; cbn; repeat split. }
  clearbody e0. destruct H0 as (S0 & C0 & P0 & D0 & L0 & B0).
  unfold bind.
  pose proof (spawnBalloons_frame currentTime clock e0 rnd k) as H1. cbv zeta in H1.
  pose proof (spawnBalloons_agree currentTime clock e0 e rnd k C0 D0 L0 B0) as B1.
  destruct (GameEngine.spawnBalloons currentTime clock e0 rnd k) as [e1 k1].
  cbn [fst] in H1, B1. destruct H1 as (S1 & C1 & D1 & P1 & _).
  exists e1. rewrite S1, C1, P1, D1, S0, C0, P0, D0.
  repeat split; try assumption.
  all: match goal with
       | |- context [GameEngine.onRegistry ?f ?ex] =>
           destruct (onRegistry_frame f ex) as (R1 & R2 & R3 & _);
           set (e3 := GameEngine.onRegistry f ex) in *; clearbody e3
       end.
  all: destruct (lives (GameEngine.state e3) <=? 0)%Z; cbn [ret fst].
  all: try (destruct (gameOver_frame e3) as (G1 & _ & _ & _ & G2 & G3);
            rewrite ?G1, ?G2, ?G3).
  all: rewrite ?R1, ?R2, ?R3; reflexivity.
Qed.

(** C1. In a frame of a running game, the balloons left are the moved
    balloons that neither went off the top ([y < -r]) nor expired, and the
    lives fall by the sum of what each culled balloon costs: nothing when
    it went off the top; when it had not, it expired, and it costs nothing
    if it is a bomb or a heart and exactly one life otherwise. *)
Theorem update_culling_penalty M currentTime clock e rnd k :
  running (GameEngine.state e) = true ->
  let deltaTime := (currentTime - GameEngine.lastUpdateTime e) / 1000 in
  let registry := GameEngine.powerUpManager e in
  let h := height (GameEngine.dimensions e) in
  let advanced :=
    map (Balloon.update M deltaTime
           (PowerUpManager.isFreezeActive registry)
           (PowerUpManager.isActive slow registry)
           (PowerUpManager.isMagnetActive registry)
           (width (GameEngine.dimensions e)) h clock)
        (GameEngine.balloons (fst (GameEngine.spawnBalloons currentTime clock e rnd k))) in
  let culled := fun b => Balloon.isOffScreen b h || Balloon.isExpired clock b in
  let gone := filter culled advanced in
  let cost := fun b =>
    if negb (Balloon.isOffScreen b h)
       && negb (tag_eqb (Balloon.type b) bomb)
       && negb (tag_eqb (Balloon.type b) heart)
    then 1%Z else 0%Z in
  let e' := fst (GameEngine.update M currentTime clock e rnd k) in
  GameEngine.balloons e' = filter (fun b => negb (culled b)) advanced
  /\ lives (GameEngine.state e')
     = (lives (GameEngine.state e) - fold_right Z.add 0 (map cost gone))%Z
  /\ (forall b, In b gone ->
        (Balloon.y b < - Balloon.r b -> cost b = 0%Z)
        /\ (~ Balloon.y b < - Balloon.r b ->
            Balloon.isExpired clock b = true
            /\ (Balloon.type b = bomb \/ Balloon.type b = heart -> cost b = 0%Z)
            /\ (Balloon.type b <> bomb -> Balloon.type b <> heart -> cost b = 1%Z))).
Proof.
  intro Hrun. cbv zeta.
  destruct (update_running M currentTime clock e rnd k Hrun)
    as (e1 & S1 & C1 & P1 & D1 & B1 & Hl & Hb & _).
  destruct (updateBalloons_spec M ((currentTime - GameEngine.lastUpdateTime e) / 1000)
              clock e1) as (Hb2 & Hl2 & _).
  unfold GameEngine.moved, GameEngine.culled, GameEngine.missed in Hb2, Hl2.
  rewrite Hl, Hb, Hb2, Hl2, count_as_sum, P1, D1, B1, S1.
  repeat split.
  - intro Hoff. unfold Balloon.isOffScreen.
    apply Qltb_lt in Hoff. rewrite Hoff. reflexivity.
  - apply filter_In in H. destruct H as (_ & Hc).
    unfold Balloon.isOffScreen in Hc.
    destruct (Qltb (Balloon.y b) (- Balloon.r b)) eqn:Off.
    + apply Qltb_lt in Off. contradiction.
    + exact Hc.
  - intros [Ht | Ht]; rewrite Ht; cbn; rewrite ?andb_false_r; reflexivity.
  - intros Hnb Hnh. unfold Balloon.isOffScreen.
    destruct (Qltb (Balloon.y b) (- Balloon.r b)) eqn:Off.
    + apply Qltb_lt in Off. contradiction.
    + apply tag_eqb_neq in Hnb, Hnh. rewrite Hnb, Hnh. reflexivity.
Qed.

(** After the long pause, four normal balloons expire within the canvas
    in one frame, and four lives go. *)
Lemma update_culling_penalty_witness :
  lives (GameEngine.state
           (fst (GameEngine.update RationalMath.lib 60016 60016 Scenario.afterLongPause
                   (Scenario.draws (Scenario.spawning (1 # 2) Scenario.asNormal)) O)))
  = (lives (GameEngine.state Scenario.afterLongPause) - 4)%Z.
Proof.
  destruct (update_culling_penalty RationalMath.lib 60016 60016 Scenario.afterLongPause
              (Scenario.draws (Scenario.spawning (1 # 2) Scenario.asNormal)) O)
    as (_ & Hl & _).
  - vm_compute. reflexivity.
  - rewrite Hl. vm_compute. reflexivity.
Defined.

(** ** The bounds of the lives *)

Section Lives.
Variable M : MathLib.

(** A power-up balloon is popped. *)
Lemma popBalloon_powerUp b i event e rnd k :
  In (Balloon.type b) [slow; multiplier; freeze; magnet; defuser] ->
  let e' := fst (GameEngine.popBalloon M b i event e rnd k) in
  GameEngine.config e' = GameEngine.config e
  /\ lives (GameEngine.state e') = lives (GameEngine.state e)
  /\ GameEngine.comboCount e' = (GameEngine.comboCount e + 1)%Z
  /\ GameEngine.powerUpManager e' =
       fst (PowerUpManager.activatePowerUp (Balloon.type b)
              (powerupDuration (GameEngine.config e)) (GameEngine.powerUpManager e)).
Proof.
  intros Ht. unfold GameEngine.popBalloon, bind, GameEngine.onParticles, bind, ret.
  name_draws.
  match goal with
  | |- context [GameEngine.set_particleSystem ?s e] =>
      pose proof (onRegistry_frame
                    (PowerUpManager.activatePowerUp (Balloon.type b)
                       (powerupDuration (GameEngine.config (GameEngine.set_particleSystem s e))))
                    (GameEngine.set_particleSystem s e)) as R;
      pose proof (incrementCombo_counters M
                    (GameEngine.addScore 10
                       (GameEngine.activatePowerUp (Balloon.type b)
                          (GameEngine.set_particleSystem s e))) rnd n) as H
  end.
  cbv zeta in R, H. unfold GameEngine.activatePowerUp in H |- *.
  cbn [In] in Ht.
  destruct Ht as [Ht | [Ht | [Ht | [Ht | [Ht | []]]]]]; rewrite <- Ht in *; cbv iota beta;
    destruct (GameEngine.incrementCombo M _ rnd n) as [e2 k2];
    cbn in H, R |- *;
    destruct H as (Hn & _ & Hp & Hc & _ & Hs);
    destruct R as (R1 & R2 & _ & _ & R5 & _ & _ & R8);
    rewrite Hs, Hc, Hn, Hp, R1, R2, R5, R8;
    (repeat split;
     repeat match goal with
            | |- context [if ?c then _ else _] => destruct c
            end; cbn; rewrite ?R1; reflexivity).
Qed.

(** Whatever balloon is popped, the configuration stays and the lives
    stay, fall by one, or rise by one up to the maximum. *)
Lemma popBalloon_lives b i event e rnd k :
  let e' := fst (GameEngine.popBalloon M b i event e rnd k) in
  GameEngine.config e' = GameEngine.config e
  /\ (lives (GameEngine.state e') = lives (GameEngine.state e)
      \/ lives (GameEngine.state e') = (lives (GameEngine.state e) - 1)%Z
      \/ lives (GameEngine.state e') =
           Z.min (lives (GameEngine.state e) + 1) (maxLives (GameEngine.config e))).
Proof.
  cbv zeta. destruct (Balloon.type b) eqn:Ht.
  1, 2: destruct (popBalloon_scoring M b i event e rnd k) as (_ & _ & Hc & Hl & _);
        [rewrite Ht; auto | split; [exact Hc | left; exact Hl]].
  - destruct (popBalloon_heart M b i event e rnd k Ht) as (Hs & Hc & _).
    split; [exact Hc | right; right; rewrite Hs; reflexivity].
  - destruct (popBalloon_bomb M b i event e rnd k Ht) as (Hc & _ & _ & Hon & Hoff).
    split; [exact Hc|].
    destruct (PowerUpManager.isDefuserActive (GameEngine.powerUpManager e)).
    + destruct (Hon eq_refl) as (Hs & _). left. rewrite Hs. reflexivity.
    + destruct (Hoff eq_refl) as (Hs & _). right; left. rewrite Hs. reflexivity.
  - destruct (popBalloon_powerUp b i event e rnd k) as (Hc & Hl & _);
      [rewrite Ht; cbn; tauto | split; [exact Hc | left; exact Hl]].
  - destruct (popBalloon_powerUp b i event e rnd k) as (Hc & Hl & _);
      [rewrite Ht; cbn; tauto | split; [exact Hc | left; exact Hl]].
  - destruct (popBalloon_powerUp b i event e rnd k) as (Hc & Hl & _);
      [rewrite Ht; cbn; tauto | split; [exact Hc | left; exact Hl]].
  - destruct (popBalloon_powerUp b i event e rnd k) as (Hc & Hl & _);
      [rewrite Ht; cbn; tauto | split; [exact Hc | left; exact Hl]].
  - destruct (popBalloon_powerUp b i event e rnd k) as (Hc & Hl & _);
      [rewrite Ht; cbn; tauto | split; [exact Hc | left; exact Hl]].
Qed.

Lemma resetGame_lives e :
  GameEngine.config (GameEngine.resetGame e) = GameEngine.config e
  /\ lives (GameEngine.state (GameEngine.resetGame e)) = maxLives (GameEngine.config e).
Proof.
  unfold GameEngine.resetGame.
  match goal with
  | |- context [GameEngine.onRegistry ?f ?e0] =>
      destruct (onRegistry_frame f e0) as (R1 & R2 & _);
      set (e1 := GameEngine.onRegistry f e0) in *; clearbody e1
  end.
  cbn. rewrite R1, R2. cbn. split; reflexivity.
Qed.

(** No call changes the configuration or lifts the lives above the
    maximum. *)
Lemma exec_lives_bound c env e :
  (lives (GameEngine.state e) <= maxLives (GameEngine.config e))%Z ->
  GameEngine.config (GameEngine.exec M c env e) = GameEngine.config e
  /\ (lives (GameEngine.state (GameEngine.exec M c env e))
      <= maxLives (GameEngine.config e))%Z.
Proof.
  intro Hle. destruct c; cbn [GameEngine.exec].
  - unfold GameEngine.startGame, GameEngine.updateDifficulty.
    destruct (resetGame_lives e) as (Hc & Hl).
    set (e1 := GameEngine.resetGame e) in *. clearbody e1.
    cbn. rewrite Hc, Hl. split; [reflexivity | lia].
  - cbn. split; [reflexivity | exact Hle].
  - cbn. split; [reflexivity | exact Hle].
  - destruct (resetGame_lives e) as (Hc & Hl). rewrite Hc, Hl. split; [reflexivity | lia].
  - unfold run. destruct (running (GameEngine.state e)) eqn:Hrun.
    + destruct (update_running M currentTime (now env) e (random env) O Hrun)
        as (e1 & S1 & C1 & _ & _ & _ & Hl & _ & Hc).
      destruct (updateBalloons_spec M
                  ((currentTime - GameEngine.lastUpdateTime e) / 1000) (now env) e1)
        as (_ & Hl2 & _ & _ & Hc2).
      rewrite Hl, Hc, Hl2, Hc2, C1, S1. split; [reflexivity | lia].
    + unfold GameEngine.update. rewrite Hrun. cbn. split; [reflexivity | exact Hle].
  - unfold run, GameEngine.handleInput.
    destruct (running (GameEngine.state e)); cbn [negb];
      [|cbn; split; [reflexivity | exact Hle]].
    destruct (GameEngine.hitScan M _ _ _ _) as [[i b]|].
    + destruct (popBalloon_lives b i event e (random env) O) as (Hc & Hl).
      rewrite Hc. split; [reflexivity | lia].
    + cbn. split; [reflexivity | exact Hle].
  - cbn. split; [reflexivity | exact Hle].
  - cbn. split; [reflexivity | exact Hle].
Qed.

Lemma execAll_Reachable dimensions0 config0 calls : forall e,
  GameEngine.Reachable M dimensions0 config0 e ->
  GameEngine.Reachable M dimensions0 config0 (GameEngine.execAll M calls e).
Proof.
  induction calls as [|[c env] calls IH]; intros e He; cbn [GameEngine.execAll].
  - exact He.
  - apply IH. constructor. exact He.
Qed.

(** C8, as the code has it. In every engine a driver can bring about, the
    lives are at most the configured maximum (and the configuration is the
    one the engine was made with). *)
Theorem lives_never_exceed_maximum dimensions0 config0 e :
  GameEngine.Reachable M dimensions0 config0 e ->
  GameEngine.config e = config0
  /\ (lives (GameEngine.state e) <= maxLives config0)%Z.
Proof.
  induction 1 as [|c env e He [IHc IHl]].
  - cbn. split; [reflexivity | lia].
  - rewrite <- IHc in IHl.
    destruct (exec_lives_bound c env e IHl) as (Hc & Hl).
    rewrite Hc, IHc in *. split; [reflexivity | exact Hl].
Qed.

End Lives.

(** The game resumed after the long pause is one a driver can bring about. *)
Lemma lives_never_exceed_maximum_witness :
  (lives (GameEngine.state Scenario.afterLongPause) <= 3)%Z.
Proof.
  apply (lives_never_exceed_maximum RationalMath.lib Scenario.canvas DEFAULT_GAME_CONFIG).
  apply execAll_Reachable. constructor.
Defined.

(** C8, as stated, fails: in the first frame after the long pause four
    balloons expire, and the lives, three before, are [-1] after. *)
Lemma lives_go_negative :
  GameEngine.Reachable RationalMath.lib Scenario.canvas DEFAULT_GAME_CONFIG
    (Scenario.play Scenario.frameAfterPause Scenario.afterLongPause)
  /\ ~ (0 <= lives (GameEngine.state
                      (Scenario.play Scenario.frameAfterPause Scenario.afterLongPause))
          <= maxLives DEFAULT_GAME_CONFIG)%Z.
Proof.
  split.
  - unfold Scenario.play, Scenario.afterLongPause, Scenario.play, Scenario.fresh.
    do 2 apply execAll_Reachable. constructor.
  - assert (E : lives (GameEngine.state
                         (Scenario.play Scenario.frameAfterPause Scenario.afterLongPause))
                = (-1)%Z) by (vm_compute; reflexivity).
    rewrite E. lia.
Qed.

(** ** The category of a new balloon *)

Lemma Qfloor_unique (a : Q) (z : Z) :
  inject_Z z <= a -> a < inject_Z (z + 1) -> Qfloor a = z.
Proof.
  intros Hlo Hhi.
  assert (H1 : (z <= Qfloor a)%Z).
  { rewrite <- (Qfloor_Z z). apply Qfloor_resp_le. exact Hlo. }
  assert (H2 : (Qfloor a < z + 1)%Z).
  { rewrite Zlt_Qlt. apply Qle_lt_trans with a; [apply Qfloor_le | exact Hhi]. }
  lia.
Qed.

(** A draw in the [j]-th seventh of [0, 1) picks the [j]-th entry. *)
Lemma pick_seventh (d : Q) (j : nat) :
  (j < 7)%nat ->
  (Z.of_nat j # 7) <= d -> d < (Z.of_nat j + 1 # 7) ->
  Balloon.pick d = nth j Balloon.powerupTypes normal.
Proof.
  intros Hj Hlo Hhi. unfold Balloon.pick.
  replace (Qfloor (d * inject_Z (Z.of_nat (List.length Balloon.powerupTypes))))
    with (Z.of_nat j).
  - rewrite Nat2Z.id. reflexivity.
  - symmetry. apply Qfloor_unique.
    + cbn [List.length Balloon.powerupTypes]. destruct d as [n m].
      unfold Qle, Qmult, inject_Z in *. cbn in *. lia.
    + cbn [List.length Balloon.powerupTypes]. destruct d as [n m].
      unfold Qlt, Qmult, inject_Z in *. cbn in *. lia.
Qed.

(** C6, as the code has it. The first draw decides: below the bomb
    probability the category is bomb; otherwise, below the sum of the bomb
    and power-up probabilities, a second draw picks with equal chances
    among seven categories, the five power-ups, heart and special (the
    [j]-th seventh of [0, 1) gives the [j]-th of them); otherwise the
    category is normal. *)
Theorem selectBalloonType_draws (bombChance0 powerupChance0 : Q) (rnd : nat -> Q) (k : nat) :
  let category := fst (Balloon.selectBalloonType bombChance0 powerupChance0 rnd k) in
  (rnd k < bombChance0 -> category = bomb)
  /\ (~ rnd k < bombChance0 -> rnd k < bombChance0 + powerupChance0 ->
      forall j, (j < 7)%nat ->
        (Z.of_nat j # 7) <= rnd (S k) -> rnd (S k) < (Z.of_nat j + 1 # 7) ->
        category = nth j [slow; multiplier; freeze; magnet; defuser; heart; special] normal)
  /\ (~ rnd k < bombChance0 -> ~ rnd k < bombChance0 + powerupChance0 ->
      category = normal).
Proof.
  cbv zeta. unfold Balloon.selectBalloonType, bind, Math_random, ret.
  destruct (Qltb (rnd k) bombChance0) eqn:B;
    [|destruct (Qltb (rnd k) (bombChance0 + powerupChance0)) eqn:P]; cbn [fst].
  - apply Qltb_lt in B. repeat split; intros; try reflexivity; contradiction.
  - apply Qltb_ge in B. apply Qltb_lt in P. repeat split.
    + intro H. exfalso. exact (Qlt_not_le _ _ H B).
    + intros _ _ j Hj Hlo Hhi. apply pick_seventh; assumption.
    + intros _ H. contradiction.
  - apply Qltb_ge in B, P. repeat split.
    + intro H. exfalso. exact (Qlt_not_le _ _ H B).
    + intros _ H. exfalso. exact (Qlt_not_le _ _ H P).
Qed.

(** On the easy profile, a first draw of 0.06 and a second of 0.75. *)
Lemma selectBalloonType_draws_witness :
  fst (Balloon.selectBalloonType (5 # 100) (5 # 100) (Scenario.draws Scenario.asHeart) O)
  = heart.
Proof.
  destruct (selectBalloonType_draws (5 # 100) (5 # 100) (Scenario.draws Scenario.asHeart) O)
    as (_ & H & _).
  apply (H ltac:(vm_compute; discriminate) ltac:(vm_compute; reflexivity) 5%nat).
  - lia.
  - vm_compute. discriminate.
  - vm_compute. reflexivity.
Defined.

(** C6, as stated, fails: the same draws fall in the power-up share and
    give a heart, which is none of the five power-ups. *)
Lemma spawn_can_draw_a_heart :
  ~ Scenario.draws Scenario.asHeart O < bombChance DEFAULT_GAME_CONFIG easy
  /\ Scenario.draws Scenario.asHeart O
     < bombChance DEFAULT_GAME_CONFIG easy + powerupChance DEFAULT_GAME_CONFIG easy
  /\ ~ In (fst (Balloon.selectBalloonType (bombChance DEFAULT_GAME_CONFIG easy)
                  (powerupChance DEFAULT_GAME_CONFIG easy)
                  (Scenario.draws Scenario.asHeart) O))
          [slow; multiplier; freeze; magnet; defuser].
Proof.
  split; [|split].
  - vm_compute. discriminate.
  - vm_compute. reflexivity.
  - vm_compute. intros [H | [H | [H | [H | [H | []]]]]]; discriminate H.
Qed.

(** ** The registry: one instance per type *)

Section Registry.

Local Abbreviation Entries := (list (TypeTag * PowerUp)).
Local Abbreviation filed := PowerUpManager.filed.
Local Abbreviation tidy := PowerUpManager.tidy.

Lemma Map_get_absent k (l : Entries) :
  ~ In k (map fst l) -> PowerUpManager.Map_get k l = None.
Proof.
  induction l as [|[k' v] l IH]; cbn; intro H.
  - reflexivity.
  - destruct (tag_eqb k k') eqn:E.
    + apply tag_eqb_eq in E. subst. tauto.
    + apply IH. tauto.
Qed.

Lemma Map_delete_keys k k0 (l : Entries) :
  In k0 (map fst (PowerUpManager.Map_delete k l)) -> In k0 (map fst l).
Proof.
  induction l as [|[k' v'] l IH]; cbn; intro H.
  - exact H.
  - destruct (tag_eqb k k'); cbn in H; tauto.
Qed.

Lemma Map_delete_tidy k (l : Entries) :
  tidy l -> tidy (PowerUpManager.Map_delete k l)
            /\ ~ In k (map fst (PowerUpManager.Map_delete k l)).
Proof.
  intros [Hn Hf]. induction l as [|[k' v'] l IH]; cbn.
  - repeat split; [constructor | constructor | tauto].
  - cbn in Hn. inversion Hn as [|? ? Hk Hn']. inversion Hf as [|? ? Hv Hf']. subst.
    destruct (IH Hn' Hf') as ([In1 If1] & Ik).
    destruct (tag_eqb k k') eqn:E.
    + apply tag_eqb_eq in E. subst. repeat split; assumption.
    + apply tag_eqb_neq in E. repeat split.
      * cbn. constructor; [|exact In1].
        intro H. apply Hk. eapply Map_delete_keys. exact H.
      * constructor; assumption.
      * cbn. intros [H | H]; [congruence | tauto].
Qed.

Lemma Map_set_tidy k v (l : Entries) :
  tidy l -> pu_type v = k -> active v = true -> tidy (PowerUpManager.Map_set k v l).
Proof.
  intros [Hn Hf] Hk Ha. induction l as [|[k' v'] l IH]; cbn.
  - split; repeat constructor; cbn; tauto.
  - cbn in Hn. inversion Hn as [|? ? Hk' Hn']. inversion Hf as [|? ? Hv Hf']. subst.
    destruct (tag_eqb (pu_type v) k') eqn:E.
    + apply tag_eqb_eq in E. subst k'. split.
      * cbn. constructor; assumption.
      * constructor; [split; [reflexivity | exact Ha] | exact Hf'].
    + apply tag_eqb_neq in E. destruct (IH Hn' Hf') as [In1 If1]. split.
      * cbn. constructor; [|exact In1].
        intro H. apply Hk'.
        clear - H E. induction l as [|[k2 v2] l IHl]; cbn in *.
        -- destruct H; [congruence | tauto].
        -- destruct (tag_eqb (pu_type v) k2); cbn in H; tauto.
      * constructor; assumption.
Qed.

Lemma Map_get_set k v (l : Entries) :
  PowerUpManager.Map_get k (PowerUpManager.Map_set k v l) = Some v.
Proof.
  induction l as [|[k' v'] l IH]; cbn.
  - rewrite tag_eqb_refl. reflexivity.
  - destruct (tag_eqb k k') eqn:E; cbn.
    + rewrite tag_eqb_refl. reflexivity.
    + rewrite E. exact IH.
Qed.

(** In a tidy map the instances of a type are as many as its key is
    present: one or none. *)
Lemma instances_tidy type (l : Entries) :
  tidy l ->
  List.length (filter (fun p => tag_eqb (pu_type p) type)
                 (filter active (PowerUpManager.Map_values l)))
  = if PowerUpManager.Map_has type l then 1%nat else 0%nat.
Proof.
  unfold PowerUpManager.Map_has, PowerUpManager.Map_values.
  intros [Hn Hf]. induction l as [|[k v] l IH]; cbn.
  - reflexivity.
  - cbn in Hn. inversion Hn as [|? ? Hk Hn']. inversion Hf as [|? ? [Hv Ha] Hf']. subst.
    cbn in Hv, Ha. rewrite Ha. cbn. rewrite Hv.
    destruct (tag_eqb k type) eqn:E.
    + apply tag_eqb_eq in E. subst. rewrite tag_eqb_refl. cbn.
      rewrite (IH Hn' Hf'), (Map_get_absent _ _ Hk). reflexivity.
    + assert (E' : tag_eqb type k = false).
      { apply tag_eqb_neq. apply tag_eqb_neq in E. congruence. }
      rewrite E'. apply IH; assumption.
Qed.

(** The first loop of [update] keeps the keys; it ages every entry and
    marks exactly those that ran out, whose keys it collects. *)
Lemma age_spec deltaTime (l : Entries) :
  Forall filed l ->
  let '(aged, toRemove, notes) := PowerUpManager.age deltaTime l in
  map fst aged = map fst l
  /\ Forall (fun kv => pu_type (snd kv) = fst kv) aged
  /\ toRemove = map fst (filter (fun kv => negb (active (snd kv))) aged).
Proof.
  induction l as [|[k v] l IH]; intro Hf; cbn.
  - repeat split. constructor.
  - inversion Hf as [|? ? [Hv Ha] Hf']. subst. cbn in Hv, Ha.
    specialize (IH Hf').
    destruct (PowerUpManager.age deltaTime l) as [[aged toRemove] notes].
    destruct IH as (Hk & Ht & Hr).
    destruct (Qle_bool (timeLeft v - deltaTime) 0); cbn.
    + rewrite Hk, Hr. repeat split. constructor; assumption.
    + rewrite Ha, Hk. cbn. repeat split; [constructor|]; assumption.
Qed.

Lemma delete_others ks : forall k v (l : Entries),
  ~ In k ks ->
  fold_left (fun acc type => PowerUpManager.Map_delete type acc) ks ((k, v) :: l)
  = (k, v) :: fold_left (fun acc type => PowerUpManager.Map_delete type acc) ks l.
Proof.
  induction ks as [|k0 ks IH]; intros k v l Hk; cbn [fold_left].
  - reflexivity.
  - cbn [PowerUpManager.Map_delete].
    assert (E : tag_eqb k0 k = false).
    { apply tag_eqb_neq. intro. subst. apply Hk. left. reflexivity. }
    rewrite E. apply IH. intro H. apply Hk. right. exact H.
Qed.

(** The second loop of [update] leaves the entries still active. *)
Lemma delete_expired (l : Entries) :
  NoDup (map fst l) ->
  fold_left (fun acc type => PowerUpManager.Map_delete type acc)
    (map fst (filter (fun kv => negb (active (snd kv))) l)) l
  = filter (fun kv => active (snd kv)) l.
Proof.
  induction l as [|[k v] l IH]; intro Hn; cbn.
  - reflexivity.
  - cbn in Hn. inversion Hn as [|? ? Hk Hn']. subst.
    destruct (active v); cbn.
    + rewrite delete_others.
      * f_equal. apply IH. exact Hn'.
      * intro H. apply Hk. apply in_map_iff in H. destruct H as ([k1 v1] & E & H).
        cbn in E. subst. apply filter_In in H. destruct H as [H _].
        apply in_map_iff. exists (k, v1). split; [reflexivity | exact H].
    + rewrite tag_eqb_refl. apply IH. exact Hn'.
Qed.

Lemma NoDup_keys_filter (p : TypeTag * PowerUp -> bool) (l : Entries) :
  NoDup (map fst l) -> NoDup (map fst (filter p l)).
Proof.
  induction l as [|[k v] l IH]; cbn; intro Hn.
  - constructor.
  - inversion Hn as [|? ? Hk Hn']. subst. destruct (p (k, v)); cbn.
    + constructor; [|apply IH; exact Hn'].
      intro H. apply Hk. apply in_map_iff in H. destruct H as ([k1 v1] & E & H).
      cbn in E. subst. apply filter_In in H. destruct H as [H _].
      apply in_map_iff. exists (k, v1). split; [reflexivity | exact H].
    + apply IH. exact Hn'.
Qed.

(** Every method leaves the map tidy. *)
Lemma deactivatePowerUp_tidy type m :
  tidy (PowerUpManager.activePowerUps m) ->
  tidy (PowerUpManager.activePowerUps (fst (PowerUpManager.deactivatePowerUp type m)))
  /\ ~ In type (map fst (PowerUpManager.activePowerUps
                           (fst (PowerUpManager.deactivatePowerUp type m)))).
Proof.
  intro Ht. unfold PowerUpManager.deactivatePowerUp.
  destruct (PowerUpManager.Map_get type (PowerUpManager.activePowerUps m)) eqn:G; cbn.
  - apply Map_delete_tidy. exact Ht.
  - split; [exact Ht|]. intro H.
    apply in_map_iff in H. destruct H as ([k v] & E & H). cbn in E. subst.
    clear Ht. induction (PowerUpManager.activePowerUps m) as [|[k' v'] l IH]; cbn in *.
    + exact H.
    + destruct (tag_eqb type k') eqn:E; [discriminate|].
      destruct H as [H | H]; [|exact (IH G H)].
      inversion H. subst. rewrite tag_eqb_refl in E. discriminate.
Qed.

Lemma activatePowerUp_tidy type duration0 m :
  tidy (PowerUpManager.activePowerUps m) ->
  tidy (PowerUpManager.activePowerUps (fst (PowerUpManager.activatePowerUp type duration0 m))).
Proof.
  intro Ht. unfold PowerUpManager.activatePowerUp.
  destruct (PowerUpManager.Map_has type (PowerUpManager.activePowerUps m)).
  - destruct (deactivatePowerUp_tidy type m Ht) as [Ht1 _].
    destruct (PowerUpManager.deactivatePowerUp type m) as [m1 n1]. cbn in *.
    apply Map_set_tidy; [exact Ht1 | reflexivity | reflexivity].
  - cbn. apply Map_set_tidy; [exact Ht | reflexivity | reflexivity].
Qed.

Lemma update_tidy deltaTime m :
  tidy (PowerUpManager.activePowerUps m) ->
  tidy (PowerUpManager.activePowerUps (fst (PowerUpManager.update deltaTime m))).
Proof.
  intros [Hn Hf]. unfold PowerUpManager.update.
  pose proof (age_spec deltaTime _ Hf) as H.
  destruct (PowerUpManager.age deltaTime (PowerUpManager.activePowerUps m))
    as [[aged toRemove] notes].
  destruct H as (Hk & Ht & Hr). cbn. subst toRemove.
  rewrite <- Hk in Hn. rewrite (delete_expired aged Hn). split.
  - apply NoDup_keys_filter. exact Hn.
  - apply Forall_forall. intros [k v] H. apply filter_In in H. destruct H as [H Ha].
    split; [|exact Ha]. rewrite Forall_forall in Ht. exact (Ht _ H).
Qed.

Lemma Reachable_tidy m :
  PowerUpManager.Reachable m -> tidy (PowerUpManager.activePowerUps m).
Proof.
  induction 1.
  - split; constructor.
  - apply activatePowerUp_tidy. assumption.
  - apply deactivatePowerUp_tidy. assumption.
  - apply update_tidy. assumption.
  - split; constructor.
Qed.

(** C2. In every registry the methods bring about, each type has at most
    one active instance.  Activating a type that is active calls
    [onDeactivate] on the old instance (switched off, its time zeroed),
    then [onActivate] on a fresh one; the registry then holds exactly one
    instance of the type, the fresh one, whose remaining time is the full
    duration whatever time the old one had left. *)
Theorem one_instance_per_type (m : PowerUpManager.t) (type : TypeTag) (duration0 : Q) :
  PowerUpManager.Reachable m ->
  let instances := fun m0 =>
    List.length (filter (fun p => tag_eqb (pu_type p) type)
                   (PowerUpManager.getActivePowerUps m0)) in
  (instances m <= 1)%nat
  /\ (PowerUpManager.isActive type m = true ->
      let fresh := {| pu_type := type; duration := duration0;
                      active := true; timeLeft := duration0 |} in
      let m' := fst (PowerUpManager.activatePowerUp type duration0 m) in
      (exists old,
          PowerUpManager.Map_get type (PowerUpManager.activePowerUps m) = Some old
          /\ snd (PowerUpManager.activatePowerUp type duration0 m)
             = [PowerUpManager.onDeactivate
                  {| pu_type := pu_type old; duration := duration old;
                     active := false; timeLeft := 0 |};
                PowerUpManager.onActivate fresh])
      /\ PowerUpManager.Map_get type (PowerUpManager.activePowerUps m') = Some fresh
      /\ PowerUpManager.getTimeLeft type m' = duration0
      /\ PowerUpManager.isActive type m' = true
      /\ instances m' = 1%nat).
Proof.
  intros Hr. cbv zeta. pose proof (Reachable_tidy m Hr) as Ht.
  split.
  - unfold PowerUpManager.getActivePowerUps. rewrite (instances_tidy type _ Ht).
    destruct (PowerUpManager.Map_has _ _); lia.
  - intro Ha.
    pose proof (activatePowerUp_tidy type duration0 m Ht) as Ht'.
    assert (G : PowerUpManager.Map_get type
                  (PowerUpManager.activePowerUps
                     (fst (PowerUpManager.activatePowerUp type duration0 m)))
                = Some {| pu_type := type; duration := duration0;
                          active := true; timeLeft := duration0 |}).
    { unfold PowerUpManager.activatePowerUp.
      destruct (if PowerUpManager.Map_has type (PowerUpManager.activePowerUps m)
                then PowerUpManager.deactivatePowerUp type m else (m, [])) as [m1 n1].
      cbn. apply Map_get_set. }
    repeat split.
    + unfold PowerUpManager.isActive in Ha.
      destruct (PowerUpManager.Map_get type (PowerUpManager.activePowerUps m))
        as [old|] eqn:Gm; [|discriminate].
      exists old. split; [reflexivity|].
      unfold PowerUpManager.activatePowerUp, PowerUpManager.Map_has,
        PowerUpManager.deactivatePowerUp.
      rewrite Gm. reflexivity.
    + exact G.
    + unfold PowerUpManager.getTimeLeft. rewrite G. reflexivity.
    + unfold PowerUpManager.isActive. rewrite G. reflexivity.
    + unfold PowerUpManager.getActivePowerUps. rewrite (instances_tidy type _ Ht').
      unfold PowerUpManager.Map_has. rewrite G. reflexivity.
Qed.

End Registry.

(** A slow-motion power-up, activated for ten seconds and aged by four, is
    activated again: one instance, ten seconds left. *)
Lemma one_instance_per_type_witness :
  let m := fst (PowerUpManager.update 4
                  (fst (PowerUpManager.activatePowerUp slow 10 PowerUpManager.empty))) in
  PowerUpManager.getTimeLeft slow m == 6
  /\ PowerUpManager.getTimeLeft slow (fst (PowerUpManager.activatePowerUp slow 10 m)) = 10
  /\ List.length (PowerUpManager.getActivePowerUps
                    (fst (PowerUpManager.activatePowerUp slow 10 m))) = 1%nat.
Proof.
  intro m.
  destruct (one_instance_per_type m slow 10) as (_ & H).
  - subst m. repeat constructor.
  - destruct H as (_ & _ & Ht & _ & _); [reflexivity|].
    split; [reflexivity|]. split; [exact Ht | reflexivity].
Defined.

(** ** The difficulty *)

(** C5 asks that the profile named at [startGame] tunes the game.  The
    engine does not keep it: [startGame] is the same function whatever the
    difficulty, every tunable is read at [easy], and a game started on
    [hard] (spawn interval 250 ms) has spawned nothing 300 ms later, the
    [easy] interval being 600 ms. *)
Theorem startGame_difficulty_not_applied :
  (forall difficulty clock e,
      GameEngine.startGame difficulty clock e = GameEngine.startGame easy clock e)
  /\ (forall e, GameEngine.getCurrentDifficulty e = easy)
  /\ spawnRate DEFAULT_GAME_CONFIG hard < 300 - 0
  /\ GameEngine.balloons
       (Scenario.play [(GameEngine.call_startGame hard, Scenario.at_ 0 []);
                       (GameEngine.call_update 300,
                        Scenario.at_ 300 (Scenario.spawning (1 # 2) Scenario.asNormal))]
                      Scenario.fresh) = [].
Proof.
  split; [|split; [|split]].
  - reflexivity.
  - reflexivity.
  - reflexivity.
  - vm_compute. reflexivity.
Qed.

(** * Further properties of the registry *)

Lemma Map_get_set_other k k' v (l : list (TypeTag * PowerUp)) :
  k' <> k ->
  PowerUpManager.Map_get k' (PowerUpManager.Map_set k v l) = PowerUpManager.Map_get k' l.
Proof.
  intro Hne. induction l as [|[k0 v0] l IH]; cbn.
  - apply tag_eqb_neq in Hne. rewrite Hne. reflexivity.
  - destruct (tag_eqb k k0) eqn:E; cbn.
    + apply tag_eqb_eq in E. subst k0.
      apply tag_eqb_neq in Hne. rewrite Hne. reflexivity.
    + destruct (tag_eqb k' k0); [reflexivity | exact IH].
Qed.

Lemma Map_get_delete_other k k' (l : list (TypeTag * PowerUp)) :
  k' <> k ->
  PowerUpManager.Map_get k' (PowerUpManager.Map_delete k l) = PowerUpManager.Map_get k' l.
Proof.
  intro Hne. induction l as [|[k0 v0] l IH]; cbn.
  - reflexivity.
  - destruct (tag_eqb k k0) eqn:E; cbn.
    + apply tag_eqb_eq in E. subst k0.
      apply tag_eqb_neq in Hne. rewrite Hne. reflexivity.
    + destruct (tag_eqb k' k0); [reflexivity | exact IH].
Qed.

Lemma Map_delete_length k v (l : list (TypeTag * PowerUp)) :
  PowerUpManager.Map_get k l = Some v ->
  S (List.length (PowerUpManager.Map_delete k l)) = List.length l.
Proof.
  induction l as [|[k0 v0] l IH]; cbn; intro H.
  - discriminate.
  - destruct (tag_eqb k k0); cbn.
    + reflexivity.
    + f_equal. apply IH. exact H.
Qed.

(** X1. Whatever the registry, after [activatePowerUp] the type is
    active with the full duration left, and the entry of every other
    type is what it was. *)
Theorem activatePowerUp_then_lookup (m : PowerUpManager.t) (type : TypeTag) (duration0 : Q) :
  let m' := fst (PowerUpManager.activatePowerUp type duration0 m) in
  PowerUpManager.isActive type m' = true
  /\ PowerUpManager.getTimeLeft type m' = duration0
  /\ (forall other, other <> type ->
        PowerUpManager.isActive other m' = PowerUpManager.isActive other m
        /\ PowerUpManager.getTimeLeft other m' = PowerUpManager.getTimeLeft other m).
Proof.
  cbv zeta. unfold PowerUpManager.activatePowerUp, PowerUpManager.isActive,
    PowerUpManager.getTimeLeft.
  assert (Hd : forall other, other <> type ->
             PowerUpManager.Map_get other
               (PowerUpManager.activePowerUps
                  (fst (if PowerUpManager.Map_has type (PowerUpManager.activePowerUps m)
                        then PowerUpManager.deactivatePowerUp type m else (m, []))))
             = PowerUpManager.Map_get other (PowerUpManager.activePowerUps m)).
  { intros other Hne. destruct (PowerUpManager.Map_has type _); [|reflexivity].
    unfold PowerUpManager.deactivatePowerUp.
    destruct (PowerUpManager.Map_get type (PowerUpManager.activePowerUps m)); cbn;
      [apply Map_get_delete_other; exact Hne | reflexivity]. }
  destruct (if PowerUpManager.Map_has type (PowerUpManager.activePowerUps m)
            then PowerUpManager.deactivatePowerUp type m else (m, [])) as [m1 n1].
  cbn [fst PowerUpManager.activePowerUps] in *.
  rewrite Map_get_set. cbn. repeat split.
  - rewrite (Map_get_set_other _ _ _ _ H), (Hd _ H). reflexivity.
  - rewrite (Map_get_set_other _ _ _ _ H), (Hd _ H). reflexivity.
Qed.

(** A freeze is activated beside a slow-motion that has six seconds left. *)
Lemma activatePowerUp_then_lookup_witness :
  let m := fst (PowerUpManager.update 4
                  (fst (PowerUpManager.activatePowerUp slow 10 PowerUpManager.empty))) in
  PowerUpManager.getTimeLeft slow (fst (PowerUpManager.activatePowerUp freeze 10 m))
  = PowerUpManager.getTimeLeft slow m.
Proof.
  intro m.
  destruct (activatePowerUp_then_lookup m freeze 10) as (_ & _ & H).
  apply (H slow). discriminate.
Defined.

(** X2. In a registry the methods bring about, [deactivatePowerUp] of a
    type that has no entry changes nothing and calls nothing; of a type
    that has one, it removes that entry and no other, and calls
    [onDeactivate] once, on the entry switched off with its time zeroed. *)
Theorem deactivatePowerUp_removes_one (m : PowerUpManager.t) (type : TypeTag) :
  PowerUpManager.Reachable m ->
  let m' := fst (PowerUpManager.deactivatePowerUp type m) in
  let notes := snd (PowerUpManager.deactivatePowerUp type m) in
  PowerUpManager.isActive type m' = false
  /\ PowerUpManager.getTimeLeft type m' = 0
  /\ (forall other, other <> type ->
        PowerUpManager.Map_get other (PowerUpManager.activePowerUps m')
        = PowerUpManager.Map_get other (PowerUpManager.activePowerUps m))
  /\ match PowerUpManager.Map_get type (PowerUpManager.activePowerUps m) with
     | None => m' = m /\ notes = []
     | Some old =>
         notes = [PowerUpManager.onDeactivate
                    {| pu_type := pu_type old; duration := duration old;
                       active := false; timeLeft := 0 |}]
         /\ S (List.length (PowerUpManager.activePowerUps m'))
            = List.length (PowerUpManager.activePowerUps m)
     end.
Proof.
  intro Hr. cbv zeta.
  destruct (deactivatePowerUp_tidy type m (Reachable_tidy m Hr)) as (_ & Hout).
  apply Map_get_absent in Hout.
  unfold PowerUpManager.isActive, PowerUpManager.getTimeLeft. rewrite Hout.
  repeat split.
  - intros other Hne. unfold PowerUpManager.deactivatePowerUp.
    destruct (PowerUpManager.Map_get type (PowerUpManager.activePowerUps m)); cbn;
      [apply Map_get_delete_other; exact Hne | reflexivity].
  - unfold PowerUpManager.deactivatePowerUp.
    destruct (PowerUpManager.Map_get type (PowerUpManager.activePowerUps m)) eqn:G; cbn.
    + split; [reflexivity | apply (Map_delete_length _ _ _ G)].
    + split; reflexivity.
Qed.

(** A slow-motion is activated, then deactivated. *)
Lemma deactivatePowerUp_removes_one_witness :
  PowerUpManager.isActive slow
    (fst (PowerUpManager.deactivatePowerUp slow
            (fst (PowerUpManager.activatePowerUp slow 10 PowerUpManager.empty)))) = false.
Proof.
  apply (deactivatePowerUp_removes_one
           (fst (PowerUpManager.activatePowerUp slow 10 PowerUpManager.empty)) slow).
  repeat constructor.
Defined.

(** The entries as the first loop of [update] leaves them. *)
Lemma age_entries deltaTime (l : list (TypeTag * PowerUp)) :
  Forall PowerUpManager.filed l ->
  fst (fst (PowerUpManager.age deltaTime l))
  = map (fun kv =>
           (fst kv,
            {| pu_type := pu_type (snd kv); duration := duration (snd kv);
               active := negb (Qle_bool (timeLeft (snd kv) - deltaTime) 0);
               timeLeft := timeLeft (snd kv) - deltaTime |})) l
  /\ List.length (snd (PowerUpManager.age deltaTime l)) = List.length l.
Proof.
  induction l as [|[k v] l IH]; intro Hf; cbn.
  - split; reflexivity.
  - inversion Hf as [|? ? [_ Ha] Hf']. subst. cbn in Ha.
    destruct (IH Hf') as [IH1 IH2].
    destruct (PowerUpManager.age deltaTime l) as [[aged toRemove] notes].
    cbn in IH1, IH2.
    destruct (Qle_bool (timeLeft v - deltaTime) 0); cbn; rewrite IH1, IH2, ?Ha;
      split; reflexivity.
Qed.

Lemma update_entries deltaTime m :
  PowerUpManager.tidy (PowerUpManager.activePowerUps m) ->
  PowerUpManager.activePowerUps (fst (PowerUpManager.update deltaTime m))
  = filter (fun kv => active (snd kv))
      (map (fun kv =>
              (fst kv,
               {| pu_type := pu_type (snd kv); duration := duration (snd kv);
                  active := negb (Qle_bool (timeLeft (snd kv) - deltaTime) 0);
                  timeLeft := timeLeft (snd kv) - deltaTime |}))
           (PowerUpManager.activePowerUps m))
  /\ List.length (snd (PowerUpManager.update deltaTime m))
     = List.length (PowerUpManager.activePowerUps m).
Proof.
  intros [Hn Hf]. unfold PowerUpManager.update.
  pose proof (age_spec deltaTime _ Hf) as H.
  destruct (age_entries deltaTime _ Hf) as [He Hl].
  destruct (PowerUpManager.age deltaTime (PowerUpManager.activePowerUps m))
    as [[aged toRemove] notes].
  destruct H as (Hk & _ & Hr). cbn in He, Hl |- *. subst toRemove.
  rewrite <- Hk in Hn. rewrite (delete_expired aged Hn), He. split; [reflexivity | exact Hl].
Qed.

(** X3. In a registry the methods bring about, [update] takes the
    elapsed time off every entry; the entry of a type is still there,
    active, with that much less time, when time is left, and is gone when
    none is. *)
Theorem update_ages_or_removes (m : PowerUpManager.t) (deltaTime : Q) (type : TypeTag) :
  PowerUpManager.Reachable m ->
  PowerUpManager.Map_get type
    (PowerUpManager.activePowerUps (fst (PowerUpManager.update deltaTime m)))
  = match PowerUpManager.Map_get type (PowerUpManager.activePowerUps m) with
    | Some p =>
        if Qle_bool (timeLeft p - deltaTime) 0 then None
        else Some {| pu_type := pu_type p; duration := duration p;
                     active := true; timeLeft := timeLeft p - deltaTime |}
    | None => None
    end.
Proof.
  intro Hr. pose proof (Reachable_tidy m Hr) as Ht.
  destruct (update_entries deltaTime m Ht) as [He _]. rewrite He.
  destruct Ht as [Hn _]. clear He Hr.
  induction (PowerUpManager.activePowerUps m) as [|[k v] l IH]; cbn.
  - reflexivity.
  - cbn in Hn. inversion Hn as [|? ? Hk Hn']. subst.
    destruct (tag_eqb type k) eqn:E.
    + apply tag_eqb_eq in E. subst k.
      destruct (Qle_bool (timeLeft v - deltaTime) 0); cbn.
      * apply Map_get_absent. intro H. apply Hk.
        apply in_map_iff in H. destruct H as ([k1 v1] & E1 & H). cbn in E1. subst k1.
        apply filter_In in H. destruct H as [H _].
        apply in_map_iff in H. destruct H as ([k2 v2] & E2 & H). inversion E2. subst.
        apply in_map_iff. exists (type, v2). split; [reflexivity | exact H].
      * rewrite tag_eqb_refl. reflexivity.
    + destruct (Qle_bool (timeLeft v - deltaTime) 0); cbn.
      * apply IH. exact Hn'.
      * rewrite E. apply IH. exact Hn'.
Qed.

(** A slow-motion of ten seconds is there after four and gone after ten. *)
Lemma update_ages_or_removes_witness :
  PowerUpManager.getTimeLeft slow
    (fst (PowerUpManager.update 4
            (fst (PowerUpManager.activatePowerUp slow 10 PowerUpManager.empty)))) == 6
  /\ PowerUpManager.isActive slow
       (fst (PowerUpManager.update 10
               (fst (PowerUpManager.activatePowerUp slow 10 PowerUpManager.empty)))) = false.
Proof.
  unfold PowerUpManager.getTimeLeft, PowerUpManager.isActive.
  rewrite !update_ages_or_removes by (repeat constructor).
  split; reflexivity.
Defined.

(** X4. In a registry the methods bring about, [update] calls one
    callback for each entry, and every power-up it leaves is active with
    time left. *)
Theorem update_leaves_only_running (m : PowerUpManager.t) (deltaTime : Q) :
  PowerUpManager.Reachable m ->
  List.length (snd (PowerUpManager.update deltaTime m))
  = List.length (PowerUpManager.activePowerUps m)
  /\ (List.length (PowerUpManager.activePowerUps (fst (PowerUpManager.update deltaTime m)))
      <= List.length (PowerUpManager.activePowerUps m))%nat
  /\ Forall (fun kv => active (snd kv) = true /\ 0 < timeLeft (snd kv))
       (PowerUpManager.activePowerUps (fst (PowerUpManager.update deltaTime m))).
Proof.
  intro Hr. pose proof (Reachable_tidy m Hr) as Ht.
  destruct (update_entries deltaTime m Ht) as [He Hl]. rewrite He, Hl.
  repeat split.
  - etransitivity; [apply filter_length_le | rewrite length_map; apply le_n].
  - apply Forall_forall. intros [k v] H. apply filter_In in H. destruct H as [H Ha].
    split; [exact Ha|].
    apply in_map_iff in H. destruct H as ([k0 v0] & E & _). inversion E. subst. cbn in *.
    apply negb_true_iff in Ha. apply Qltb_lt. unfold Qltb. rewrite Ha. reflexivity.
Qed.

Lemma update_leaves_only_running_witness :
  List.length (snd (PowerUpManager.update 4
                      (fst (PowerUpManager.activatePowerUp slow 10 PowerUpManager.empty))))
  = 1%nat.
Proof.
  destruct (update_leaves_only_running
              (fst (PowerUpManager.activatePowerUp slow 10 PowerUpManager.empty)) 4)
    as (H & _).
  - repeat constructor.
  - rewrite H. reflexivity.
Defined.

(** * Further properties of the engine *)

(** ** What a frame is made of *)

(** The callbacks of [update] and [clearAll] are none of them
    [onActivate]: the engine delivers nothing for them. *)
Lemma deliver_quiet notes : forall e,
  Forall (fun n => match n with PowerUpManager.onActivate _ => False | _ => True end) notes ->
  GameEngine.events (fold_left (fun e0 n => GameEngine.deliver n e0) notes e)
  = GameEngine.events e.
Proof.
  induction notes as [|n notes IH]; intros e Hq; cbn [fold_left].
  - reflexivity.
  - inversion Hq as [|? ? Hn Hq']. subst. rewrite (IH _ Hq').
    destruct n; [contradiction | reflexivity | reflexivity].
Qed.

Lemma age_quiet deltaTime l :
  Forall (fun n => match n with PowerUpManager.onActivate _ => False | _ => True end)
    (snd (PowerUpManager.age deltaTime l)).
Proof.
  induction l as [|[k v] l IH]; cbn.
  - constructor.
  - destruct (PowerUpManager.age deltaTime l) as [[aged toRemove] notes]. cbn in IH.
    destruct (Qle_bool _ 0); cbn; constructor; try exact I; exact IH.
Qed.

Lemma onRegistry_update_events deltaTime e :
  GameEngine.events (GameEngine.onRegistry (PowerUpManager.update deltaTime) e)
  = GameEngine.events e.
Proof.
  unfold GameEngine.onRegistry, PowerUpManager.update.
  pose proof (age_quiet deltaTime (PowerUpManager.activePowerUps (GameEngine.powerUpManager e)))
    as Hq.
  destruct (PowerUpManager.age deltaTime _) as [[aged toRemove] notes]. cbn in Hq.
  rewrite (deliver_quiet _ _ Hq). reflexivity.
Qed.

Lemma onRegistry_clearAll_events e :
  GameEngine.events (GameEngine.onRegistry PowerUpManager.clearAll e) = GameEngine.events e.
Proof.
  unfold GameEngine.onRegistry, PowerUpManager.clearAll.
  rewrite deliver_quiet; [reflexivity|].
  apply Forall_forall. intros n H. apply in_map_iff in H. destruct H as (p & E & _).
  subst n. exact I.
Qed.

(** One turn of the loop of [updateBalloons] either takes no life, and
    then touches nothing but the balloons, or takes one, resets the combo
    and calls [onLifeLost]. *)
Lemma updateBalloon_frame M deltaTime clock i e :
  let e' := GameEngine.updateBalloon M deltaTime clock i e in
  GameEngine.particleSystem e' = GameEngine.particleSystem e
  /\ GameEngine.lastUpdateTime e' = GameEngine.lastUpdateTime e
  /\ GameEngine.lastSpawnTime e' = GameEngine.lastSpawnTime e
  /\ ((GameEngine.state e' = GameEngine.state e
       /\ GameEngine.comboCount e' = GameEngine.comboCount e
       /\ GameEngine.comboTimer e' = GameEngine.comboTimer e
       /\ GameEngine.events e' = GameEngine.events e)
      \/ (GameEngine.state e'
          = GameEngine.set_lives (lives (GameEngine.state e) - 1)%Z (GameEngine.state e)
          /\ GameEngine.comboCount e' = 0%Z
          /\ GameEngine.comboTimer e' = 0
          /\ GameEngine.events e' = GameEngine.events e ++ [GameEngine.onLifeLost])).
Proof.
  cbv zeta. unfold GameEngine.updateBalloon.
  destruct (nth_error (GameEngine.balloons e) i) as [b0|]; [|repeat split; left; repeat split].
  cbn [GameEngine.set_balloons GameEngine.balloons GameEngine.dimensions].
  destruct (Balloon.isOffScreen _ _ || Balloon.isExpired clock _);
    [|cbn; repeat split; left; repeat split].
  destruct (negb _ && negb _ && negb _).
  - cbn. repeat split. right. repeat split.
  - cbn. repeat split. left. repeat split.
Qed.

(** The whole loop: the state changes in its lives only, by the number
    of [onLifeLost] it calls; the combo is reset if that number is not
    zero. *)
Lemma updateBalloonsFrom_frame M deltaTime clock n : forall e,
  let e' := GameEngine.updateBalloonsFrom M deltaTime clock n e in
  exists lost : nat,
    GameEngine.particleSystem e' = GameEngine.particleSystem e
    /\ GameEngine.lastUpdateTime e' = GameEngine.lastUpdateTime e
    /\ GameEngine.lastSpawnTime e' = GameEngine.lastSpawnTime e
    /\ GameEngine.state e'
       = GameEngine.set_lives (lives (GameEngine.state e) - Z.of_nat lost)%Z
           (GameEngine.state e)
    /\ GameEngine.events e' = GameEngine.events e ++ repeat GameEngine.onLifeLost lost
    /\ (lost = O -> GameEngine.comboCount e' = GameEngine.comboCount e
                    /\ GameEngine.comboTimer e' = GameEngine.comboTimer e)
    /\ (lost <> O -> GameEngine.comboCount e' = 0%Z /\ GameEngine.comboTimer e' = 0).
Proof.
  induction n as [|n IH]; intro e; cbv zeta; cbn [GameEngine.updateBalloonsFrom].
  - exists O. rewrite Z.sub_0_r, app_nil_r.
    repeat split; try congruence. destruct (GameEngine.state e); reflexivity.
  - destruct (updateBalloon_frame M deltaTime clock n e) as (P1 & U1 & L1 & H1).
    destruct (IH (GameEngine.updateBalloon M deltaTime clock n e))
      as (lost & P2 & U2 & L2 & S2 & E2 & K0 & K1).
    destruct H1 as [(S1 & C1 & T1 & E1) | (S1 & C1 & T1 & E1)].
    + exists lost. rewrite P2, U2, L2, S2, E2, P1, U1, L1, S1, E1.
      do 5 (split; [reflexivity|]). split; intro H.
      * destruct (K0 H). split; congruence.
      * exact (K1 H).
    + exists (S lost). rewrite P2, U2, L2, S2, E2, P1, U1, L1, S1, E1.
      split; [reflexivity|]. split; [reflexivity|]. split; [reflexivity|].
      split.
      { unfold GameEngine.set_lives.
        cbn [lives running score highScore level combo gameStarted Game.gameOver].
        f_equal. lia. }
      split.
      { rewrite <- app_assoc. reflexivity. }
      split; intro H; [discriminate|].
      destruct lost; [destruct (K0 eq_refl); split; congruence | apply K1; discriminate].
Qed.

Lemma onRegistry_clocks f e :
  GameEngine.lastUpdateTime (GameEngine.onRegistry f e) = GameEngine.lastUpdateTime e
  /\ GameEngine.lastSpawnTime (GameEngine.onRegistry f e) = GameEngine.lastSpawnTime e.
Proof.
  unfold GameEngine.onRegistry. destruct (f (GameEngine.powerUpManager e)) as [m notes].
  change (GameEngine.lastUpdateTime e)
    with (GameEngine.lastUpdateTime (GameEngine.set_powerUpManager m e)).
  change (GameEngine.lastSpawnTime e)
    with (GameEngine.lastSpawnTime (GameEngine.set_powerUpManager m e)).
  generalize (GameEngine.set_powerUpManager m e). clear e.
  induction notes as [|n notes IH]; intro e; cbn [fold_left].
  - split; reflexivity.
  - destruct (IH (GameEngine.deliver n e)) as [H1 H2]. rewrite H1, H2.
    destruct n; split; reflexivity.
Qed.

(** A frame of a running game, step by step: [e1] is the engine after the
    combo timer and the spawn. *)
Lemma update_unfold M currentTime clock e rnd k :
  running (GameEngine.state e) = true ->
  let deltaTime := (currentTime - GameEngine.lastUpdateTime e) / 1000 in
  exists e1,
    (GameEngine.state e1 = GameEngine.state e
     /\ GameEngine.config e1 = GameEngine.config e
     /\ GameEngine.dimensions e1 = GameEngine.dimensions e
     /\ GameEngine.powerUpManager e1 = GameEngine.powerUpManager e
     /\ GameEngine.particleSystem e1 = GameEngine.particleSystem e
     /\ GameEngine.events e1 = GameEngine.events e
     /\ GameEngine.lastUpdateTime e1 = currentTime
     /\ GameEngine.comboTimer e1
        = (if Qltb 0 (GameEngine.comboTimer e)
           then GameEngine.comboTimer e - deltaTime else GameEngine.comboTimer e)
     /\ GameEngine.comboCount e1
        = (if Qltb 0 (GameEngine.comboTimer e)
              && Qle_bool (GameEngine.comboTimer e - deltaTime) 0
           then 0%Z else GameEngine.comboCount e))
    /\ fst (GameEngine.update M currentTime clock e rnd k)
       = let e2 := GameEngine.updateBalloons M deltaTime clock e1 in
         let e3 := GameEngine.onRegistry (PowerUpManager.update deltaTime)
                     (GameEngine.set_particleSystem
                        (ParticleSystem.update deltaTime (GameEngine.particleSystem e2)) e2) in
         if (lives (GameEngine.state e3) <=? 0)%Z then GameEngine.gameOver e3 else e3.
Proof.
  intro Hrun. cbv zeta. unfold GameEngine.update. rewrite Hrun. cbn [negb].
  set (dt := (currentTime - GameEngine.lastUpdateTime e) / 1000).
  match goal with
  | |- context [bind (GameEngine.spawnBalloons currentTime clock ?x)] =>
      set (e0 := x);
      assert (H0 : GameEngine.state e0 = GameEngine.state e
                   /\ GameEngine.config e0 = GameEngine.config e
                   /\ GameEngine.dimensions e0 = GameEngine.dimensions e
                   /\ GameEngine.powerUpManager e0 = GameEngine.powerUpManager e
                   /\ GameEngine.particleSystem e0 = GameEngine.particleSystem e
                   /\ GameEngine.events e0 = GameEngine.events e
                   /\ GameEngine.lastUpdateTime e0 = currentTime
                   /\ GameEngine.comboTimer e0
                      = (if Qltb 0 (GameEngine.comboTimer e)
                         then GameEngine.comboTimer e - dt else GameEngine.comboTimer e)
                   /\ GameEngine.comboCount e0
                      = (if Qltb 0 (GameEngine.comboTimer e)
                            && Qle_bool (GameEngine.comboTimer e - dt) 0
                         then 0%Z else GameEngine.comboCount e))
  end.
  { subst e0. cbn. destruct (Qltb 0 (GameEngine.comboTimer e)); cbn;
      [destruct (Qle_bool _ 0)|]; cbn; repeat split. }
  clearbody e0. destruct H0 as (A1 & A2 & A3 & A4 & A5 & A6 & A7 & A8 & A9).
  unfold bind.
  assert (H1 : let e1 := fst (GameEngine.spawnBalloons currentTime clock e0 rnd k) in
               GameEngine.state e1 = GameEngine.state e0
               /\ GameEngine.config e1 = GameEngine.config e0
               /\ GameEngine.dimensions e1 = GameEngine.dimensions e0
               /\ GameEngine.powerUpManager e1 = GameEngine.powerUpManager e0
               /\ GameEngine.particleSystem e1 = GameEngine.particleSystem e0
               /\ GameEngine.events e1 = GameEngine.events e0
               /\ GameEngine.lastUpdateTime e1 = GameEngine.lastUpdateTime e0
               /\ GameEngine.comboTimer e1 = GameEngine.comboTimer e0
               /\ GameEngine.comboCount e1 = GameEngine.comboCount e0).
  { cbv zeta. unfold GameEngine.spawnBalloons.
    match goal with
    | |- context [if Qltb ?a ?b then _ else _] => destruct (Qltb a b)
    end.
    - unfold bind, ret. destruct (Balloon.create _ _ _ _ _ _ rnd k) as [b k1].
      cbn. repeat split.
    - cbn. repeat split. }
  cbv zeta in H1.
  destruct (GameEngine.spawnBalloons currentTime clock e0 rnd k) as [e1 k1].
  cbn [fst] in H1. destruct H1 as (B1 & B2 & B3 & B4 & B5 & B6 & B7 & B8 & B9).
  exists e1. split.
  - rewrite B1, B2, B3, B4, B5, B6, B7, B8, B9. repeat split; assumption.
  - cbv zeta. destruct (lives _ <=? 0)%Z; reflexivity.
Qed.

(** What a frame of a running game comes to. *)
Lemma update_outcome M currentTime clock e rnd k :
  running (GameEngine.state e) = true ->
  let deltaTime := (currentTime - GameEngine.lastUpdateTime e) / 1000 in
  let e' := fst (GameEngine.update M currentTime clock e rnd k) in
  let ended := (lives (GameEngine.state e') <=? 0)%Z in
  exists lost : nat,
    GameEngine.state e'
    = GameEngine.set_gameOver (ended || Game.gameOver (GameEngine.state e))
        (GameEngine.set_running (negb ended)
           (GameEngine.set_lives (lives (GameEngine.state e) - Z.of_nat lost)%Z
              (GameEngine.state e)))
    /\ GameEngine.events e'
       = GameEngine.events e ++ repeat GameEngine.onLifeLost lost
         ++ (if ended then [GameEngine.onGameOver (score (GameEngine.state e))] else [])
    /\ GameEngine.powerUpManager e'
       = (if ended then PowerUpManager.empty
          else fst (PowerUpManager.update deltaTime (GameEngine.powerUpManager e)))
    /\ GameEngine.particleSystem e'
       = ParticleSystem.update deltaTime (GameEngine.particleSystem e)
    /\ GameEngine.lastUpdateTime e' = currentTime
    /\ GameEngine.comboCount e'
       = (if Nat.eqb lost 0
          then if Qltb 0 (GameEngine.comboTimer e)
                  && Qle_bool (GameEngine.comboTimer e - deltaTime) 0
               then 0%Z else GameEngine.comboCount e
          else 0%Z)
    /\ GameEngine.comboTimer e'
       = (if Nat.eqb lost 0
          then if Qltb 0 (GameEngine.comboTimer e)
               then GameEngine.comboTimer e - deltaTime else GameEngine.comboTimer e
          else 0).
Proof.
  intro Hrun. cbv zeta.
  destruct (update_unfold M currentTime clock e rnd k Hrun)
    as (e1 & (A1 & A2 & A3 & A4 & A5 & A6 & A7 & A8 & A9) & Hu).
  rewrite Hu. clear Hu. cbv zeta.
  set (dt := (currentTime - GameEngine.lastUpdateTime e) / 1000) in *.
  destruct (updateBalloonsFrom_frame M dt clock (List.length (GameEngine.balloons e1)) e1)
    as (lost & P2 & U2 & L2 & S2 & E2 & K0 & K1).
  destruct (updateBalloons_spec M dt clock e1) as (_ & _ & Hp2 & _).
  fold (GameEngine.updateBalloons M dt clock e1) in *.
  set (e2 := GameEngine.updateBalloons M dt clock e1) in *. clearbody e2.
  match goal with
  | |- context [GameEngine.onRegistry ?f ?x] =>
      destruct (onRegistry_frame f x) as (R1 & R2 & R3 & R4 & R5 & R6 & R7 & R8);
      pose proof (onRegistry_update_events dt x) as R9;
      destruct (onRegistry_clocks f x) as (R10 & _);
      set (e3 := GameEngine.onRegistry f x) in *; clearbody e3
  end.
  cbn in R1, R5, R6, R7, R8, R9, R10.
  exists lost.
  assert (Hc : GameEngine.comboCount e3
               = (if Nat.eqb lost 0
                  then if Qltb 0 (GameEngine.comboTimer e)
                          && Qle_bool (GameEngine.comboTimer e - dt) 0
                       then 0%Z else GameEngine.comboCount e
                  else 0%Z)
               /\ GameEngine.comboTimer e3
                  = (if Nat.eqb lost 0
                     then if Qltb 0 (GameEngine.comboTimer e)
                          then GameEngine.comboTimer e - dt else GameEngine.comboTimer e
                     else 0)).
  { rewrite R5, R6. destruct lost as [|lost].
    - destruct (K0 eq_refl) as [Kc Kt]. rewrite Kc, Kt, A8, A9. split; reflexivity.
    - destruct (K1 ltac:(discriminate)) as [Kc Kt]. rewrite Kc, Kt. split; reflexivity. }
  destruct Hc as [Hc Ht].
  assert (Hs : GameEngine.state e3
               = GameEngine.set_lives (lives (GameEngine.state e) - Z.of_nat lost)%Z
                   (GameEngine.state e)) by (rewrite R1, S2, A1; reflexivity).
  destruct (lives (GameEngine.state e3) <=? 0)%Z eqn:End.
  - unfold GameEngine.gameOver.
    match goal with
    | |- context [GameEngine.onRegistry ?f ?x] =>
        destruct (onRegistry_frame f x) as (G1 & _ & _ & _ & G5 & G6 & G7 & G8);
        pose proof (onRegistry_clearAll_events x) as G9;
        destruct (onRegistry_clocks f x) as (G10 & _);
        set (e4 := GameEngine.onRegistry f x) in *; clearbody e4
    end.
    cbn in G1, G5, G6, G7, G8, G9, G10. cbn.
    rewrite G1, G5, G6, G7, G8, G9, G10, R7, R9, R10, E2, A6, P2, A5, U2, A7, Hc, Ht, Hs. cbn.
    assert (Hl : (lives (GameEngine.state e) - Z.of_nat lost <=? 0)%Z = true)
      by (rewrite Hs in End; exact End).
    rewrite Hl. cbn. rewrite <- app_assoc. repeat split.
  - rewrite R8, R7, R9, R10, E2, A6, P2, A5, U2, A7, Hc, Ht, Hs, Hp2, A4.
    assert (Hl : (lives (GameEngine.state e) - Z.of_nat lost <=? 0)%Z = false)
      by (rewrite Hs in End; exact End).
    cbn. rewrite Hl. cbn. rewrite app_nil_r. repeat split.
    destruct (GameEngine.state e). cbn in *. rewrite Hrun. reflexivity.
Qed.

(** ** The end of the game *)

(** X5. A frame of a running game that leaves no life ends the game:
    the engine stops running, is over and its registry is emptied; a
    frame that leaves a life keeps it running, and the registry is the
    one [update] of the registry gives for the time elapsed. *)
Theorem frame_ends_game_when_lives_run_out M currentTime clock e rnd k :
  running (GameEngine.state e) = true ->
  let e' := fst (GameEngine.update M currentTime clock e rnd k) in
  ((lives (GameEngine.state e') <= 0)%Z ->
     running (GameEngine.state e') = false
     /\ Game.gameOver (GameEngine.state e') = true
     /\ GameEngine.powerUpManager e' = PowerUpManager.empty)
  /\ ((0 < lives (GameEngine.state e'))%Z ->
      running (GameEngine.state e') = true
      /\ Game.gameOver (GameEngine.state e') = Game.gameOver (GameEngine.state e)
      /\ GameEngine.powerUpManager e'
         = fst (PowerUpManager.update
                  ((currentTime - GameEngine.lastUpdateTime e) / 1000)
                  (GameEngine.powerUpManager e))).
Proof.
  intro Hrun. cbv zeta.
  destruct (update_outcome M currentTime clock e rnd k Hrun) as (lost & Hs & _ & Hp & _).
  cbv zeta in Hs, Hp. split; intro Hl.
  - apply Z.leb_le in Hl. rewrite Hl in Hs, Hp. rewrite Hs, Hp. repeat split.
  - apply Z.leb_gt in Hl. rewrite Hl in Hs, Hp. rewrite Hs, Hp. repeat split.
Qed.

(** The frame after the long pause ends the game. *)
Lemma frame_ends_game_when_lives_run_out_witness :
  running (GameEngine.state
             (fst (GameEngine.update RationalMath.lib 60016 60016 Scenario.afterLongPause
                     (Scenario.draws (Scenario.spawning (1 # 2) Scenario.asNormal)) O)))
  = false.
Proof.
  destruct (frame_ends_game_when_lives_run_out RationalMath.lib 60016 60016
              Scenario.afterLongPause
              (Scenario.draws (Scenario.spawning (1 # 2) Scenario.asNormal)) O)
    as (H & _).
  - vm_compute. reflexivity.
  - apply H. vm_compute. discriminate.
Defined.

(** X6. A frame of a running game calls [onLifeLost] once for each life
    it takes, then [onGameOver], with the score, if it ends the game, and
    no other callback: the registry's [onDeactivate] and [onUpdate] are
    not passed on. *)
Theorem frame_notifications M currentTime clock e rnd k :
  running (GameEngine.state e) = true ->
  let e' := fst (GameEngine.update M currentTime clock e rnd k) in
  (lives (GameEngine.state e') <= lives (GameEngine.state e))%Z
  /\ GameEngine.events e'
     = GameEngine.events e
       ++ repeat GameEngine.onLifeLost
            (Z.to_nat (lives (GameEngine.state e) - lives (GameEngine.state e')))
       ++ (if (lives (GameEngine.state e') <=? 0)%Z
           then [GameEngine.onGameOver (score (GameEngine.state e))] else []).
Proof.
  intro Hrun. cbv zeta.
  destruct (update_outcome M currentTime clock e rnd k Hrun) as (lost & Hs & He & _).
  cbv zeta in Hs, He. rewrite He.
  assert (Hl : lives (GameEngine.state
                        (fst (GameEngine.update M currentTime clock e rnd k)))
               = (lives (GameEngine.state e) - Z.of_nat lost)%Z)
    by (rewrite Hs; reflexivity).
  rewrite Hl. split; [lia|].
  replace (Z.to_nat (lives (GameEngine.state e)
                     - (lives (GameEngine.state e) - Z.of_nat lost))) with lost by lia.
  reflexivity.
Qed.

(** The frame after the long pause: four lives, then the end. *)
Lemma frame_notifications_witness :
  GameEngine.events
    (fst (GameEngine.update RationalMath.lib 60016 60016 Scenario.afterLongPause
            (Scenario.draws (Scenario.spawning (1 # 2) Scenario.asNormal)) O))
  = [GameEngine.onLifeLost; GameEngine.onLifeLost; GameEngine.onLifeLost;
     GameEngine.onLifeLost; GameEngine.onGameOver 0].
Proof.
  destruct (frame_notifications RationalMath.lib 60016 60016 Scenario.afterLongPause
              (Scenario.draws (Scenario.spawning (1 # 2) Scenario.asNormal)) O)
    as (_ & H).
  - vm_compute. reflexivity.
  - rewrite H. vm_compute. reflexivity.
Defined.

(** X7. No frame scores: [update] leaves the score, the high score and
    the level as they are, and takes lives but never gives any. *)
Theorem frame_never_scores M currentTime clock e rnd k :
  let e' := fst (GameEngine.update M currentTime clock e rnd k) in
  score (GameEngine.state e') = score (GameEngine.state e)
  /\ highScore (GameEngine.state e') = highScore (GameEngine.state e)
  /\ level (GameEngine.state e') = level (GameEngine.state e)
  /\ gameStarted (GameEngine.state e') = gameStarted (GameEngine.state e)
  /\ (lives (GameEngine.state e') <= lives (GameEngine.state e))%Z.
Proof.
  cbv zeta. destruct (running (GameEngine.state e)) eqn:Hrun.
  - destruct (update_outcome M currentTime clock e rnd k Hrun) as (lost & Hs & _).
    cbv zeta in Hs. rewrite Hs. cbn. repeat split. lia.
  - unfold GameEngine.update. rewrite Hrun. cbn. repeat split. lia.
Qed.

(** ** The combo timer *)

(** X8. In a frame of a running game, a combo timer that runs out
    (it was positive and the frame lasted at least as long) resets the
    combo count to 0; in a frame that takes no life, a timer that does not
    run out leaves the count as it is, and a positive one is shortened by
    the length of the frame. *)
Theorem combo_after_frame M currentTime clock e rnd k :
  running (GameEngine.state e) = true ->
  let deltaTime := (currentTime - GameEngine.lastUpdateTime e) / 1000 in
  let e' := fst (GameEngine.update M currentTime clock e rnd k) in
  (0 < GameEngine.comboTimer e -> GameEngine.comboTimer e <= deltaTime ->
     GameEngine.comboCount e' = 0%Z)
  /\ (lives (GameEngine.state e') = lives (GameEngine.state e) ->
      0 < GameEngine.comboTimer e -> deltaTime < GameEngine.comboTimer e ->
      GameEngine.comboCount e' = GameEngine.comboCount e
      /\ GameEngine.comboTimer e' = GameEngine.comboTimer e - deltaTime)
  /\ (lives (GameEngine.state e') = lives (GameEngine.state e) ->
      GameEngine.comboTimer e <= 0 ->
      GameEngine.comboCount e' = GameEngine.comboCount e
      /\ GameEngine.comboTimer e' = GameEngine.comboTimer e).
Proof.
  intro Hrun. cbv zeta.
  destruct (update_outcome M currentTime clock e rnd k Hrun)
    as (lost & Hs & _ & _ & _ & _ & Hc & Ht).
  cbv zeta in Hs, Hc, Ht.
  set (dt := (currentTime - GameEngine.lastUpdateTime e) / 1000) in *.
  assert (Hl : lives (GameEngine.state
                        (fst (GameEngine.update M currentTime clock e rnd k)))
               = (lives (GameEngine.state e) - Z.of_nat lost)%Z)
    by (rewrite Hs; reflexivity).
  rewrite Hc, Ht, Hl. repeat split.
  - intros Hpos Hout. destruct (Nat.eqb lost 0); [|reflexivity].
    apply Qltb_lt in Hpos. rewrite Hpos. cbn.
    assert (E : Qle_bool (GameEngine.comboTimer e - dt) 0 = true).
    { apply Qle_bool_iff. apply (Qplus_le_l _ _ dt). ring_simplify. exact Hout. }
    rewrite E. reflexivity.
  - assert (lost = O) by lia. subst lost. cbn.
    apply Qltb_lt in H0. rewrite H0. cbn.
    assert (E : Qle_bool (GameEngine.comboTimer e - dt) 0 = false).
    { destruct (Qle_bool (GameEngine.comboTimer e - dt) 0) eqn:E; [|reflexivity].
      apply Qle_bool_iff in E. apply (Qplus_le_l _ _ dt) in E. ring_simplify in E.
      exfalso. exact (Qlt_not_le _ _ H1 E). }
    rewrite E. reflexivity.
  - assert (lost = O) by lia. subst lost. cbn.
    apply Qltb_lt in H0. rewrite H0. reflexivity.
  - assert (lost = O) by lia. subst lost. cbn.
    apply Qltb_ge in H0. rewrite H0. reflexivity.
  - assert (lost = O) by lia. subst lost. cbn.
    apply Qltb_ge in H0. rewrite H0. reflexivity.
Qed.

(** After the five taps the timer has 0.9 s left: a frame one second
    later resets the streak of five. *)
Lemma combo_after_frame_witness :
  GameEngine.comboCount Scenario.fiveTaps = 5%Z
  /\ GameEngine.comboCount
       (fst (GameEngine.update RationalMath.lib 4500 4500 Scenario.fiveTaps
               (Scenario.draws (Scenario.spawning (1 # 2) Scenario.asNormal)) O)) = 0%Z.
Proof.
  split; [vm_compute; reflexivity|].
  destruct (combo_after_frame RationalMath.lib 4500 4500 Scenario.fiveTaps
              (Scenario.draws (Scenario.spawning (1 # 2) Scenario.asNormal)) O)
    as (H & _).
  - vm_compute. reflexivity.
  - apply H; vm_compute; [reflexivity | discriminate].
Defined.

(** ** Taps *)

Section Taps.
Variable M : MathLib.

Lemma hitScan_spec n bs px py :
  match GameEngine.hitScan M n bs px py with
  | Some (i, b) =>
      (i < n)%nat /\ nth_error bs i = Some b
      /\ Balloon.containsPoint M b px py = true
      /\ (forall j b', (i < j < n)%nat -> nth_error bs j = Some b' ->
            Balloon.containsPoint M b' px py = false)
  | None =>
      forall j b', (j < n)%nat -> nth_error bs j = Some b' ->
        Balloon.containsPoint M b' px py = false
  end.
Proof.
  induction n as [|n IH]; cbn [GameEngine.hitScan].
  - intros j b' Hj. lia.
  - destruct (nth_error bs n) as [b|] eqn:E.
    + destruct (Balloon.containsPoint M b px py) eqn:C.
      * repeat split; [lia | exact E | exact C | intros j b' Hj; lia].
      * destruct (GameEngine.hitScan M n bs px py) as [[i b0]|].
        -- destruct IH as (Hi & Hn & Hc & Hrest). repeat split; [lia | assumption ..|].
           intros j b' Hj Hb'. destruct (Nat.eq_dec j n) as [->|Hne].
           ++ rewrite E in Hb'. inversion Hb'. subst. exact C.
           ++ apply (Hrest j b'); [lia | exact Hb'].
        -- intros j b' Hj Hb'. destruct (Nat.eq_dec j n) as [->|Hne].
           ++ rewrite E in Hb'. inversion Hb'. subst. exact C.
           ++ apply (IH j b'); [lia | exact Hb'].
    + destruct (GameEngine.hitScan M n bs px py) as [[i b0]|].
      * destruct IH as (Hi & Hn & Hc & Hrest). repeat split; [lia | assumption ..|].
        intros j b' Hj Hb'. destruct (Nat.eq_dec j n) as [->|Hne].
        -- rewrite E in Hb'. discriminate.
        -- apply (Hrest j b'); [lia | exact Hb'].
      * intros j b' Hj Hb'. destruct (Nat.eq_dec j n) as [->|Hne].
        -- rewrite E in Hb'. discriminate.
        -- apply (IH j b'); [lia | exact Hb'].
Qed.

(** X9. Of the balloons under a tap, [handleInput] takes the one latest
    in the array: the balloon it pops lies under the point and no balloon
    after it does; and it resets the combo exactly when no balloon at all
    lies under the point. *)
Theorem tap_takes_the_newest_balloon (e : GameEngine.t) (event : InputEvent) :
  let bs := GameEngine.balloons e in
  match GameEngine.hitScan M (List.length bs) bs (ev_x event) (ev_y event) with
  | Some (i, b) =>
      nth_error bs i = Some b
      /\ Balloon.containsPoint M b (ev_x event) (ev_y event) = true
      /\ (forall j b', (i < j)%nat -> nth_error bs j = Some b' ->
            Balloon.containsPoint M b' (ev_x event) (ev_y event) = false)
  | None =>
      forall b', In b' bs -> Balloon.containsPoint M b' (ev_x event) (ev_y event) = false
  end.
Proof.
  cbv zeta.
  pose proof (hitScan_spec (List.length (GameEngine.balloons e)) (GameEngine.balloons e)
                (ev_x event) (ev_y event)) as H.
  destruct (GameEngine.hitScan M _ _ _ _) as [[i b]|].
  - destruct H as (Hi & Hn & Hc & Hrest). repeat split; try assumption.
    intros j b' Hj Hb'. apply (Hrest j b'); [|exact Hb'].
    split; [exact Hj|]. apply nth_error_Some. rewrite Hb'. discriminate.
  - intros b' Hin. apply In_nth_error in Hin. destruct Hin as [j Hj].
    apply (H j b'); [|exact Hj]. apply nth_error_Some. rewrite Hj. discriminate.
Qed.

(** X10. In a running game, a tap under which no balloon lies resets the
    combo count and timer and does nothing else: no life, no point, no
    balloon, no callback. *)
Theorem miss_resets_combo_only (e : GameEngine.t) (event : InputEvent) rnd k :
  running (GameEngine.state e) = true ->
  (forall b, In b (GameEngine.balloons e) ->
     Balloon.containsPoint M b (ev_x event) (ev_y event) = false) ->
  GameEngine.handleInput M event e rnd k
  = (GameEngine.set_comboTimer 0 (GameEngine.set_comboCount 0 e), k).
Proof.
  intros Hrun Hmiss. unfold GameEngine.handleInput. rewrite Hrun. cbn [negb].
  pose proof (hitScan_spec (List.length (GameEngine.balloons e)) (GameEngine.balloons e)
                (ev_x event) (ev_y event)) as H.
  destruct (GameEngine.hitScan M _ _ _ _) as [[i b]|].
  - destruct H as (_ & Hn & Hc & _). apply nth_error_In in Hn.
    rewrite (Hmiss b Hn) in Hc. discriminate.
  - reflexivity.
Qed.

End Taps.

(** One balloon of the five was tapped; then comes a tap in the corner of
    the canvas, far from the four that are left. *)
Lemma miss_resets_combo_only_witness :
  GameEngine.comboCount (Scenario.tapThenFrame 3100 Scenario.fiveNormals) = 1%Z
  /\ GameEngine.comboCount
       (fst (GameEngine.handleInput RationalMath.lib (Scenario.tap 1 1)
               (Scenario.tapThenFrame 3100 Scenario.fiveNormals)
               (Scenario.draws []) O)) = 0%Z.
Proof.
  split; [vm_compute; reflexivity|].
  rewrite (miss_resets_combo_only RationalMath.lib
             (Scenario.tapThenFrame 3100 Scenario.fiveNormals) (Scenario.tap 1 1)).
  - reflexivity.
  - vm_compute. reflexivity.
  - assert (H : forallb (fun b => negb (Balloon.containsPoint RationalMath.lib b 1 1))
                 (GameEngine.balloons (Scenario.tapThenFrame 3100 Scenario.fiveNormals))
               = true) by (vm_compute; reflexivity).
    intros b Hb. rewrite forallb_forall in H. apply negb_true_iff. exact (H b Hb).
Defined.

(** ** Pops *)

Section PopShape.
Variable M : MathLib.

Lemma addScore_score points0 e :
  score (GameEngine.state (GameEngine.addScore points0 e))
  = (score (GameEngine.state e)
     + points0 * PowerUpManager.getScoreMultiplier (GameEngine.powerUpManager e))%Z
  /\ GameEngine.events (GameEngine.addScore points0 e)
     = GameEngine.events e
       ++ [GameEngine.onScoreUpdate
             (score (GameEngine.state e)
              + points0 * PowerUpManager.getScoreMultiplier (GameEngine.powerUpManager e))
             (PowerUpManager.getScoreMultiplier (GameEngine.powerUpManager e))].
Proof. split; reflexivity. Qed.

Lemma getScoreMultiplier_cases m :
  PowerUpManager.getScoreMultiplier m = 1%Z \/ PowerUpManager.getScoreMultiplier m = 2%Z.
Proof.
  unfold PowerUpManager.getScoreMultiplier.
  destruct (PowerUpManager.isActive multiplier m); auto.
Qed.

(** The callbacks of [incrementCombo]: none at the first pop of a streak,
    the score and the combo from the second on. *)
Lemma incrementCombo_events e rnd k :
  let e' := fst (GameEngine.incrementCombo M e rnd k) in
  let n := (GameEngine.comboCount e + 1)%Z in
  let m := PowerUpManager.getScoreMultiplier (GameEngine.powerUpManager e) in
  GameEngine.events e'
  = GameEngine.events e
    ++ (if (1 <? n)%Z
        then [GameEngine.onScoreUpdate (score (GameEngine.state e) + n * 10 * m) m;
              GameEngine.onCombo n]
        else []).
Proof.
  unfold GameEngine.incrementCombo. cbn.
  destruct (1 <? GameEngine.comboCount e + 1)%Z.
  - unfold bind, GameEngine.onParticles, bind, ret. name_draws. cbn.
    rewrite <- app_assoc. reflexivity.
  - cbn. rewrite app_nil_r. reflexivity.
Qed.

(** The engine passes on the [onActivate] of an activation, and nothing
    for the [onDeactivate] that may come before it. *)
Lemma activatePowerUp_events type e :
  GameEngine.events (GameEngine.activatePowerUp type e)
  = GameEngine.events e
    ++ [GameEngine.onPowerUpActivate
          {| pu_type := type; duration := powerupDuration (GameEngine.config e);
             active := true; timeLeft := powerupDuration (GameEngine.config e) |}].
Proof.
  unfold GameEngine.activatePowerUp, GameEngine.onRegistry, PowerUpManager.activatePowerUp.
  destruct (PowerUpManager.Map_has type _).
  - unfold PowerUpManager.deactivatePowerUp.
    destruct (PowerUpManager.Map_get type _); reflexivity.
  - reflexivity.
Qed.

(** Whatever balloon is popped: it is spliced out of the array, the
    score does not fall, and the callbacks end with one [onBalloonPop],
    the only one. *)
Lemma popBalloon_shape b i event e rnd k :
  let e' := fst (GameEngine.popBalloon M b i event e rnd k) in
  GameEngine.balloons e' = splice1 i (GameEngine.balloons e)
  /\ (score (GameEngine.state e) <= score (GameEngine.state e'))%Z
  /\ exists evs,
       GameEngine.events e'
       = GameEngine.events e ++ evs
         ++ [GameEngine.onBalloonPop b (Balloon.getPoints b)]
       /\ Forall (fun ev => match ev with
                            | GameEngine.onBalloonPop _ _ => False
                            | _ => True
                            end) evs.
Proof.
  cbv zeta. unfold GameEngine.popBalloon, bind, GameEngine.onParticles, bind, ret.
  name_draws.
  match goal with
  | |- context [GameEngine.set_particleSystem ?s e] => set (e1 := GameEngine.set_particleSystem s e)
  end.
  assert (B1 : GameEngine.balloons e1 = GameEngine.balloons e) by reflexivity.
  assert (S1 : GameEngine.state e1 = GameEngine.state e) by reflexivity.
  assert (E1 : GameEngine.events e1 = GameEngine.events e) by reflexivity.
  assert (P1 : GameEngine.powerUpManager e1 = GameEngine.powerUpManager e) by reflexivity.
  clearbody e1.
  assert (Scoring : forall p e0,
             (0 <= p)%Z ->
             GameEngine.balloons e0 = GameEngine.balloons e ->
             (score (GameEngine.state e) <= score (GameEngine.state e0))%Z ->
             (exists evs0, GameEngine.events e0 = GameEngine.events e ++ evs0
                           /\ Forall (fun ev => match ev with
                                                | GameEngine.onBalloonPop _ _ => False
                                                | _ => True
                                                end) evs0) ->
             let e2 := fst (GameEngine.incrementCombo M (GameEngine.addScore p e0) rnd n) in
             GameEngine.balloons e2 = GameEngine.balloons e
             /\ (score (GameEngine.state e) <= score (GameEngine.state e2))%Z
             /\ exists evs, GameEngine.events e2 = GameEngine.events e ++ evs
                            /\ Forall (fun ev => match ev with
                                                 | GameEngine.onBalloonPop _ _ => False
                                                 | _ => True
                                                 end) evs).
  { intros p e0 Hp Hb Hs (evs0 & He & Hf).
    pose proof (incrementCombo_counters M (GameEngine.addScore p e0) rnd n) as C.
    pose proof (incrementCombo_events (GameEngine.addScore p e0) rnd n) as V.
    cbv zeta in C, V |- *.
    destruct C as (_ & _ & _ & _ & Cb & Cs).
    destruct (addScore_score p e0) as (As & Ae).
    rewrite Cb, Cs, V, Ae, He.
    pose proof (getScoreMultiplier_cases (GameEngine.powerUpManager e0)) as Hm.
    pose proof (getScoreMultiplier_cases
                  (GameEngine.powerUpManager (GameEngine.addScore p e0))) as Hm'.
    split; [exact Hb|]. split.
    - destruct (1 <? GameEngine.comboCount (GameEngine.addScore p e0) + 1)%Z eqn:L.
      + apply Z.ltb_lt in L. cbn [GameEngine.set_score score]. rewrite As. nia.
      + rewrite As. nia.
    - eexists. rewrite <- !app_assoc. split; [reflexivity|].
      apply Forall_app. split; [exact Hf|].
      destruct (1 <? _)%Z; repeat constructor. }
  assert (Finish : forall e2,
             GameEngine.balloons e2 = GameEngine.balloons e ->
             (score (GameEngine.state e) <= score (GameEngine.state e2))%Z ->
             (exists evs, GameEngine.events e2 = GameEngine.events e ++ evs
                          /\ Forall (fun ev => match ev with
                                               | GameEngine.onBalloonPop _ _ => False
                                               | _ => True
                                               end) evs) ->
             GameEngine.balloons
               (GameEngine.emit (GameEngine.onBalloonPop b (Balloon.getPoints b))
                  (GameEngine.set_balloons (splice1 i (GameEngine.balloons e2)) e2))
             = splice1 i (GameEngine.balloons e)
             /\ (score (GameEngine.state e)
                 <= score (GameEngine.state
                             (GameEngine.emit (GameEngine.onBalloonPop b (Balloon.getPoints b))
                                (GameEngine.set_balloons
                                   (splice1 i (GameEngine.balloons e2)) e2))))%Z
             /\ exists evs,
                  GameEngine.events
                    (GameEngine.emit (GameEngine.onBalloonPop b (Balloon.getPoints b))
                       (GameEngine.set_balloons (splice1 i (GameEngine.balloons e2)) e2))
                  = GameEngine.events e ++ evs
                    ++ [GameEngine.onBalloonPop b (Balloon.getPoints b)]
                  /\ Forall (fun ev => match ev with
                                       | GameEngine.onBalloonPop _ _ => False
                                       | _ => True
                                       end) evs).
  { intros e2 Hb Hs (evs & He & Hf). cbn. rewrite Hb, He. repeat split; [exact Hs|].
    exists evs. rewrite <- app_assoc. split; [reflexivity | exact Hf]. }
  assert (Here : exists evs0, GameEngine.events e1 = GameEngine.events e ++ evs0
                              /\ Forall (fun ev => match ev with
                                                   | GameEngine.onBalloonPop _ _ => False
                                                   | _ => True
                                                   end) evs0).
  { exists []. rewrite app_nil_r. split; [exact E1 | constructor]. }
  assert (Power : forall type,
             exists evs0,
               GameEngine.events (GameEngine.activatePowerUp type e1)
               = GameEngine.events e ++ evs0
               /\ Forall (fun ev => match ev with
                                    | GameEngine.onBalloonPop _ _ => False
                                    | _ => True
                                    end) evs0).
  { intro type. rewrite activatePowerUp_events, E1. eexists. split; [reflexivity|].
    repeat constructor. }
  assert (PowerState : forall type,
             GameEngine.balloons (GameEngine.activatePowerUp type e1) = GameEngine.balloons e
             /\ (score (GameEngine.state e)
                 <= score (GameEngine.state (GameEngine.activatePowerUp type e1)))%Z).
  { intro type. unfold GameEngine.activatePowerUp.
    destruct (onRegistry_frame
                (PowerUpManager.activatePowerUp type (powerupDuration (GameEngine.config e1)))
                e1) as (R1 & _ & R3 & _).
    rewrite R1, R3, S1, B1. split; [reflexivity | lia]. }
  destruct (Balloon.type b) eqn:Ht; cbv iota beta.
  1, 2: destruct (Scoring (Z.abs (Balloon.getPoints b)) e1 (Z.abs_nonneg _) B1
                    ltac:(rewrite S1; lia) Here) as (Hb & Hs & Hev);
        destruct (GameEngine.incrementCombo M _ rnd n) as [e2 k2];
        exact (Finish e2 Hb Hs Hev).
  - apply Finish.
    + exact B1.
    + cbn. rewrite S1. lia.
    + exists [GameEngine.onLifeGained]. cbn. rewrite E1. split; [reflexivity|].
      repeat constructor.
  - destruct (negb (PowerUpManager.isDefuserActive (GameEngine.powerUpManager e1))).
    + apply Finish.
      * exact B1.
      * cbn. rewrite S1. lia.
      * exists [GameEngine.onLifeLost]. cbn. rewrite E1. split; [reflexivity|].
        repeat constructor.
    + apply Finish.
      * exact B1.
      * destruct (addScore_score 1 e1) as (As & _). rewrite As, S1.
        destruct (getScoreMultiplier_cases (GameEngine.powerUpManager e1)); lia.
      * destruct (addScore_score 1 e1) as (_ & Ae). rewrite Ae, E1.
        eexists. split; [reflexivity|]. repeat constructor.
  - destruct (PowerState slow) as (Hb0 & Hs0).
    destruct (Scoring 10%Z _ ltac:(lia) Hb0 Hs0 (Power slow)) as (Hb & Hs & Hev).
    destruct (GameEngine.incrementCombo M _ rnd n) as [e2 k2]. exact (Finish e2 Hb Hs Hev).
  - destruct (PowerState multiplier) as (Hb0 & Hs0).
    destruct (Scoring 10%Z _ ltac:(lia) Hb0 Hs0 (Power multiplier)) as (Hb & Hs & Hev).
    destruct (GameEngine.incrementCombo M _ rnd n) as [e2 k2]. exact (Finish e2 Hb Hs Hev).
  - destruct (PowerState freeze) as (Hb0 & Hs0).
    destruct (Scoring 10%Z _ ltac:(lia) Hb0 Hs0 (Power freeze)) as (Hb & Hs & Hev).
    destruct (GameEngine.incrementCombo M _ rnd n) as [e2 k2]. exact (Finish e2 Hb Hs Hev).
  - destruct (PowerState magnet) as (Hb0 & Hs0).
    destruct (Scoring 10%Z _ ltac:(lia) Hb0 Hs0 (Power magnet)) as (Hb & Hs & Hev).
    destruct (GameEngine.incrementCombo M _ rnd n) as [e2 k2]. exact (Finish e2 Hb Hs Hev).
  - destruct (PowerState defuser) as (Hb0 & Hs0).
    destruct (Scoring 10%Z _ ltac:(lia) Hb0 Hs0 (Power defuser)) as (Hb & Hs & Hev).
    destruct (GameEngine.incrementCombo M _ rnd n) as [e2 k2]. exact (Finish e2 Hb Hs Hev).
Qed.

End PopShape.

Section PopTheorems.
Variable M : MathLib.

Lemma splice1_length (A : Type) (i : nat) (l : list A) (a : A) :
  nth_error l i = Some a -> S (List.length (splice1 i l)) = List.length l.
Proof.
  intro H. apply nth_error_split in H. destruct H as (pre & suf & -> & <-).
  rewrite splice1_middle, !length_app. cbn. lia.
Qed.

(** X11. In a running game, a tap that finds a balloon removes that
    balloon and no other, and the callbacks of the tap end with
    [onBalloonPop], on that balloon with the points of its type, called
    once. *)
Theorem tap_pops_exactly_one (e : GameEngine.t) (event : InputEvent) i b rnd k :
  running (GameEngine.state e) = true ->
  GameEngine.hitScan M (List.length (GameEngine.balloons e)) (GameEngine.balloons e)
    (ev_x event) (ev_y event) = Some (i, b) ->
  let e' := fst (GameEngine.handleInput M event e rnd k) in
  GameEngine.balloons e'
  = firstn i (GameEngine.balloons e) ++ skipn (S i) (GameEngine.balloons e)
  /\ S (List.length (GameEngine.balloons e')) = List.length (GameEngine.balloons e)
  /\ exists evs,
       GameEngine.events e'
       = GameEngine.events e ++ evs
         ++ [GameEngine.onBalloonPop b (points (BALLOON_TYPES (Balloon.type b)))]
       /\ Forall (fun ev => match ev with
                            | GameEngine.onBalloonPop _ _ => False
                            | _ => True
                            end) evs.
Proof.
  intros Hrun Hhit. cbv zeta. rewrite (handleInput_hit M _ _ _ _ _ _ Hrun Hhit).
  destruct (popBalloon_shape M b i event e rnd k) as (Hb & _ & Hev).
  pose proof (hitScan_spec M (List.length (GameEngine.balloons e)) (GameEngine.balloons e)
                (ev_x event) (ev_y event)) as Hn.
  rewrite Hhit in Hn. destruct Hn as (_ & Hn & _).
  rewrite Hb. split; [reflexivity|]. split; [exact (splice1_length _ _ _ _ Hn) | exact Hev].
Qed.

(** X12. No tap lowers the score: whatever the engine and the point,
    the score after [handleInput] is at least the score before. *)
Theorem taps_never_lower_score (e : GameEngine.t) (event : InputEvent) rnd k :
  (score (GameEngine.state e)
   <= score (GameEngine.state (fst (GameEngine.handleInput M event e rnd k))))%Z.
Proof.
  unfold GameEngine.handleInput.
  destruct (running (GameEngine.state e)); cbn [negb]; [|cbn; lia].
  destruct (GameEngine.hitScan M _ _ _ _) as [[i b]|]; [|cbn; lia].
  destruct (popBalloon_shape M b i event e rnd k) as (_ & Hs & _). exact Hs.
Qed.

(** X13. Popping a power-up balloon activates its effect for the
    configured duration before it scores: the ten points and the combo
    bonus are multiplied by the score multiplier of the registry after
    the activation, so that a multiplier balloon doubles its own points. *)
Theorem powerUp_pop_scores_after_activation (e : GameEngine.t) b i event rnd k :
  In (Balloon.type b) [slow; multiplier; freeze; magnet; defuser] ->
  let e' := fst (GameEngine.popBalloon M b i event e rnd k) in
  let n := (GameEngine.comboCount e + 1)%Z in
  let m := PowerUpManager.getScoreMultiplier (GameEngine.powerUpManager e') in
  PowerUpManager.isActive (Balloon.type b) (GameEngine.powerUpManager e') = true
  /\ PowerUpManager.getTimeLeft (Balloon.type b) (GameEngine.powerUpManager e')
     = powerupDuration (GameEngine.config e)
  /\ score (GameEngine.state e')
     = (score (GameEngine.state e) + 10 * m + (if (1 <? n)%Z then n * 10 * m else 0))%Z
  /\ (Balloon.type b = multiplier -> m = 2%Z).
Proof.
  intro Ht. cbv zeta.
  destruct (popBalloon_powerUp M b i event e rnd k Ht) as (_ & _ & _ & Hp).
  rewrite Hp.
  assert (G : PowerUpManager.Map_get (Balloon.type b)
                (PowerUpManager.activePowerUps
                   (fst (PowerUpManager.activatePowerUp (Balloon.type b)
                           (powerupDuration (GameEngine.config e))
                           (GameEngine.powerUpManager e))))
              = Some {| pu_type := Balloon.type b;
                        duration := powerupDuration (GameEngine.config e);
                        active := true;
                        timeLeft := powerupDuration (GameEngine.config e) |}).
  { unfold PowerUpManager.activatePowerUp.
    destruct (if PowerUpManager.Map_has _ _ then _ else _) as [m1 n1].
    cbn. apply Map_get_set. }
  unfold PowerUpManager.isActive, PowerUpManager.getTimeLeft. rewrite G.
  split; [reflexivity|]. split; [reflexivity|]. split.
  - clear G Hp.
    unfold GameEngine.popBalloon, bind, GameEngine.onParticles, bind, ret.
    name_draws.
    match goal with
    | |- context [GameEngine.set_particleSystem ?s e] =>
        set (e1 := GameEngine.set_particleSystem s e)
    end.
    assert (Go : fst (let (e2, k2) :=
                        GameEngine.incrementCombo M
                          (GameEngine.addScore 10
                             (GameEngine.activatePowerUp (Balloon.type b) e1)) rnd n in
                      (GameEngine.emit (GameEngine.onBalloonPop b (Balloon.getPoints b))
                         (GameEngine.set_balloons (splice1 i (GameEngine.balloons e2)) e2),
                       k2))
                 = fst (let (e2, k2) :=
                          match Balloon.type b with
                          | normal | special =>
                              GameEngine.incrementCombo M
                                (GameEngine.addScore (Z.abs (Balloon.getPoints b)) e1)
                          | heart => fun _ k0 => (GameEngine.gainLife e1, k0)
                          | bomb =>
                              if negb (PowerUpManager.isDefuserActive
                                         (GameEngine.powerUpManager e1))
                              then fun _ k0 => (GameEngine.loseLife e1, k0)
                              else fun _ k0 => (GameEngine.addScore 1 e1, k0)
                          | type =>
                              GameEngine.incrementCombo M
                                (GameEngine.addScore 10 (GameEngine.activatePowerUp type e1))
                          end rnd n in
                        (GameEngine.emit (GameEngine.onBalloonPop b (Balloon.getPoints b))
                           (GameEngine.set_balloons (splice1 i (GameEngine.balloons e2)) e2),
                         k2))).
    { cbn [In] in Ht.
      destruct Ht as [Ht | [Ht | [Ht | [Ht | [Ht | []]]]]]; rewrite <- Ht; reflexivity. }
    rewrite <- Go. clear Go.
    pose proof (incrementCombo_counters M
                  (GameEngine.addScore 10 (GameEngine.activatePowerUp (Balloon.type b) e1))
                  rnd n) as C.
    cbv zeta in C. destruct C as (_ & _ & Cp & _ & _ & Cs).
    destruct (GameEngine.incrementCombo M _ rnd n) as [e2 k2]. cbn [fst] in *.
    destruct (onRegistry_frame
                (PowerUpManager.activatePowerUp (Balloon.type b)
                   (powerupDuration (GameEngine.config e1))) e1)
      as (R1 & _ & _ & _ & R5 & _ & _ & R8).
    fold (GameEngine.activatePowerUp (Balloon.type b) e1) in R1, R5, R8.
    cbn [GameEngine.emit GameEngine.set_balloons GameEngine.state
         GameEngine.powerUpManager].
    rewrite Cs.
    destruct (addScore_score 10 (GameEngine.activatePowerUp (Balloon.type b) e1))
      as (As & _).
    assert (Pa : GameEngine.powerUpManager
                   (GameEngine.addScore 10 (GameEngine.activatePowerUp (Balloon.type b) e1))
                 = GameEngine.powerUpManager (GameEngine.activatePowerUp (Balloon.type b) e1))
      by reflexivity.
    assert (Ca : GameEngine.comboCount
                   (GameEngine.addScore 10 (GameEngine.activatePowerUp (Balloon.type b) e1))
                 = GameEngine.comboCount e) by (cbn; rewrite R5; reflexivity).
    rewrite Pa, Ca.
    assert (R8' : GameEngine.powerUpManager (GameEngine.activatePowerUp (Balloon.type b) e1)
                  = fst (PowerUpManager.activatePowerUp (Balloon.type b)
                           (powerupDuration (GameEngine.config e))
                           (GameEngine.powerUpManager e))) by exact R8.
    assert (R1' : GameEngine.state (GameEngine.activatePowerUp (Balloon.type b) e1)
                  = GameEngine.state e) by exact R1.
    destruct (1 <? GameEngine.comboCount e + 1)%Z;
      cbn [GameEngine.set_score score]; rewrite As, R1', R8'; lia.
  - intro Hm. unfold PowerUpManager.getScoreMultiplier, PowerUpManager.isActive.
    rewrite <- Hm, G. reflexivity.
Qed.

End PopTheorems.

(** ** The registry of the engine *)

Lemma Map_set_keys k v k0 (l : list (TypeTag * PowerUp)) :
  In k0 (map fst (PowerUpManager.Map_set k v l)) -> k0 = k \/ In k0 (map fst l).
Proof.
  induction l as [|[k' v'] l IH]; cbn.
  - intros [H | []]. left. congruence.
  - destruct (tag_eqb k k') eqn:E; cbn.
    + apply tag_eqb_eq in E. subst k'. intros [H | H]; [left; congruence | tauto].
    + intros [H | H]; [tauto | destruct (IH H); tauto].
Qed.

Lemma activatePowerUp_keys type duration0 m k0 :
  In k0 (map fst (PowerUpManager.activePowerUps
                    (fst (PowerUpManager.activatePowerUp type duration0 m)))) ->
  k0 = type \/ In k0 (map fst (PowerUpManager.activePowerUps m)).
Proof.
  unfold PowerUpManager.activatePowerUp.
  destruct (PowerUpManager.Map_has type _).
  - unfold PowerUpManager.deactivatePowerUp.
    destruct (PowerUpManager.Map_get type _); cbn; intro H;
      apply Map_set_keys in H; destruct H as [H | H]; auto.
    right. eapply Map_delete_keys. exact H.
  - cbn. apply Map_set_keys.
Qed.

Lemma update_keys deltaTime m k0 :
  PowerUpManager.tidy (PowerUpManager.activePowerUps m) ->
  In k0 (map fst (PowerUpManager.activePowerUps (fst (PowerUpManager.update deltaTime m)))) ->
  In k0 (map fst (PowerUpManager.activePowerUps m)).
Proof.
  intros Ht H. destruct (update_entries deltaTime m Ht) as [He _]. rewrite He in H.
  apply in_map_iff in H. destruct H as ([k v] & E & H). cbn in E. subst k.
  apply filter_In in H. destruct H as [H _].
  apply in_map_iff in H. destruct H as ([k1 v1] & E & H). inversion E. subst.
  apply in_map_iff. exists (k0, v1). split; [reflexivity | exact H].
Qed.

Lemma resetGame_registry e :
  GameEngine.powerUpManager (GameEngine.resetGame e) = PowerUpManager.empty.
Proof.
  unfold GameEngine.resetGame.
  cbn [GameEngine.powerUpManager GameEngine.set_comboCount GameEngine.set_comboTimer].
  match goal with
  | |- context [GameEngine.onRegistry ?f ?x] =>
      destruct (onRegistry_frame f x) as (_ & _ & _ & _ & _ & _ & _ & R8)
  end.
  exact R8.
Qed.

Section EngineRegistry.
Variable M : MathLib.

(** The registry after a call is the registry before, or what one of its
    methods makes of it; the only types activated are those of power-up
    balloons. *)
Lemma exec_registry c env e :
  let m := GameEngine.powerUpManager e in
  let m' := GameEngine.powerUpManager (GameEngine.exec M c env e) in
  m' = m
  \/ m' = PowerUpManager.empty
  \/ (exists deltaTime, m' = fst (PowerUpManager.update deltaTime m))
  \/ (exists type duration0,
        In type [slow; multiplier; freeze; magnet; defuser]
        /\ m' = fst (PowerUpManager.activatePowerUp type duration0 m)).
Proof.
  cbv zeta. destruct c; cbn [GameEngine.exec].
  - right; left. unfold GameEngine.startGame, GameEngine.updateDifficulty.
    cbn [GameEngine.powerUpManager GameEngine.set_state GameEngine.set_lastUpdateTime
         GameEngine.set_lastSpawnTime].
    apply resetGame_registry.
  - left. reflexivity.
  - left. reflexivity.
  - right; left. apply resetGame_registry.
  - unfold run. destruct (running (GameEngine.state e)) eqn:Hrun.
    + destruct (update_outcome M currentTime (now env) e (random env) O Hrun)
        as (lost & _ & _ & Hp & _).
      cbv zeta in Hp. rewrite Hp. destruct (_ <=? 0)%Z.
      * right; left. reflexivity.
      * right; right; left. eexists. reflexivity.
    + left. unfold GameEngine.update. rewrite Hrun. reflexivity.
  - unfold run, GameEngine.handleInput.
    destruct (running (GameEngine.state e)); cbn [negb]; [|left; reflexivity].
    destruct (GameEngine.hitScan M _ _ _ _) as [[i b]|]; [|left; reflexivity].
    destruct (Balloon.type b) eqn:Ht.
    1, 2: left;
          destruct (popBalloon_scoring M b i event e (random env) O) as (_ & Hp & _);
          [rewrite Ht; auto | exact Hp].
    + left. destruct (popBalloon_heart M b i event e (random env) O Ht)
        as (_ & _ & _ & _ & Hp & _). exact Hp.
    + left. destruct (popBalloon_bomb M b i event e (random env) O Ht) as (_ & Hp & _).
      exact Hp.
    + right; right; right. exists slow, (powerupDuration (GameEngine.config e)).
      split; [cbn; tauto|].
      destruct (popBalloon_powerUp M b i event e (random env) O) as (_ & _ & _ & Hp);
        [rewrite Ht; cbn; tauto | rewrite Hp, Ht; reflexivity].
    + right; right; right. exists multiplier, (powerupDuration (GameEngine.config e)).
      split; [cbn; tauto|].
      destruct (popBalloon_powerUp M b i event e (random env) O) as (_ & _ & _ & Hp);
        [rewrite Ht; cbn; tauto | rewrite Hp, Ht; reflexivity].
    + right; right; right. exists freeze, (powerupDuration (GameEngine.config e)).
      split; [cbn; tauto|].
      destruct (popBalloon_powerUp M b i event e (random env) O) as (_ & _ & _ & Hp);
        [rewrite Ht; cbn; tauto | rewrite Hp, Ht; reflexivity].
    + right; right; right. exists magnet, (powerupDuration (GameEngine.config e)).
      split; [cbn; tauto|].
      destruct (popBalloon_powerUp M b i event e (random env) O) as (_ & _ & _ & Hp);
        [rewrite Ht; cbn; tauto | rewrite Hp, Ht; reflexivity].
    + right; right; right. exists defuser, (powerupDuration (GameEngine.config e)).
      split; [cbn; tauto|].
      destruct (popBalloon_powerUp M b i event e (random env) O) as (_ & _ & _ & Hp);
        [rewrite Ht; cbn; tauto | rewrite Hp, Ht; reflexivity].
  - left. reflexivity.
  - left. reflexivity.
Qed.

(** X14. In every engine a driver can bring about, the registry is one
    that calls of its own methods bring about, its entries are of the five
    power-up types only, and there are at most five of them. *)
Theorem engine_registry_holds_power_ups dimensions0 config0 e :
  GameEngine.Reachable M dimensions0 config0 e ->
  PowerUpManager.Reachable (GameEngine.powerUpManager e)
  /\ Forall (fun p => In (pu_type p) [slow; multiplier; freeze; magnet; defuser])
       (PowerUpManager.getActivePowerUps (GameEngine.powerUpManager e))
  /\ (List.length (PowerUpManager.activePowerUps (GameEngine.powerUpManager e)) <= 5)%nat.
Proof.
  intro Hr.
  assert (H : PowerUpManager.Reachable (GameEngine.powerUpManager e)
              /\ incl (map fst (PowerUpManager.activePowerUps (GameEngine.powerUpManager e)))
                   [slow; multiplier; freeze; magnet; defuser]).
  { induction Hr as [|c env e He [IH1 IH2]].
    - split; [constructor | intros k []].
    - destruct (exec_registry c env e)
        as [E | [E | [(dt & E) | (type & d & Hin & E)]]]; rewrite E.
      + split; assumption.
      + split; [constructor | intros k []].
      + split; [constructor; exact IH1|].
        intros k Hk. apply IH2. eapply update_keys; [|exact Hk].
        apply Reachable_tidy. exact IH1.
      + split; [constructor; exact IH1|].
        intros k Hk. apply activatePowerUp_keys in Hk.
        destruct Hk as [-> | Hk]; [exact Hin | exact (IH2 _ Hk)]. }
  destruct H as [H1 H2]. pose proof (Reachable_tidy _ H1) as [Hn Hf].
  split; [exact H1|]. split.
  - apply Forall_forall. intros p Hp.
    unfold PowerUpManager.getActivePowerUps, PowerUpManager.Map_values in Hp.
    apply filter_In in Hp. destruct Hp as [Hp _].
    apply in_map_iff in Hp. destruct Hp as ([k v] & E & Hkv). cbn in E. subst v.
    rewrite Forall_forall in Hf. destruct (Hf _ Hkv) as [Hty _]. cbn in Hty.
    rewrite Hty. apply H2. apply in_map_iff. exists (k, p). split; [reflexivity | exact Hkv].
  - rewrite <- (length_map fst).
    apply (NoDup_incl_length Hn H2).
Qed.

End EngineRegistry.

(** The game in which the defuser was tapped. *)
Lemma engine_registry_holds_power_ups_witness :
  (List.length (PowerUpManager.activePowerUps (GameEngine.powerUpManager Scenario.defused))
   <= 5)%nat.
Proof.
  apply (engine_registry_holds_power_ups RationalMath.lib Scenario.canvas DEFAULT_GAME_CONFIG).
  unfold Scenario.defused, Scenario.play, Scenario.fresh.
  do 2 apply execAll_Reachable. constructor.
Defined.

(** ** Starting, pausing, resuming *)

(** X15. Whatever the engine, under way or over, [startGame] leaves a
    running game with no score, full lives, no combo, no balloon, no
    particle and no power-up, its two clocks at the time of the call; it
    keeps the high score, the configuration and the canvas, and calls no
    callback. *)
Theorem startGame_gives_a_clean_game (difficulty : Difficulty) (clock : Q) (e : GameEngine.t) :
  let e' := GameEngine.startGame difficulty clock e in
  GameEngine.state e'
  = {| running := true; score := 0; highScore := highScore (GameEngine.state e);
       lives := maxLives (GameEngine.config e); level := 1; combo := 0;
       gameStarted := true; gameOver := false |}
  /\ GameEngine.balloons e' = []
  /\ GameEngine.particleSystem e' = ParticleSystem.empty
  /\ GameEngine.powerUpManager e' = PowerUpManager.empty
  /\ GameEngine.comboCount e' = 0%Z
  /\ GameEngine.comboTimer e' = 0
  /\ GameEngine.lastUpdateTime e' = clock
  /\ GameEngine.lastSpawnTime e' = clock
  /\ GameEngine.events e' = GameEngine.events e
  /\ GameEngine.config e' = GameEngine.config e
  /\ GameEngine.dimensions e' = GameEngine.dimensions e.
Proof.
  cbv zeta. unfold GameEngine.startGame, GameEngine.updateDifficulty, GameEngine.resetGame.
  match goal with
  | |- context [GameEngine.onRegistry ?f ?x] =>
      destruct (onRegistry_frame f x) as (R1 & R2 & R3 & R4 & _ & _ & R7 & R8);
      pose proof (onRegistry_clearAll_events x) as R9;
      set (e1 := GameEngine.onRegistry f x) in *; clearbody e1
  end.
  cbn in R1, R2, R3, R4, R7, R8, R9 |- *.
  rewrite R1, R2, R3, R4, R7, R8, R9. cbn. repeat split.
Qed.

(** X16. Pausing a running game and resuming it changes nothing but the
    clock of the last frame, set to the time of the resumption: the time
    spent paused is not in the next frame. *)
Theorem resume_after_pause_resets_frame_clock (clock : Q) (e : GameEngine.t) :
  running (GameEngine.state e) = true ->
  GameEngine.resumeGame clock (GameEngine.pauseGame e)
  = GameEngine.set_lastUpdateTime clock e.
Proof.
  intro Hrun. destruct e as [s c bs ps pm evs d lu ls ct cc].
  destruct s as [r sc hs lv lvl cb gs go]. cbn in Hrun. subst r. reflexivity.
Qed.

Lemma resume_after_pause_resets_frame_clock_witness :
  GameEngine.resumeGame 60000 (GameEngine.pauseGame Scenario.fiveNormals)
  = GameEngine.set_lastUpdateTime 60000 Scenario.fiveNormals.
Proof.
  apply resume_after_pause_resets_frame_clock. vm_compute. reflexivity.
Defined.

(** ** Spawning and freezing *)

Section FrameBalloons.
Variable M : MathLib.

(** The balloons a frame of a running game leaves. *)
Lemma update_balloons currentTime clock e rnd k :
  running (GameEngine.state e) = true ->
  GameEngine.balloons (fst (GameEngine.update M currentTime clock e rnd k))
  = filter (fun b => negb (Balloon.isOffScreen b (height (GameEngine.dimensions e))
                           || Balloon.isExpired clock b))
      (map (Balloon.update M ((currentTime - GameEngine.lastUpdateTime e) / 1000)
              (PowerUpManager.isFreezeActive (GameEngine.powerUpManager e))
              (PowerUpManager.isActive slow (GameEngine.powerUpManager e))
              (PowerUpManager.isMagnetActive (GameEngine.powerUpManager e))
              (width (GameEngine.dimensions e)) (height (GameEngine.dimensions e)) clock)
         (GameEngine.balloons (fst (GameEngine.spawnBalloons currentTime clock e rnd k)))).
Proof.
  intro Hrun.
  destruct (update_running M currentTime clock e rnd k Hrun)
    as (e1 & _ & _ & P1 & D1 & B1 & _ & Hb & _).
  destruct (updateBalloons_spec M ((currentTime - GameEngine.lastUpdateTime e) / 1000)
              clock e1) as (Hb2 & _).
  unfold GameEngine.moved, GameEngine.culled in Hb2.
  rewrite Hb, Hb2, P1, D1, B1. reflexivity.
Qed.

(** X17. A frame of a running game adds at most one balloon, however
    long it was, and none when the spawn interval of the easy profile has
    not passed since the last spawn. *)
Theorem frame_spawns_at_most_one currentTime clock e rnd k :
  running (GameEngine.state e) = true ->
  let e' := fst (GameEngine.update M currentTime clock e rnd k) in
  (List.length (GameEngine.balloons e') <= S (List.length (GameEngine.balloons e)))%nat
  /\ (currentTime - GameEngine.lastSpawnTime e <= spawnRate (GameEngine.config e) easy ->
      (List.length (GameEngine.balloons e') <= List.length (GameEngine.balloons e))%nat).
Proof.
  intro Hrun. cbv zeta. rewrite (update_balloons _ _ _ _ _ Hrun).
  split.
  - etransitivity; [apply filter_length_le|]. rewrite length_map.
    destruct (spawnBalloons_frame currentTime clock e rnd k) as (_ & _ & _ & _ & _ & _ & Hb).
    destruct Hb as [Hb | [b Hb]]; rewrite Hb; [lia|].
    rewrite length_app. cbn. lia.
  - intro Hearly. etransitivity; [apply filter_length_le|]. rewrite length_map.
    unfold GameEngine.spawnBalloons, GameEngine.getCurrentDifficulty.
    apply Qltb_ge in Hearly. rewrite Hearly. cbn. lia.
Qed.

(** X18. In a frame of a running game under the freeze effect no
    balloon moves: the balloons left are those of before the frame and
    the one the frame may have spawned, as they were, without those that
    are off the top or expired. *)
Theorem frozen_frame_moves_nothing currentTime clock e rnd k :
  running (GameEngine.state e) = true ->
  PowerUpManager.isFreezeActive (GameEngine.powerUpManager e) = true ->
  GameEngine.balloons (fst (GameEngine.update M currentTime clock e rnd k))
  = filter (fun b => negb (Balloon.isOffScreen b (height (GameEngine.dimensions e))
                           || Balloon.isExpired clock b))
      (GameEngine.balloons (fst (GameEngine.spawnBalloons currentTime clock e rnd k))).
Proof.
  intros Hrun Hfreeze. rewrite (update_balloons _ _ _ _ _ Hrun), Hfreeze.
  f_equal. unfold Balloon.update. apply map_id.
Qed.

End FrameBalloons.

Lemma frame_spawns_at_most_one_witness :
  (List.length (GameEngine.balloons
                  (fst (GameEngine.update RationalMath.lib 70000 70000 Scenario.fiveNormals
                          (Scenario.draws (Scenario.spawning (1 # 2) Scenario.asNormal)) O)))
   <= 6)%nat.
Proof.
  destruct (frame_spawns_at_most_one RationalMath.lib 70000 70000 Scenario.fiveNormals
              (Scenario.draws (Scenario.spawning (1 # 2) Scenario.asNormal)) O) as (H & _).
  - vm_compute. reflexivity.
  - etransitivity; [exact H|]. vm_compute. repeat constructor.
Defined.

(** * Further properties of the balloon *)

(** X19. With draws in [0, 1) and a canvas at least 90 wide, the balloon
    [create] makes has a radius in [25, 45), lies wholly between the left
    and the right edge, is centred one radius below the bottom edge, has a
    speed within 0.2 of the base speed and rises at that speed, drifts
    sideways by less than 0.2, is born at the time of the call and has 50
    seconds to live. *)
Theorem create_in_bounds (clock canvasWidth canvasHeight baseSpeed0 bombChance0 powerupChance0 : Q)
    (rnd : nat -> Q) (k : nat) :
  (forall j, 0 <= rnd j /\ rnd j < 1) ->
  90 <= canvasWidth ->
  let b := fst (Balloon.create clock canvasWidth canvasHeight baseSpeed0
                  bombChance0 powerupChance0 rnd k) in
  (25 <= Balloon.r b /\ Balloon.r b < 45)
  /\ (0 <= Balloon.x b - Balloon.r b /\ Balloon.x b + Balloon.r b < canvasWidth)
  /\ Balloon.y b = canvasHeight + Balloon.r b
  /\ (baseSpeed0 - (2 # 10) <= Balloon.speed b /\ Balloon.speed b < baseSpeed0 + (2 # 10))
  /\ Balloon.vy b = - Balloon.speed b
  /\ (- (2 # 10) <= Balloon.vx b /\ Balloon.vx b < 2 # 10)
  /\ Balloon.birth b = clock
  /\ Balloon.lifespan b = 50000.
Proof.
  intros Hd Hw. cbv zeta.
  unfold Balloon.create, bind, Math_random.
  destruct (Balloon.selectBalloonType bombChance0 powerupChance0 rnd (S (S (S k))))
    as [type0 k1].
  unfold Balloon.new, bind, Math_random, Balloon.randomFloat, Balloon.generateColor,
    bind, Math_random, Balloon.randomFloat, bind, Math_random, ret.
  cbn [fst Balloon.r Balloon.x Balloon.y Balloon.speed Balloon.vy Balloon.vx
       Balloon.birth Balloon.lifespan].
  destruct (Hd k) as [A0 A1]. destruct (Hd (S k)) as [B0 B1].
  destruct (Hd (S (S k))) as [C0 C1]. destruct (Hd (S k1)) as [D0 D1].
  set (r0 := 25 + rnd k * 20) in *.
  assert (R0 : 25 <= r0) by (unfold r0; nra).
  assert (R1 : r0 < 45) by (unfold r0; nra).
  clearbody r0.
  assert (W0 : 0 < canvasWidth - 2 * r0) by lra.
  set (w := canvasWidth - 2 * r0) in *.
  assert (P0 : 0 <= rnd (S k) * w) by nra.
  assert (P1 : rnd (S k) * w < w) by nra.
  repeat split; try reflexivity; try assumption; unfold w in *; lra.
Qed.

(** A balloon of the easy profile on the canvas of the scenarios. *)
Lemma create_in_bounds_witness :
  Balloon.r (fst (Balloon.create 601 800 600 (8 # 10) (5 # 100) (5 # 100)
                    (Scenario.draws []) O)) < 45.
Proof.
  apply (create_in_bounds 601 800 600 (8 # 10) (5 # 100) (5 # 100) (Scenario.draws []) O).
  - intro j. unfold Scenario.draws.
    destruct (nth_in_or_default j (@nil Q) (1 # 2)) as [[] | ->].
    split; [discriminate | reflexivity].
  - discriminate.
Defined.





(** * Further properties of the particles *)

Lemma Particle_new_fresh x y color rnd k :
  let p := fst (Particle.new x y color rnd k) in
  Particle.x p = x /\ Particle.y p = y /\ Particle.color p = color
  /\ Particle.life p = 1 /\ Particle.alpha p = 1.
Proof. cbv zeta. unfold Particle.new, bind, Math_random, ret. cbn. repeat split. Qed.

(** A loop whose every turn pushes one particle appends as many
    particles as it has turns. *)
Lemma repeatRand_appends (P : Particle.t -> Prop) body :
  (forall s rnd k, exists p, fst (body s rnd k) = ParticleSystem.push p s /\ P p) ->
  forall n s rnd k,
    exists burst,
      ParticleSystem.particles (fst (repeatRand n body s rnd k))
      = ParticleSystem.particles s ++ burst
      /\ List.length burst = n /\ Forall P burst.
Proof.
  intros Hbody n. induction n as [|n IH]; intros s rnd k; cbn [repeatRand].
  - exists []. rewrite app_nil_r. repeat split. constructor.
  - unfold bind. destruct (Hbody s rnd k) as (p & Hp & HP).
    destruct (body s rnd k) as [s1 k1]. cbn [fst] in Hp. subst s1.
    destruct (IH (ParticleSystem.push p s) rnd k1) as (burst & Hb & Hl & Hf).
    exists (p :: burst). rewrite Hb. cbn. rewrite <- app_assoc. repeat split.
    + f_equal. exact Hl.
    + constructor; assumption.
Qed.

Lemma forRand_appends (P : Particle.t -> Prop) body :
  (forall i s rnd k, exists p, fst (body i s rnd k) = ParticleSystem.push p s /\ P p) ->
  forall n i0 s rnd k,
    exists burst,
      ParticleSystem.particles (fst (forRand n i0 body s rnd k))
      = ParticleSystem.particles s ++ burst
      /\ List.length burst = n /\ Forall P burst.
Proof.
  intros Hbody n. induction n as [|n IH]; intros i0 s rnd k; cbn [forRand].
  - exists []. rewrite app_nil_r. repeat split. constructor.
  - unfold bind. destruct (Hbody i0 s rnd k) as (p & Hp & HP).
    destruct (body i0 s rnd k) as [s1 k1]. cbn [fst] in Hp. subst s1.
    destruct (IH (S i0) (ParticleSystem.push p s) rnd k1) as (burst & Hb & Hl & Hf).
    exists (p :: burst). rewrite Hb. cbn. rewrite <- app_assoc. repeat split.
    + f_equal. exact Hl.
    + constructor; assumption.
Qed.

(** The particles of a burst: at the point of the burst, with a whole life. *)
Lemma addParticles_burst x y color count s rnd k :
  exists burst,
    ParticleSystem.particles (fst (ParticleSystem.addParticles x y color count s rnd k))
    = ParticleSystem.particles s ++ burst
    /\ List.length burst = count
    /\ Forall (fun p => Particle.x p = x /\ Particle.y p = y /\ Particle.color p = color
                        /\ Particle.life p = 1) burst.
Proof.
  unfold ParticleSystem.addParticles. apply repeatRand_appends.
  intros s0 rnd0 k0. unfold bind, ret.
  pose proof (Particle_new_fresh x y color rnd0 k0) as H. cbv zeta in H.
  destruct (Particle.new x y color rnd0 k0) as [p k1]. cbn [fst] in *.
  exists p. split; [reflexivity | tauto].
Qed.

(** X21. [addParticles] keeps the particles there are and appends
    [count] new ones, each at the given point, of the given colour, with a
    whole life. *)
Theorem addParticles_appends_count x y color count s rnd k :
  exists burst,
    ParticleSystem.particles (fst (ParticleSystem.addParticles x y color count s rnd k))
    = ParticleSystem.particles s ++ burst
    /\ List.length burst = count
    /\ Forall (fun p => Particle.x p = x /\ Particle.y p = y /\ Particle.color p = color
                        /\ Particle.life p = 1) burst.
Proof. apply addParticles_burst. Qed.

(** X22. Each of the other bursts keeps the particles there are and
    appends a fixed number of new ones at the given point with a whole
    life: twenty for the fireworks, ten for the sparkles, one for the
    trail, and for the combo explosion [10 + 3 * comboCount], at most
    thirty. *)
Theorem bursts_append_fixed_numbers (M : MathLib) x y color comboCount0 s rnd k :
  let fresh := fun p => Particle.x p = x /\ Particle.y p = y /\ Particle.life p = 1 in
  let appended := fun (s' : ParticleSystem.t) (n : nat) =>
    exists burst, ParticleSystem.particles s' = ParticleSystem.particles s ++ burst
                  /\ List.length burst = n /\ Forall fresh burst in
  appended (fst (ParticleSystem.addFireworks M x y color s rnd k)) 20%nat
  /\ appended (fst (ParticleSystem.addSparkles x y s rnd k)) 10%nat
  /\ appended (fst (ParticleSystem.addTrail x y color s rnd k)) 1%nat
  /\ appended (fst (ParticleSystem.addComboExplosion M x y comboCount0 s rnd k))
       (Z.to_nat (Z.min 30 (10 + comboCount0 * 3)))
  /\ (Z.to_nat (Z.min 30 (10 + comboCount0 * 3)) <= 30)%nat.
Proof.
  cbv zeta. split; [|split; [|split; [|split]]].
  - unfold ParticleSystem.addFireworks. apply forRand_appends.
    intros i s0 rnd0 k0. unfold bind, Math_random, ret.
    pose proof (Particle_new_fresh x y color rnd0 k0) as H. cbv zeta in H.
    destruct (Particle.new x y color rnd0 k0) as [p k1]. cbn [fst] in *.
    eexists. split; [reflexivity|]. cbn. tauto.
  - unfold ParticleSystem.addSparkles. apply repeatRand_appends.
    intros s0 rnd0 k0. unfold bind, Math_random, ret.
    match goal with
    | |- context [Particle.new x y ?c rnd0 ?k1] =>
        pose proof (Particle_new_fresh x y c rnd0 k1) as H; cbv zeta in H;
        destruct (Particle.new x y c rnd0 k1) as [p k2]
    end.
    cbn [fst] in *. eexists. split; [reflexivity|]. cbn. tauto.
  - unfold ParticleSystem.addTrail, bind, Math_random, ret.
    pose proof (Particle_new_fresh x y color rnd k) as H. cbv zeta in H.
    destruct (Particle.new x y color rnd k) as [p k1]. cbn [fst] in *.
    eexists. split; [reflexivity|]. split; [reflexivity|].
    constructor; [cbn; tauto | constructor].
  - unfold ParticleSystem.addComboExplosion. apply repeatRand_appends.
    intros s0 rnd0 k0. unfold bind, Math_random, ret.
    match goal with
    | |- context [Particle.new x y ?c rnd0 ?k1] =>
        pose proof (Particle_new_fresh x y c rnd0 k1) as H; cbv zeta in H;
        destruct (Particle.new x y c rnd0 k1) as [p k2]
    end.
    cbn [fst] in *. eexists. split; [reflexivity|]. cbn. tauto.
  - lia.
Qed.

(** A particle with at most a whole life is dead after a frame of a
    sixtieth of a second or more. *)
Lemma Particle_dies (deltaTime : Q) (p : Particle.t) :
  1 <= deltaTime * 60 -> Particle.life p <= 1 ->
  Particle.isDead (Particle.update deltaTime p) = true.
Proof.
  intros Hdt Hl. unfold Particle.isDead, Particle.update.
  cbn [Particle.life Particle.alpha].
  apply orb_true_iff. left. apply Qle_bool_iff. lra.
Qed.

(** X23. [update] of the particle system takes [deltaTime * 60] off
    the life of every particle and drops those with none left; a particle
    starts with a life of 1, so a frame of a sixtieth of a second or more
    leaves no particle whose life was at most 1, and in particular none of
    a burst just added. *)
Theorem frame_clears_particles (deltaTime : Q) (s : ParticleSystem.t) :
  1 <= deltaTime * 60 ->
  (Forall (fun p => Particle.life p <= 1) (ParticleSystem.particles s) ->
     ParticleSystem.particles (ParticleSystem.update deltaTime s) = [])
  /\ (forall x y color count rnd k,
        ParticleSystem.particles
          (ParticleSystem.update deltaTime
             (fst (ParticleSystem.addParticles x y color count s rnd k)))
        = ParticleSystem.particles (ParticleSystem.update deltaTime s)).
Proof.
  intro Hdt.
  assert (Clear : forall l, Forall (fun p => Particle.life p <= 1) l ->
             filter (fun p => negb (Particle.isDead p)) (map (Particle.update deltaTime) l)
             = []).
  { induction l as [|p l IH]; intro Hf; cbn.
    - reflexivity.
    - inversion Hf as [|? ? Hp Hf']. subst.
      rewrite (Particle_dies deltaTime p Hdt Hp). cbn. apply IH. exact Hf'. }
  split.
  - intro Hf. unfold ParticleSystem.update. cbn. apply Clear. exact Hf.
  - intros x y color count rnd k.
    destruct (addParticles_burst x y color count s rnd k) as (burst & Hb & _ & Hf).
    unfold ParticleSystem.update. cbn. rewrite Hb, map_app, filter_app, (Clear burst).
    + apply app_nil_r.
    + apply Forall_forall. intros p Hp. rewrite Forall_forall in Hf.
      destruct (Hf p Hp) as (_ & _ & _ & Hl). rewrite Hl. discriminate.
Qed.

(** The burst of a pop does not outlast a frame of 17 ms. *)
Lemma frame_clears_particles_witness :
  ParticleSystem.particles
    (ParticleSystem.update (17 # 1000)
       (fst (ParticleSystem.addParticles 400 300 (86, 57, 230)%Z 15 ParticleSystem.empty
               (Scenario.draws []) O))) = [].
Proof.
  destruct (frame_clears_particles (17 # 1000) ParticleSystem.empty) as (_ & H).
  - discriminate.
  - rewrite H. reflexivity.
Defined.

(** * What the registry shows *)

(** X24. [getPrimaryPowerUpDisplay] shows nothing when no power-up is
    active; when the active power-ups are of the five power-up types, it
    shows the one activated first among them, whatever the order of the
    priority list: its name with a capital, its remaining time and its
    emoji. *)
Theorem display_shows_oldest_active (m : PowerUpManager.t) :
  Forall (fun p => In (pu_type p) [slow; multiplier; freeze; magnet; defuser])
    (PowerUpManager.getActivePowerUps m) ->
  PowerUpManager.getPrimaryPowerUpDisplay m
  = match PowerUpManager.getActivePowerUps m with
    | [] => None
    | p :: _ =>
        Some {| PowerUpManager.shown_type :=
                  PowerUpManager.capitalized (PowerUpManager.typeName (pu_type p));
                PowerUpManager.shown_timeLeft := timeLeft p;
                PowerUpManager.shown_emoji :=
                  match PowerUpManager.emojiMap (pu_type p) with
                  | Some e => e
                  | None => "⭐"%string
                  end |}
    end.
Proof.
  intro Hf. unfold PowerUpManager.getPrimaryPowerUpDisplay.
  destruct (PowerUpManager.getActivePowerUps m) as [|p rest]; [reflexivity|].
  inversion Hf as [|? ? Hp _]. subst. cbn [find].
  assert (E : existsb (tag_eqb (pu_type p)) PowerUpManager.priority = true).
  { cbn [In] in Hp.
    destruct Hp as [H | [H | [H | [H | [H | []]]]]]; rewrite <- H; reflexivity. }
  rewrite E. reflexivity.
Qed.

(** A slow-motion is activated, then a freeze, first in the priority
    list: the slow-motion is shown. *)
Lemma display_shows_oldest_active_witness :
  PowerUpManager.getPrimaryPowerUpDisplay
    (fst (PowerUpManager.activatePowerUp freeze 10
            (fst (PowerUpManager.activatePowerUp slow 10 PowerUpManager.empty))))
  = Some {| PowerUpManager.shown_type := "Slow";
            PowerUpManager.shown_timeLeft := 10;
            PowerUpManager.shown_emoji := "⏳" |}.
Proof.
  rewrite display_shows_oldest_active.
  - reflexivity.
  - repeat constructor; cbn; tauto.
Defined.

(** * Witnesses on concrete games *)

(** The bomb of the first scenario is tapped: one balloon of the two is
    left. *)
Lemma tap_pops_exactly_one_witness :
  List.length (GameEngine.balloons
                 (fst (GameEngine.handleInput RationalMath.lib
                         (Scenario.tapOn 0 Scenario.bombAndHeart) Scenario.bombAndHeart
                         (Scenario.draws []) O))) = 1%nat.
Proof.
  destruct (tap_pops_exactly_one RationalMath.lib Scenario.bombAndHeart
              (Scenario.tapOn 0 Scenario.bombAndHeart)
              O (Scenario.balloonAt 0 Scenario.bombAndHeart) (Scenario.draws []) O)
    as (_ & H & _).
  - vm_compute. reflexivity.
  - vm_compute. reflexivity.
  - apply eq_add_S. rewrite H. vm_compute. reflexivity.
Defined.

(** The multiplier balloon is popped: twenty points for ten. *)
Lemma powerUp_pop_scores_after_activation_witness :
  score (GameEngine.state
           (fst (GameEngine.popBalloon RationalMath.lib
                   (Scenario.balloonAt 0 Scenario.multiplierRisen) 0
                   (Scenario.tapOn 0 Scenario.multiplierRisen) Scenario.multiplierRisen
                   (Scenario.draws []) O))) = 20%Z.
Proof.
  destruct (powerUp_pop_scores_after_activation RationalMath.lib Scenario.multiplierRisen
              (Scenario.balloonAt 0 Scenario.multiplierRisen) O
              (Scenario.tapOn 0 Scenario.multiplierRisen) (Scenario.draws []) O)
    as (_ & _ & Hs & Hm).
  - vm_compute. tauto.
  - rewrite Hs, Hm; vm_compute; reflexivity.
Defined.

(** The frame after the freeze was tapped. *)
Lemma frozen_frame_moves_nothing_witness :
  GameEngine.balloons
    (fst (GameEngine.update RationalMath.lib 1400 1400 Scenario.frozen
            (Scenario.draws []) O))
  = GameEngine.balloons Scenario.frozen.
Proof.
  rewrite (frozen_frame_moves_nothing RationalMath.lib 1400 1400 Scenario.frozen).
  - vm_compute. reflexivity.
  - vm_compute. reflexivity.
  - vm_compute. reflexivity.
Defined.

(** * The score and the combo over a whole session *)

Section Session.
Variable M : MathLib.

Lemma exec_score c env e :
  match c with
  | GameEngine.call_startGame _ | GameEngine.call_resetGame =>
      score (GameEngine.state (GameEngine.exec M c env e)) = 0%Z
  | _ =>
      (score (GameEngine.state e) <= score (GameEngine.state (GameEngine.exec M c env e)))%Z
  end.
Proof.
  destruct c; cbn [GameEngine.exec]; try (cbn; lia).
  - unfold GameEngine.startGame, GameEngine.updateDifficulty, GameEngine.resetGame.
    match goal with
    | |- context [GameEngine.onRegistry ?f ?x] =>
        destruct (onRegistry_frame f x) as (R1 & _);
        set (e1 := GameEngine.onRegistry f x) in *; clearbody e1
    end.
    cbn in R1 |- *. rewrite R1. reflexivity.
  - unfold GameEngine.resetGame.
    match goal with
    | |- context [GameEngine.onRegistry ?f ?x] =>
        destruct (onRegistry_frame f x) as (R1 & _);
        set (e1 := GameEngine.onRegistry f x) in *; clearbody e1
    end.
    cbn in R1 |- *. rewrite R1. reflexivity.
  - unfold run. destruct (running (GameEngine.state e)) eqn:Hrun.
    + destruct (update_outcome M currentTime (now env) e (random env) O Hrun)
        as (lost & Hs & _).
      cbv zeta in Hs. rewrite Hs. cbn. lia.
    + unfold GameEngine.update. rewrite Hrun. cbn. lia.
  - unfold run, GameEngine.handleInput.
    destruct (running (GameEngine.state e)); cbn [negb]; [|cbn; lia].
    destruct (GameEngine.hitScan M _ _ _ _) as [[i b]|]; [|cbn; lia].
    destruct (popBalloon_shape M b i event e (random env) O) as (_ & Hs & _). exact Hs.
Qed.

Lemma exec_comboCount c env e :
  (0 <= GameEngine.comboCount e)%Z ->
  (0 <= GameEngine.comboCount (GameEngine.exec M c env e))%Z.
Proof.
  intro H0. destruct c; cbn [GameEngine.exec]; try (cbn; lia).
  - unfold run. destruct (running (GameEngine.state e)) eqn:Hrun.
    + destruct (update_outcome M currentTime (now env) e (random env) O Hrun)
        as (lost & _ & _ & _ & _ & _ & Hc & _).
      cbv zeta in Hc. rewrite Hc.
      destruct (Nat.eqb lost 0); [destruct (_ && _)|]; lia.
    + unfold GameEngine.update. rewrite Hrun. cbn. exact H0.
  - unfold run, GameEngine.handleInput.
    destruct (running (GameEngine.state e)); cbn [negb]; [|cbn; lia].
    destruct (GameEngine.hitScan M _ _ _ _) as [[i b]|]; [|cbn; lia].
    destruct (Balloon.type b) eqn:Ht.
    1, 2: destruct (popBalloon_scoring M b i event e (random env) O) as (Hc & _);
          [rewrite Ht; auto | rewrite Hc; lia].
    + destruct (popBalloon_heart M b i event e (random env) O Ht) as (_ & _ & Hc & _).
      rewrite Hc. exact H0.
    + destruct (popBalloon_bomb M b i event e (random env) O Ht) as (_ & _ & _ & Hon & Hoff).
      destruct (PowerUpManager.isDefuserActive (GameEngine.powerUpManager e)).
      * destruct (Hon eq_refl) as (_ & Hc & _). rewrite Hc. exact H0.
      * destruct (Hoff eq_refl) as (_ & Hc & _). rewrite Hc. lia.
    + destruct (popBalloon_powerUp M b i event e (random env) O) as (_ & _ & Hc & _);
        [rewrite Ht; cbn; tauto | rewrite Hc; lia].
    + destruct (popBalloon_powerUp M b i event e (random env) O) as (_ & _ & Hc & _);
        [rewrite Ht; cbn; tauto | rewrite Hc; lia].
    + destruct (popBalloon_powerUp M b i event e (random env) O) as (_ & _ & Hc & _);
        [rewrite Ht; cbn; tauto | rewrite Hc; lia].
    + destruct (popBalloon_powerUp M b i event e (random env) O) as (_ & _ & Hc & _);
        [rewrite Ht; cbn; tauto | rewrite Hc; lia].
    + destruct (popBalloon_powerUp M b i event e (random env) O) as (_ & _ & Hc & _);
        [rewrite Ht; cbn; tauto | rewrite Hc; lia].
Qed.

(** X25. In every engine a driver can bring about, the score and the
    combo count are never negative; and no call but [startGame] and
    [resetGame], which set the score to 0, ever lowers the score. *)
Theorem score_and_combo_never_negative dimensions0 config0 e :
  GameEngine.Reachable M dimensions0 config0 e ->
  (0 <= score (GameEngine.state e))%Z
  /\ (0 <= GameEngine.comboCount e)%Z
  /\ (forall c env,
        (score (GameEngine.state e) <= score (GameEngine.state (GameEngine.exec M c env e)))%Z
        \/ ((exists difficulty, c = GameEngine.call_startGame difficulty)
            \/ c = GameEngine.call_resetGame)
           /\ score (GameEngine.state (GameEngine.exec M c env e)) = 0%Z).
Proof.
  intro Hr.
  assert (H : (0 <= score (GameEngine.state e))%Z /\ (0 <= GameEngine.comboCount e)%Z).
  { induction Hr as [|c env e He [IH1 IH2]].
    - cbn. split; lia.
    - split; [|apply exec_comboCount; exact IH2].
      pose proof (exec_score c env e) as Hs. destruct c; lia. }
  destruct H as [H1 H2]. split; [exact H1|]. split; [exact H2|].
  intros c env. pose proof (exec_score c env e) as Hs.
  destruct c; try (left; exact Hs).
  - right. split; [left; eexists; reflexivity | exact Hs].
  - right. split; [right; reflexivity | exact Hs].
Qed.

End Session.

Lemma score_and_combo_never_negative_witness :
  (0 <= score (GameEngine.state Scenario.fiveNormals))%Z.
Proof.
  refine (proj1 (score_and_combo_never_negative RationalMath.lib Scenario.canvas
                   DEFAULT_GAME_CONFIG Scenario.fiveNormals _)).
  unfold Scenario.fiveNormals, Scenario.play, Scenario.fresh.
  apply execAll_Reachable. constructor.
Defined.
